(** * ZoteroAssistant: provider session and streaming completion client

    A shallow embedding of three objects of the add-on and the properties
    proved about them:

    - [TokenStorage]      chrome/content/services/auth/tokenStorage.js
    - [GitHubDeviceFlow]  the device-flow object
    - [CopilotClient]     chrome/content/services/ai/copilotClient.js

    The JavaScript is asynchronous but single threaded: every [await] is a
    sequencing point, so an async function is a computation in the monad [M]
    below, which threads one [World] (login manager, clock, the module level
    caches, the scripted network, the callback logs) and keeps the world a
    throwing computation has reached, as JavaScript does.

    What the host provides and the source does not define is a parameter,
    the class [Host]: JSON.parse, JSON.stringify, the string-to-number
    conversion and the TypeError the engine raises on a property read of
    null.  General statements hold for every host; [RefHost] is a small
    concrete one on which the examples run.

    [Zotero.debug] only writes to a log nothing reads back; it is left out.

    The file has the embedding first ([JS], the world, the three objects,
    [RefHost]), then the definitions the statements use ([Views],
    [Examples]), then the facts, one module per subject. *)

From Stdlib Require Import ZArith String List Ascii Bool Lia DecimalString.
Import ListNotations.
Open Scope string_scope.
Open Scope Z_scope.
Set Warnings "-register-all".

(* ================================================================== *)
(** * JavaScript values and the built-ins the source uses *)
(* ================================================================== *)

Module JS.

(** ** Strings

    A string is a sequence of code units below 256 ([ascii]): the text of
    the Latin-1 range.  Case mapping and white space are those JavaScript
    has on these code units. *)

Definition Z_to_string (z : Z) : string := NilZero.string_of_int (Z.to_int z).

(** [s.startsWith(p)] *)
Definition startsWith (s p : string) : bool := prefix p s.

(** [s.includes(p)] *)
Definition includes (s p : string) : bool :=
  match index 0 p s with Some _ => true | None => false end.

(** The lower case of a code unit: A to Z, and the capital letters U+00C0
    to U+00DE but the multiplication sign U+00D7. *)
Definition lower_ascii (c : ascii) : ascii :=
  let n := nat_of_ascii c in
  if orb (andb (Nat.leb 65 n) (Nat.leb n 90))
         (andb (andb (Nat.leb 192 n) (Nat.leb n 222)) (negb (Nat.eqb n 215)))
  then ascii_of_nat (n + 32) else c.

(** [s.toLowerCase()] *)
Fixpoint toLowerCase (s : string) : string :=
  match s with
  | EmptyString => EmptyString
  | String c r => String (lower_ascii c) (toLowerCase r)
  end.

(** White space and line terminators, as [trim] strips them: U+0009 to
    U+000D, the space and the no-break space U+00A0. *)
Definition is_space (c : ascii) : bool :=
  let n := nat_of_ascii c in
  orb (orb (Nat.eqb n 32) (Nat.eqb n 160)) (andb (Nat.leb 9 n) (Nat.leb n 13)).

Fixpoint trimStart (s : string) : string :=
  match s with
  | String c r => if is_space c then trimStart r else s
  | EmptyString => EmptyString
  end.

(** Drops the white space that ends [s]: a character is kept when it is
    not a space or when something is kept after it. *)
Fixpoint trimEnd (s : string) : string :=
  match s with
  | EmptyString => EmptyString
  | String c r =>
      match trimEnd r with
      | EmptyString => if is_space c then EmptyString else String c EmptyString
      | r' => String c r'
      end
  end.

(** [s.trim()] *)
Definition trim (s : string) : string := trimEnd (trimStart s).

(** [s.substring(0, n)] *)
Definition substring0 (n : nat) (s : string) : string := substring 0 n s.

(** [s.slice(n)] for [n >= 0] *)
Fixpoint slice (n : nat) (s : string) : string :=
  match n, s with
  | O, _ => s
  | S n', String _ r => slice n' r
  | S _, EmptyString => EmptyString
  end.

Definition newline : ascii := ascii_of_nat 10.

(** [s.split("\n")] with the piece being read in [cur]: never empty, a
    string without a newline is its own single piece. *)
Fixpoint split_lines_from (cur : string) (s : string) : list string :=
  match s with
  | EmptyString => [cur]
  | String c r =>
      if Ascii.eqb c newline
      then cur :: split_lines_from EmptyString r
      else split_lines_from (cur ++ String c EmptyString) r
  end.

Definition split_lines (s : string) : list string :=
  split_lines_from EmptyString s.

(** [parts.join(sep)] *)
Fixpoint join (sep : string) (parts : list string) : string :=
  match parts with
  | [] => EmptyString
  | [p] => p
  | p :: rest => p ++ sep ++ join sep rest
  end.

(** ** Values

    Numbers are integers: the program's numbers are millisecond time
    stamps, epoch seconds, HTTP status codes and intervals.  [NaN] is the
    one non-number the arithmetic of the source can produce. *)

Inductive value : Type :=
| Undefined
| Null
| Bool (b : bool)
| Num (n : Z)
| NaN
| Str (s : string)
| Arr (items : list value)
| Obj (fields : list (string * value)).

(** ToBoolean *)
Definition truthy (v : value) : bool :=
  match v with
  | Undefined | Null | NaN => false
  | Bool b => b
  | Num n => negb (n =? 0)
  | Str s => negb (s =? "")%string
  | Arr _ | Obj _ => true
  end.

(** [a || b] *)
Definition or_else (a b : value) : value := if truthy a then a else b.

(** ToString, as string concatenation and template literals apply it. *)
Fixpoint ToString (v : value) : string :=
  match v with
  | Undefined => "undefined"
  | Null => "null"
  | Bool true => "true"
  | Bool false => "false"
  | Num n => Z_to_string n
  | NaN => "NaN"
  | Str s => s
  | Arr items =>
      join "," (map (fun x => match x with
                              | Undefined | Null => EmptyString
                              | _ => ToString x
                              end) items)
  | Obj _ => "[object Object]"
  end.

(** [typeof v === "string"] *)
Definition is_string (v : value) : bool :=
  match v with Str _ => true | _ => false end.

(** [Array.isArray(v)] *)
Definition isArray (v : value) : bool :=
  match v with Arr _ => true | _ => false end.

(** Own data property of an object; [None] when there is none.  A key is
    bound once in an object (JSON.parse keeps one binding per key). *)
Fixpoint lookup (k : string) (fields : list (string * value)) : option value :=
  match fields with
  | [] => None
  | (k', v) :: rest => if (k =? k')%string then Some v else lookup k rest
  end.

(** [{...fields, k: v}]: an existing key keeps its place and takes the new
    value, a new key goes last. *)
Fixpoint set_field (k : string) (v : value) (fields : list (string * value))
  : list (string * value) :=
  match fields with
  | [] => [(k, v)]
  | (k', v') :: rest =>
      if (k =? k')%string then (k, v) :: rest
      else (k', v') :: set_field k v rest
  end.

(** [v?.k] and, on a value known not to be null or undefined, [v.k].  The
    names the program reads ([error], [message], [token], [storedAt], ...)
    are own data properties only: on a primitive or an array they are
    undefined. *)
Definition opt_prop (v : value) (k : string) : value :=
  match v with
  | Obj fields => match lookup k fields with Some x => x | None => Undefined end
  | _ => Undefined
  end.

(** [v?.[0]] *)
Definition opt_first (v : value) : value :=
  match v with
  | Arr (x :: _) => x
  | Str (String c _) => Str (String c EmptyString)
  | Obj fields => match lookup "0" fields with Some x => x | None => Undefined end
  | _ => Undefined
  end.

(** An array or an object: what JavaScript compares by reference. *)
Definition is_reference (v : value) : bool :=
  match v with Arr _ | Obj _ => true | _ => false end.

(** [a === b] for two values that are not one and the same array or
    object: exact as soon as one of the two is a primitive, which is every
    comparison of the program against a literal or a string, and false for
    two arrays or objects, which are then two distinct ones.  Values carry
    no identity; the one place where the program can compare an object
    with itself, the model tried against the pick from the catalog, goes
    through [CopilotClient.same_model]. *)
Definition strict_eq (a b : value) : bool :=
  match a, b with
  | Undefined, Undefined => true
  | Null, Null => true
  | Bool x, Bool y => Bool.eqb x y
  | Num x, Num y => x =? y
  | Str x, Str y => (x =? y)%string
  | _, _ => false
  end.

(** [list.includes(s)] for a string [s] *)
Definition includes_str (available : list value) (s : string) : bool :=
  existsb (strict_eq (Str s)) available.

(** ** Exceptions *)

Inductive exn : Type :=
| Error (message : string)        (** [new Error(message)] of the program *)
| TypeError (message : string)    (** raised by the engine or by fetch *)
| SyntaxError (message : string)  (** raised by JSON.parse *)
| AbortError (message : string).  (** an aborted fetch or read *)

(** [error.message] *)
Definition message_of (e : exn) : string :=
  match e with
  | Error m | TypeError m | SyntaxError m | AbortError m => m
  end.

(** ** The host *)

Class Host : Type := {
  (** [JSON.parse(text)]: the value, or the SyntaxError it throws *)
  JSON_parse : string -> exn + value;
  (** [JSON.stringify(v)] *)
  JSON_stringify : value -> string;
  (** ToNumber on a string; [None] is NaN *)
  StringToNumber : string -> option Z;
  (** the TypeError of reading property [k] of null or undefined *)
  null_property_error : string -> exn
}.

Section Coercions.
Context {host : Host}.

(** ToNumber; [None] is NaN. *)
Definition ToNumber (v : value) : option Z :=
  match v with
  | Undefined | NaN => None
  | Null => Some 0
  | Bool b => Some (if b then 1 else 0)
  | Num n => Some n
  | Str s => StringToNumber s
  | Arr _ | Obj _ => StringToNumber (ToString v)
  end.

(** A number or NaN as a value. *)
Definition of_number (n : option Z) : value :=
  match n with Some z => Num z | None => NaN end.

(** [a > n] for a number [n]: false when [a] is NaN. *)
Definition gt_number (a : value) (n : Z) : bool :=
  match ToNumber a with Some x => x >? n | None => false end.

(** [n > a] for a number [n]. *)
Definition number_gt (n : Z) (a : value) : bool :=
  match ToNumber a with Some x => n >? x | None => false end.

(** [a * n] *)
Definition times (a : value) (n : Z) : option Z :=
  match ToNumber a with Some x => Some (x * n) | None => None end.

(** [v.k]: throws on null and undefined. *)
Definition prop (v : value) (k : string) : exn + value :=
  match v with
  | Undefined | Null => inl (null_property_error k)
  | _ => inr (opt_prop v k)
  end.

End Coercions.

End JS.
Import JS.

(* ================================================================== *)
(** * The world the program runs in *)
(* ================================================================== *)

(** ** The network *)

(** What [fetch] is called with. *)
Record Request : Type := mkRequest {
  url : string;
  method : string;
  headers : list (string * string);
  requestBody : option string
}.

(** What [fetch] resolves to.  The body arrives in chunks; reading it can
    fail after the chunks (a dropped connection, an abort). *)
Record Response : Type := mkResponse {
  status : Z;
  statusText : string;
  xModel : option string;          (** [headers.get("x-model")] *)
  body : list string;
  bodyError : option exn
}.

(** [response.ok] *)
Definition ok (r : Response) : bool :=
  andb (200 <=? status r) (status r <=? 299).

(** One scripted answer of the network: the time the call takes and what
    it settles to. *)
Record Exchange : Type := mkExchange {
  latency : Z;
  outcome : exn + Response
}.

(** ** The login manager (nsILoginManager): the stored logins, oldest
    first, and whether the service answers at all. *)

Record LoginInfo : Type := mkLoginInfo {
  hostname : string;
  httpRealm : string;
  username : string;
  password : string
}.

Definition LoginInfo_eqb (a b : LoginInfo) : bool :=
  ((hostname a =? hostname b) && (httpRealm a =? httpRealm b)
   && (username a =? username b) && (password a =? password b))%string.

(** ** The device flow in progress ([GitHubDeviceFlow.currentFlow]) *)

Record DeviceFlow : Type := mkDeviceFlow {
  deviceCode : value;
  userCode : value;
  verificationUri : value;
  expiresIn : value;
  interval : value;
  startTime : Z
}.

Record World : Type := mkWorld {
  logins : list LoginInfo;
  loginsAvailable : bool;
  clock : Z;                              (** [Date.now()] *)
  network : list Exchange;                (** answers to the coming fetches *)
  requests : list Request;                (** fetches issued, oldest first *)
  cachedModels : option (list value);     (** [_cachedModels], [None] is null *)
  cachedModelsAt : Z;                     (** [_cachedModelsAt] *)
  currentFlow : option DeviceFlow;        (** [None] is null *)
  chunkCalls : list (value * string);     (** calls of [onChunk], oldest first *)
  statusCalls : list string               (** calls of [onStatusUpdate] *)
}.

Definition set_logins (l : list LoginInfo) (w : World) : World :=
  mkWorld l (loginsAvailable w) (clock w) (network w) (requests w)
          (cachedModels w) (cachedModelsAt w) (currentFlow w)
          (chunkCalls w) (statusCalls w).

Definition set_clock (t : Z) (w : World) : World :=
  mkWorld (logins w) (loginsAvailable w) t (network w) (requests w)
          (cachedModels w) (cachedModelsAt w) (currentFlow w)
          (chunkCalls w) (statusCalls w).

Definition set_network (n : list Exchange) (r : list Request) (w : World) : World :=
  mkWorld (logins w) (loginsAvailable w) (clock w) n r
          (cachedModels w) (cachedModelsAt w) (currentFlow w)
          (chunkCalls w) (statusCalls w).

Definition set_cache (m : option (list value)) (at_ : Z) (w : World) : World :=
  mkWorld (logins w) (loginsAvailable w) (clock w) (network w) (requests w)
          m at_ (currentFlow w) (chunkCalls w) (statusCalls w).

Definition set_currentFlow (f : option DeviceFlow) (w : World) : World :=
  mkWorld (logins w) (loginsAvailable w) (clock w) (network w) (requests w)
          (cachedModels w) (cachedModelsAt w) f (chunkCalls w) (statusCalls w).

Definition set_chunkCalls (c : list (value * string)) (w : World) : World :=
  mkWorld (logins w) (loginsAvailable w) (clock w) (network w) (requests w)
          (cachedModels w) (cachedModelsAt w) (currentFlow w) c (statusCalls w).

Definition set_statusCalls (c : list string) (w : World) : World :=
  mkWorld (logins w) (loginsAvailable w) (clock w) (network w) (requests w)
          (cachedModels w) (cachedModelsAt w) (currentFlow w) (chunkCalls w) c.

(** ** Computations: a state monad whose exceptions keep the state *)

Inductive completion (A : Type) : Type :=
| Returned (a : A)
| Thrown (e : exn).
Arguments Returned {A} a.
Arguments Thrown {A} e.

Definition M (A : Type) : Type := World -> completion A * World.

Definition ret {A} (a : A) : M A := fun w => (Returned a, w).

Definition throw {A} (e : exn) : M A := fun w => (Thrown e, w).

Definition bind {A B} (c : M A) (k : A -> M B) : M B :=
  fun w =>
    match c w with
    | (Returned a, w') => k a w'
    | (Thrown e, w') => (Thrown e, w')
    end.

(** [try { c } catch (e) { h e }] *)
Definition try_catch {A} (c : M A) (h : exn -> M A) : M A :=
  fun w =>
    match c w with
    | (Thrown e, w') => h e w'
    | r => r
    end.

Definition lift {A} (r : exn + A) : M A :=
  match r with inl e => throw e | inr a => ret a end.

Declare Scope js_scope.
Delimit Scope js_scope with js.
Notation "x <- c ;; k" := (bind c (fun x => k))
  (at level 61, c at next level, right associativity) : js_scope.
Notation "c ;; k" := (bind c (fun _ => k))
  (at level 61, right associativity) : js_scope.
Open Scope js_scope.

(** [for (const x of xs) body(x)] *)
Fixpoint for_of {A} (xs : list A) (body : A -> M unit) : M unit :=
  match xs with
  | [] => ret tt
  | x :: rest => body x ;; for_of rest body
  end.

(** ** Host operations on the world *)

(** [Date.now()] *)
Definition Date_now : M Z := fun w => (Returned (clock w), w).

(** [fetch(url, init)]: logs the call, takes the next scripted answer and
    lets its latency pass.  A network with no answer left is unreachable. *)
Definition fetch (req : Request) : M Response :=
  fun w =>
    match network w with
    | [] =>
        (Thrown (TypeError "NetworkError when attempting to fetch resource."),
         set_network [] (requests w ++ [req]) w)
    | x :: rest =>
        let w' := set_clock (clock w + latency x)
                            (set_network rest (requests w ++ [req]) w) in
        match outcome x with
        | inl e => (Thrown e, w')
        | inr r => (Returned r, w')
        end
    end.

(** The chunks of a body put end to end. *)
Fixpoint concat_chunks (chunks : list string) : string :=
  match chunks with
  | [] => EmptyString
  | chunk :: rest => chunk ++ concat_chunks rest
  end.

(** [response.text()] *)
Definition text (r : Response) : M string :=
  match bodyError r with
  | Some e => throw e
  | None => ret (concat_chunks (body r))
  end.

(** [new Error(v)] *)
Definition new_Error (v : value) : exn := Error (ToString v).

(** [setTimeout(f, delay)] seen from [f]: the delay has passed (none for a
    NaN or negative delay). *)
Definition sleep (delay : option Z) : M unit :=
  fun w =>
    (Returned tt,
     set_clock (clock w + match delay with Some d => Z.max d 0 | None => 0 end) w).

Definition login_unavailable : exn := Error "NS_ERROR_NOT_AVAILABLE".

(** [loginManager.findLogins(hostname, null, realm)] *)
Definition findLogins (host_ realm : string) : M (list LoginInfo) :=
  fun w =>
    if loginsAvailable w
    then (Returned (filter (fun l => (hostname l =? host_)%string
                                     && (httpRealm l =? realm)%string)
                           (logins w)), w)
    else (Thrown login_unavailable, w).

(** [loginManager.addLogin(login)] *)
Definition addLogin (login : LoginInfo) : M unit :=
  fun w =>
    if loginsAvailable w
    then (Returned tt, set_logins (logins w ++ [login]) w)
    else (Thrown login_unavailable, w).

Fixpoint remove_first (login : LoginInfo) (l : list LoginInfo) : option (list LoginInfo) :=
  match l with
  | [] => None
  | x :: rest =>
      if LoginInfo_eqb login x then Some rest
      else match remove_first login rest with
           | Some rest' => Some (x :: rest')
           | None => None
           end
  end.

(** [loginManager.removeLogin(login)]: throws when no stored login matches. *)
Definition removeLogin (login : LoginInfo) : M unit :=
  fun w =>
    if loginsAvailable w
    then match remove_first login (logins w) with
         | Some l => (Returned tt, set_logins l w)
         | None => (Thrown (Error "No matching logins"), w)
         end
    else (Thrown login_unavailable, w).

(* ================================================================== *)
(** * TokenStorage *)
(* ================================================================== *)

Module TokenStorage.

Definition HOSTNAME : string := "chrome://zotero-ai-assistant".

Module REALMS.
Definition GITHUB_COPILOT : string := "GitHub Copilot OAuth Token".
Definition GITHUB_COPILOT_SESSION : string := "GitHub Copilot Session Token".
End REALMS.

(** What [getToken] returns when a login is found. *)
Record TokenRecord : Type := mkTokenRecord {
  token : string;
  metadata : value
}.

Definition createLoginInfo (realm username_ password_ : string) : LoginInfo :=
  mkLoginInfo HOSTNAME realm username_ password_.

Section WithHost.
Context {host : Host}.

Definition removeToken (realm : string) : M bool :=
  try_catch
    (found <- findLogins HOSTNAME realm ;;
     for_of found removeLogin ;;
     ret true)
    (fun _ => ret false).

(** [metadata] is the object passed by the caller, as its fields. *)
Definition storeToken (realm token_ : string) (metadata_ : list (string * value))
  : M bool :=
  try_catch
    (removeToken realm ;;
     now <- Date_now ;;
     let username_ :=
       JSON_stringify (Obj (set_field "storedAt" (Num now) metadata_)) in
     addLogin (createLoginInfo realm username_ token_) ;;
     ret true)
    (fun _ => ret false).

(** [None] is the null of the source. *)
Definition getToken (realm : string) : M (option TokenRecord) :=
  try_catch
    (found <- findLogins HOSTNAME realm ;;
     match found with
     | [] => ret None
     | login :: _ =>
         let metadata_ :=
           match JSON_parse (username login) with
           | inr v => v
           | inl _ => Obj []
           end in
         ret (Some (mkTokenRecord (password login) metadata_))
     end)
    (fun _ => ret None).

(** [maxAge] is [Null] when the caller gives none. *)
Definition hasValidToken (realm : string) (maxAge : value) : M bool :=
  result <- getToken realm ;;
  match result with
  | None => ret false
  | Some r =>
      tooOld <-
        (if truthy maxAge then
           storedAt <- lift (prop (metadata r) "storedAt") ;;
           if truthy storedAt then
             now <- Date_now ;;
             match ToNumber storedAt, ToNumber maxAge with
             | Some s, Some m => ret (now - s >? m)
             | _, _ => ret false
             end
           else ret false
         else ret false) ;;
      if (tooOld : bool) then ret false
      else
        expiresAt <- lift (prop (metadata r) "expiresAt") ;;
        if truthy expiresAt then
          now <- Date_now ;;
          if number_gt now expiresAt then ret false else ret true
        else ret true
  end.

Definition clearAll : M unit :=
  for_of [REALMS.GITHUB_COPILOT; REALMS.GITHUB_COPILOT_SESSION]
         (fun realm => removeToken realm ;; ret tt).

End WithHost.
End TokenStorage.

(* ================================================================== *)
(** * GitHubDeviceFlow *)
(* ================================================================== *)

Module GitHubDeviceFlow.

Import TokenStorage.

Definition CLIENT_ID : string := "Iv1.b507a08c87ecfe98".
Definition DEVICE_CODE_URL : string := "https://github.com/login/device/code".
Definition ACCESS_TOKEN_URL : string := "https://github.com/login/oauth/access_token".
Definition COPILOT_TOKEN_URL : string := "https://api.github.com/copilot_internal/v2/token".
Definition USER_INFO_URL : string := "https://api.github.com/user".

Definition DEFAULT_INTERVAL : Z := 5000.
Definition MAX_POLL_TIME : Z := 900000.

(** What [getCopilotToken] returns; [expiresAt] is [None] when the product
    [expires_at * 1000] is NaN. *)
Record CopilotToken : Type := mkCopilotToken {
  copilotToken_token : value;
  copilotToken_expiresAt : option Z
}.

(** How one run of the [poll] closure ends: it settles the promise of
    [pollForToken] or schedules itself again. *)
Inductive PollStep : Type :=
| Resolve (accessToken : value)
| Reject (e : exn)
| Schedule (delay : option Z).

(** [Math.max(a, b)] with [None] for NaN *)
Definition Math_max (a b : option Z) : option Z :=
  match a, b with
  | Some x, Some y => Some (Z.max x y)
  | _, _ => None
  end.

Section WithHost.
Context {host : Host}.

(** [response.json()] *)
Definition json (r : Response) : M value :=
  t <- text r ;; lift (JSON_parse t).

Definition json_headers : list (string * string) :=
  [("Accept", "application/json"); ("Content-Type", "application/json")].

Definition startDeviceFlow : M value :=
  try_catch
    (response <- fetch (mkRequest DEVICE_CODE_URL "POST" json_headers
                          (Some (JSON_stringify (Obj [("client_id", Str CLIENT_ID)])))) ;;
     if negb (ok response) then
       throw (Error ("HTTP " ++ Z_to_string (status response) ++ ": "
                     ++ statusText response))
     else
       data <- json response ;;
       err <- lift (prop data "error") ;;
       if truthy err then
         throw (new_Error (or_else (opt_prop data "error_description") err))
       else
         now <- Date_now ;;
         (fun w => (Returned tt,
            set_currentFlow
              (Some (mkDeviceFlow (opt_prop data "device_code")
                                  (opt_prop data "user_code")
                                  (opt_prop data "verification_uri")
                                  (opt_prop data "expires_in")
                                  (or_else (opt_prop data "interval") (Num 5))
                                  now)) w)) ;;
         ret (Obj [("userCode", opt_prop data "user_code");
                   ("verificationUri", opt_prop data "verification_uri");
                   ("expiresIn", opt_prop data "expires_in")]))
    (fun error => throw error).

(** [onStatusUpdate(s)], when the caller gave a callback *)
Definition onStatusUpdate (given : bool) (s : string) : M unit :=
  fun w => (Returned tt,
            if given then set_statusCalls (statusCalls w ++ [s]) w else w).

Definition clearFlow : M unit :=
  fun w => (Returned tt, set_currentFlow None w).

(** The request of one poll for the device code [deviceCode]. *)
Definition pollRequest (deviceCode_ : value) : Request :=
  mkRequest ACCESS_TOKEN_URL "POST" json_headers
    (Some (JSON_stringify
             (Obj [("client_id", Str CLIENT_ID);
                   ("device_code", deviceCode_);
                   ("grant_type",
                    Str "urn:ietf:params:oauth:grant-type:device_code")]))).

(** One run of the closure [poll] of [pollForToken], with the constants the
    closure captured: [deviceCode], [pollInterval], [expiresAt]. *)
Definition poll (hasStatus : bool) (deviceCode_ : value)
                (pollInterval expiresAt : option Z) : M PollStep :=
  now <- Date_now ;;
  if match expiresAt with Some e => now >? e | None => false end then
    clearFlow ;;
    ret (Reject (Error "Device code expired. Please try again."))
  else
    try_catch
      (response <- fetch (pollRequest deviceCode_) ;;
       data <- json response ;;
       err <- lift (prop data "error") ;;
       if truthy err then
         if strict_eq err (Str "authorization_pending") then
           onStatusUpdate hasStatus "waiting" ;;
           ret (Schedule pollInterval)
         else if strict_eq err (Str "slow_down") then
           ret (Schedule (match pollInterval with
                          | Some p => Some (p + 5000)
                          | None => None
                          end))
         else if strict_eq err (Str "expired_token") then
           clearFlow ;;
           ret (Reject (Error "Device code expired. Please try again."))
         else if strict_eq err (Str "access_denied") then
           clearFlow ;;
           ret (Reject (Error "Access denied by user."))
         else
           ret (Reject (new_Error (or_else (opt_prop data "error_description") err)))
       else if truthy (opt_prop data "access_token") then
         clearFlow ;;
         onStatusUpdate hasStatus "success" ;;
         ret (Resolve (opt_prop data "access_token"))
       else
         ret (Reject (Error "Unexpected response from GitHub")))
      (fun error => ret (Reject error)).

(** The timer loop: [poll], and after a [Schedule] the delay and [poll]
    again.  [None] when the promise is still pending after [fuel] runs. *)
Fixpoint poll_loop (fuel : nat) (hasStatus : bool) (deviceCode_ : value)
                   (pollInterval expiresAt : option Z) : M (option value) :=
  match fuel with
  | O => ret None
  | S fuel' =>
      step <- poll hasStatus deviceCode_ pollInterval expiresAt ;;
      match step with
      | Resolve v => ret (Some v)
      | Reject e => throw e
      | Schedule delay =>
          sleep delay ;;
          poll_loop fuel' hasStatus deviceCode_ pollInterval expiresAt
      end
  end.

(** The constants [pollForToken] takes from the current flow. *)
Definition pollInterval_of (f : DeviceFlow) : option Z :=
  Math_max (times (interval f) 1000) (Some DEFAULT_INTERVAL).

Definition expiresAt_of (f : DeviceFlow) : option Z :=
  match times (expiresIn f) 1000 with
  | Some ms => Some (startTime f + ms)
  | None => None
  end.

Definition pollForToken (fuel : nat) (hasStatus : bool) : M (option value) :=
  fun w =>
    match currentFlow w with
    | None => (Thrown (Error "No active device flow. Call startDeviceFlow first."), w)
    | Some f =>
        poll_loop fuel hasStatus (deviceCode f) (pollInterval_of f) (expiresAt_of f) w
    end.

(** The request [getCopilotToken] sends. *)
Definition exchangeRequest (accessToken : value) : Request :=
  mkRequest COPILOT_TOKEN_URL "GET"
            [("Authorization", "Bearer " ++ ToString accessToken);
             ("Accept", "application/json");
             ("Editor-Version", "vscode/1.96.0");
             ("Editor-Plugin-Version", "copilot-chat/0.24.0");
             ("User-Agent", "GitHubCopilotChat/0.24.0")]
            None.

Definition getCopilotToken (accessToken : value) : M CopilotToken :=
  try_catch
    (response <- fetch (exchangeRequest accessToken) ;;
     if negb (ok response) then
       t <- text response ;;
       if status response =? 401 then
         throw (Error "GitHub token is invalid or expired. Please re-authenticate.")
       else if status response =? 403 then
         throw (Error "You do not have access to GitHub Copilot. Please ensure you have an active subscription.")
       else if status response =? 404 then
         throw (Error "GitHub Copilot is not enabled for your account. Please check your subscription.")
       else
         try_catch
           (let trimmed := trim t in
            if startsWith trimmed "{" then
              parsed <- lift (JSON_parse trimmed) ;;
              m <- lift (prop parsed "message") ;;
              if truthy m then throw (new_Error m)
              else
                e <- lift (prop parsed "error") ;;
                throw (new_Error
                         (or_else e (Str ("HTTP " ++ Z_to_string (status response)))))
            else ret tt)
           (fun _ => ret tt) ;;
         throw (Error ("HTTP " ++ Z_to_string (status response) ++ ": "
                       ++ substring0 100 t))
     else
       t <- text response ;;
       data <- try_catch (lift (JSON_parse t))
                 (fun _ => throw (Error "Invalid response from Copilot token endpoint")) ;;
       tok <- lift (prop data "token") ;;
       if negb (truthy tok) then
         throw (Error "No token in Copilot response")
       else
         ret (mkCopilotToken tok (times (opt_prop data "expires_at") 1000)))
    (fun error => throw error).

Definition cancelFlow : M unit := clearFlow.

Definition disconnect : M unit :=
  removeToken REALMS.GITHUB_COPILOT ;;
  removeToken REALMS.GITHUB_COPILOT_SESSION ;;
  ret tt.

Definition bufferTime : Z := 5 * 60 * 1000.

(** The test the catch block of [getSessionToken] makes on the message of
    a failed exchange. *)
Definition auth_failure (message : string) : bool :=
  includes message "401" || includes message "invalid"
  || includes message "expired".

(** The part of [getSessionToken] that follows the freshness test: the
    exchange of the access token for a new session token.  The token
    handed to the login manager is stored as a string: the password of the
    login is [ToString] of it. *)
Definition refreshSession : M value :=
  auth <- getToken REALMS.GITHUB_COPILOT ;;
  match auth with
  | None => throw (Error "Not authenticated. Please connect to GitHub Copilot.")
  | Some a =>
      if negb (truthy (Str (token a))) then
        throw (Error "Not authenticated. Please connect to GitHub Copilot.")
      else
        try_catch
          (copilotToken <- getCopilotToken (Str (token a)) ;;
           storeToken REALMS.GITHUB_COPILOT_SESSION
                      (ToString (copilotToken_token copilotToken))
                      [("expiresAt", of_number (copilotToken_expiresAt copilotToken))] ;;
           ret (copilotToken_token copilotToken))
          (fun error =>
             if auth_failure (message_of error) then
               disconnect ;;
               throw (Error "GitHub session expired. Please reconnect to GitHub Copilot.")
             else throw error)
  end.

Definition getSessionToken : M value :=
  session <- getToken REALMS.GITHUB_COPILOT_SESSION ;;
  fresh <- match session with
           | None => ret false
           | Some s =>
               e <- lift (prop (metadata s) "expiresAt") ;;
               now <- Date_now ;;
               ret (gt_number e (now + bufferTime))
           end ;;
  match session, (fresh : bool) with
  | Some s, true => ret (Str (token s))
  | _, _ => refreshSession
  end.

Definition hasValidSession : M bool :=
  try_catch (tok <- getSessionToken ;; ret (truthy tok)) (fun _ => ret false).

(** [None] is the null of the source. *)
Definition getUserInfo (accessToken : value) : M value :=
  try_catch
    (response <- fetch (mkRequest USER_INFO_URL "GET"
                          [("Authorization", "Bearer " ++ ToString accessToken);
                           ("Accept", "application/json")]
                          None) ;;
     if negb (ok response) then
       throw (Error ("HTTP " ++ Z_to_string (status response)))
     else
       data <- json response ;;
       id <- lift (prop data "id") ;;
       ret (Obj [("id", id);
                 ("login", opt_prop data "login");
                 ("name", opt_prop data "name");
                 ("avatarUrl", opt_prop data "avatar_url")]))
    (fun _ => ret Null).

(** [onShowCode] belongs to the dialog that shows the code and leaves the
    world alone.  [None] when the promise of [pollForToken] is still
    pending after [fuel] polls. *)
Definition authenticate (fuel : nat) (hasStatus : bool) : M (option value) :=
  startDeviceFlow ;;
  polled <- pollForToken fuel hasStatus ;;
  match polled with
  | None => ret None
  | Some accessToken =>
      copilotToken <- getCopilotToken accessToken ;;
      user <- getUserInfo accessToken ;;
      storeToken REALMS.GITHUB_COPILOT (ToString accessToken) [("user", user)] ;;
      storeToken REALMS.GITHUB_COPILOT_SESSION
                 (ToString (copilotToken_token copilotToken))
                 [("expiresAt", of_number (copilotToken_expiresAt copilotToken))] ;;
      ret (Some (Obj [("accessToken", accessToken);
                      ("copilotToken",
                       Obj [("token", copilotToken_token copilotToken);
                            ("expiresAt", of_number (copilotToken_expiresAt copilotToken))]);
                      ("user", user)]))
  end.

End WithHost.
End GitHubDeviceFlow.

(* ================================================================== *)
(** * CopilotClient *)
(* ================================================================== *)

Module CopilotClient.

Import GitHubDeviceFlow.

Definition API_URL : string := "https://api.githubcopilot.com/chat/completions".
Definition MODELS_URLS : list string :=
  ["https://api.githubcopilot.com/models";
   "https://api.githubcopilot.com/chat/models"].

Definition EDITOR_VERSION : string := "vscode/1.96.0".
Definition COPILOT_INTEGRATION_ID : string := "vscode-chat".

Definition FALLBACK_MODELS : list string :=
  ["claude-sonnet-4.5"; "gpt-5"; "gpt-5-mini"; "gpt-4.1"; "gemini-2.5-pro"].

Definition MODELS_CACHE_TTL : Z := 5 * 60 * 1000.

(** [list[0]] *)
Definition first (l : list value) : value :=
  match l with x :: _ => x | [] => Undefined end.

(** ** Model resolution on a given catalog

    [pickFallbackModel] and the part of [resolveModel] and
    [findFallbackModel] that follows the catalog read are functions of the
    catalog and of [this.FALLBACK_MODELS]; they take the latter as
    [ranking], and the methods below pass [FALLBACK_MODELS]. *)

Fixpoint pickRanked (ranking : list string) (available : list value) : option string :=
  match ranking with
  | [] => None
  | candidate :: rest =>
      if includes_str available candidate then Some candidate
      else pickRanked rest available
  end.

Definition pickFallbackModelFrom (ranking : list string) (available : list value)
  : value :=
  match pickRanked ranking available with
  | Some candidate => Str candidate
  | None => or_else (first available) Null
  end.

Definition pickFallbackModel : list value -> value :=
  pickFallbackModelFrom FALLBACK_MODELS.

(** The body of [resolveModel] once the catalog is read. *)
Definition resolveModelIn (ranking : list string) (available : list value)
                          (requestedModel : string) : value :=
  if (length available =? 0)%nat then
    or_else (Str requestedModel) (first (map Str ranking))
  else if truthy (Str requestedModel) && includes_str available requestedModel then
    Str requestedModel
  else
    let fallback := pickFallbackModelFrom ranking available in
    or_else fallback (or_else (Str requestedModel) (first available)).

(** The second loop of [findFallbackModel]. *)
Fixpoint firstOther (ranking : list string) (currentModel : value) : value :=
  match ranking with
  | [] => Null
  | candidate :: rest =>
      if negb (strict_eq (Str candidate) currentModel) then Str candidate
      else firstOther rest currentModel
  end.

(** The body of [findFallbackModel] once the catalog is read, for a
    [currentModel] that is not itself an entry of that catalog: a
    primitive, or an array or object of the caller. *)
Definition findFallbackModelIn (ranking : list string) (available : list value)
                               (currentModel : value) : value :=
  let fallback := pickFallbackModelFrom ranking available in
  if negb (length available =? 0)%nat && truthy fallback
     && negb (strict_eq fallback currentModel)
  then fallback
  else firstOther ranking currentModel.

(** [a === b] for two models each of which, when it is an array or an
    object, is the first entry of a catalog ([pickFallbackModel] and
    [resolveModel] take no other entry that is not a string of the ranked
    list).  Two such entries are one object exactly when their catalogs
    are one array, which [same_catalog] tells. *)
Definition same_model (same_catalog : bool) (a b : value) : bool :=
  if is_reference a && is_reference b then same_catalog else strict_eq a b.

(** The body of [findFallbackModel] once the catalog is read, for a
    [currentModel] that [resolveModel] gave. *)
Definition findFallbackModelAmong (same_catalog : bool) (ranking : list string)
                                  (available : list value) (currentModel : value)
  : value :=
  let fallback := pickFallbackModelFrom ranking available in
  if negb (length available =? 0)%nat && truthy fallback
     && negb (same_model same_catalog fallback currentModel)
  then fallback
  else firstOther ranking currentModel.

(** ** Catalog decoding *)

(** The ids the closure [extract] pushes for one entry: none or one. *)
Definition extract (entry : value) : list value :=
  if negb (truthy entry) then []
  else if is_string entry then [entry]
  else if truthy (opt_prop entry "id") then [opt_prop entry "id"]
  else if truthy (opt_prop entry "model") then [opt_prop entry "model"]
  else if truthy (opt_prop entry "name") then [opt_prop entry "name"]
  else [].

Definition extractModelIds (payload : value) : list value :=
  let ids :=
    match payload with
    | Arr items => flat_map extract items
    | _ =>
        match opt_prop payload "data" with
        | Arr items => flat_map extract items
        | _ =>
            match opt_prop payload "models" with
            | Arr items => flat_map extract items
            | _ => []
            end
        end
    end in
  filter truthy ids.

(** ** Errors *)

Definition shouldRetryWithFallback (status_ : Z) (text_ : string) : bool :=
  if negb (status_ =? 400) && negb (status_ =? 404) && negb (status_ =? 422)
  then false
  else
    let lowered := toLowerCase text_ in
    includes lowered "model" || includes lowered "invalid"
    || includes lowered "unsupported".

Section WithHost.
Context {host : Host}.

Definition formatApiError (status_ : Z) (text_ : string) : string :=
  let message := if (text_ =? "")%string then "Unknown error" else text_ in
  if status_ =? 401 then
    "Copilot API error (401): Authentication failed. Please reconnect to GitHub Copilot."
  else if status_ =? 403 then
    "Copilot API error (403): Access denied. Please ensure you have an active GitHub Copilot subscription."
  else
    let trimmedText := trim text_ in
    let message' : value :=
      if startsWith trimmedText "{" || startsWith trimmedText "[" then
        match JSON_parse trimmedText with
        | inr parsed =>
            if truthy (opt_prop (opt_prop parsed "error") "message") then
              opt_prop (opt_prop parsed "error") "message"
            else if truthy (opt_prop parsed "message") then
              opt_prop parsed "message"
            else if truthy (opt_prop parsed "error") then
              if is_string (opt_prop parsed "error") then opt_prop parsed "error"
              else Str (JSON_stringify (opt_prop parsed "error"))
            else Str message
        | inl _ =>
            if (200 <? String.length message)%nat
            then Str (substring0 200 message ++ "...")
            else Str message
        end
      else Str message in
    "Copilot API error (" ++ Z_to_string status_ ++ "): " ++ ToString message'.

(** ** The model catalog *)

(** What one turn of the loop over [MODELS_URLS] decides. *)
Inductive LoopStep : Type :=
| Continue (models : list value)
| Break (models : list value).

Definition catalog_headers (token_ : value) : list (string * string) :=
  [("Authorization", "Bearer " ++ ToString token_);
   ("Accept", "application/json");
   ("Editor-Version", EDITOR_VERSION);
   ("Copilot-Integration-Id", COPILOT_INTEGRATION_ID)].

Definition fetchModelsFrom (token_ : value) (models : list value) (url_ : string)
  : M LoopStep :=
  try_catch
    (response <- fetch (mkRequest url_ "GET" (catalog_headers token_) None) ;;
     if negb (ok response) then ret (Continue models)
     else
       t <- text response ;;
       if negb (startsWith (trim t) "{") && negb (startsWith (trim t) "[")
       then ret (Continue models)
       else
         data <- lift (JSON_parse t) ;;
         let models' := extractModelIds data in
         if negb (length models' =? 0)%nat then ret (Break models')
         else ret (Continue models'))
    (fun _ => ret (Continue models)).

(** [for (const url of urls) { ... }] with [models] as it stands. *)
Fixpoint fetchModels (token_ : value) (urls : list string) (models : list value)
  : M (list value) :=
  match urls with
  | [] => ret models
  | url_ :: rest =>
      step <- fetchModelsFrom token_ models url_ ;;
      match step with
      | Break models' => ret models'
      | Continue models' => fetchModels token_ rest models'
      end
  end.

Definition setCache (models : list value) (now : Z) : M unit :=
  fun w => (Returned tt, set_cache (Some models) now w).

(** The cached catalog when there is one and it is younger than the TTL. *)
Definition cacheLookup (now : Z) : M (option (list value)) :=
  fun w =>
    (Returned (match cachedModels w with
               | Some models =>
                   if now - cachedModelsAt w <? MODELS_CACHE_TTL
                   then Some models else None
               | None => None
               end), w).

Definition getAvailableModels : M (list value) :=
  now <- Date_now ;;
  hit <- cacheLookup now ;;
  match hit with
  | Some models => ret models
  | None =>
      fetched <- try_catch
                   (token_ <- getSessionToken ;;
                    fetchModels token_ MODELS_URLS [])
                   (fun _ => ret []) ;;
      let models := if (length fetched =? 0)%nat
                    then map Str FALLBACK_MODELS else fetched in
      setCache models now ;;
      ret models
  end.

Definition resolveModel (requestedModel : string) : M value :=
  available <- getAvailableModels ;;
  ret (resolveModelIn FALLBACK_MODELS available requestedModel).

Definition findFallbackModel (currentModel : value) : M value :=
  available <- getAvailableModels ;;
  ret (findFallbackModelIn FALLBACK_MODELS available currentModel).

(** [_cachedModelsAt].  Every catalog array is cached with the time of the
    call that built it, and a cached catalog is replaced only when that
    time is at least the TTL behind: the time tells the arrays apart. *)
Definition cachedAt : M Z := fun w => (Returned (cachedModelsAt w), w).

(** [findFallbackModel(currentModel)] as [chat] calls it, with the model
    [resolveModel] gave when the catalog cached at [currentAt] was the
    current one. *)
Definition findFallbackModelOf (currentModel : value) (currentAt : Z) : M value :=
  available <- getAvailableModels ;;
  availableAt <- cachedAt ;;
  ret (findFallbackModelAmong (availableAt =? currentAt) FALLBACK_MODELS
                              available currentModel).

(** ** Requests *)

Definition normalizeMessage (message : value) : exn + value :=
  match prop message "content" with
  | inl e => inl e
  | inr content =>
      if isArray content then inr message
      else
        match opt_prop message "images" with
        | Arr ((_ :: _) as images) =>
            inr (Obj [("role", opt_prop message "role");
                      ("content",
                       Arr (Obj [("type", Str "text");
                                 ("text", or_else content (Str ""))]
                            :: map (fun image =>
                                      Obj [("type", Str "image_url");
                                           ("image_url", Obj [("url", image)])])
                                   images))])
        | _ =>
            inr (Obj [("role", opt_prop message "role");
                      ("content", or_else content (Str ""))])
        end
  end.

(** [messages.map(f)] for an [f] that can throw *)
Fixpoint map_throwing (f : value -> exn + value) (l : list value)
  : exn + list value :=
  match l with
  | [] => inr []
  | x :: rest =>
      match f x with
      | inl e => inl e
      | inr y =>
          match map_throwing f rest with
          | inl e => inl e
          | inr ys => inr (y :: ys)
          end
      end
  end.

Definition normalizeMessagesForVision (messages : value) : exn + value :=
  match messages with
  | Arr items =>
      match map_throwing normalizeMessage items with
      | inl e => inl e
      | inr items' => inr (Arr items')
      end
  | _ => inr (Arr [])
  end.

Definition messageHasVision (message : value) : exn + bool :=
  match prop message "images" with
  | inl e => inl e
  | inr (Arr (_ :: _)) => inr true
  | inr _ =>
      match opt_prop message "content" with
      | Arr parts =>
          inr (existsb (fun part =>
                          truthy part
                          && strict_eq (opt_prop part "type") (Str "image_url"))
                       parts)
      | _ => inr false
      end
  end.

(** [messages.some(f)] for an [f] that can throw: stops at the first hit. *)
Fixpoint some_throwing (f : value -> exn + bool) (l : list value) : exn + bool :=
  match l with
  | [] => inr false
  | x :: rest =>
      match f x with
      | inl e => inl e
      | inr true => inr true
      | inr false => some_throwing f rest
      end
  end.

Definition hasVisionRequest (messages : value) : exn + bool :=
  match messages with
  | Arr items => some_throwing messageHasVision items
  | _ => inr false
  end.

Definition buildHeaders (stream hasVision : bool) (token_ : value)
  : list (string * string) :=
  [("Authorization", "Bearer " ++ ToString token_);
   ("Content-Type", "application/json");
   ("Editor-Version", EDITOR_VERSION);
   ("Copilot-Integration-Id", COPILOT_INTEGRATION_ID);
   ("Accept", if stream then "text/event-stream" else "application/json")]
  ++ (if hasVision then [("Copilot-Vision-Request", "true")] else []).

(** The object [chat] serialises as the request body. *)
Definition chatBody (model_ messages : value) (stream : bool) (temp tokens : value)
  : value :=
  Obj [("model", model_); ("messages", messages); ("stream", Bool stream);
       ("temperature", temp); ("max_tokens", tokens)].

Definition chatRequest (headers_ : list (string * string)) (model_ messages : value)
                       (stream : bool) (temp tokens : value) : Request :=
  mkRequest API_URL "POST" headers_
            (Some (JSON_stringify (chatBody model_ messages stream temp tokens))).

(** ** Streaming *)

(** The three variables of [handleStreamingResponse]; [errorMessage] is
    [Null] until an error frame sets it. *)
Record Decoder : Type := mkDecoder {
  buffer : string;
  fullContent : string;
  errorMessage : value
}.

(** [onChunk(content, fullContent)], when the caller gave a callback; the
    callback records its arguments and returns. *)
Definition onChunk (given : bool) (content : value) (full : string) : M unit :=
  fun w => (Returned tt,
            if given then set_chunkCalls (chunkCalls w ++ [(content, full)]) w
            else w).

(** The body of [for (const line of lines)]. *)
Definition processLine (hasOnChunk : bool) (d : Decoder) (line : string) : M Decoder :=
  if startsWith line "data: " then
    let data := trim (slice 6 line) in
    if (data =? "[DONE]")%string then ret d
    else if (data =? "")%string then ret d
    else
      try_catch
        (parsed <- lift (JSON_parse data) ;;
         err <- lift (prop parsed "error") ;;
         if truthy err then
           ret (mkDecoder (buffer d) (fullContent d)
                          (or_else (opt_prop err "message") err))
         else
           let content :=
             opt_prop (opt_prop (opt_first (opt_prop parsed "choices")) "delta")
                      "content" in
           if truthy content then
             let full := fullContent d ++ ToString content in
             onChunk hasOnChunk content full ;;
             ret (mkDecoder (buffer d) full (errorMessage d))
           else ret d)
        (fun _ => ret d)
  else ret d.

Fixpoint processLines (hasOnChunk : bool) (d : Decoder) (lines : list string)
  : M Decoder :=
  match lines with
  | [] => ret d
  | line :: rest =>
      d' <- processLine hasOnChunk d line ;;
      processLines hasOnChunk d' rest
  end.

(** The body of [while (true)] for one chunk read: the text joins the
    buffer, every complete line is processed, the rest stays in the buffer. *)
Definition processChunk (hasOnChunk : bool) (d : Decoder) (chunk : string) : M Decoder :=
  let lines := split_lines (buffer d ++ chunk) in
  let rest := last lines EmptyString in
  processLines hasOnChunk (mkDecoder rest (fullContent d) (errorMessage d))
               (removelast lines).

Fixpoint processChunks (hasOnChunk : bool) (d : Decoder) (chunks : list string)
  : M Decoder :=
  match chunks with
  | [] => ret d
  | chunk :: rest =>
      d' <- processChunk hasOnChunk d chunk ;;
      processChunks hasOnChunk d' rest
  end.

Definition handleStreamingResponse (response : Response) (hasOnChunk : bool)
  : M value :=
  d <- processChunks hasOnChunk (mkDecoder "" "" Null) (body response) ;;
  match bodyError response with Some e => throw e | None => ret tt end ;;
  if truthy (errorMessage d) && negb (truthy (Str (fullContent d))) then
    throw (new_Error (errorMessage d))
  else
    ret (Obj [("content", Str (fullContent d));
              ("model", or_else (match xModel response with
                                 | Some m => Str m
                                 | None => Null
                                 end) (Str "unknown"))]).

(** ** chat *)

(** The block [if (!response.ok) { ... }] of [chat]: the response to go on
    with, which is the first one when it is ok and the retried one after a
    fallback; every other way out is a throw. *)
Definition answerOrRetry (headers_ : list (string * string))
                         (resolvedModel : value) (resolvedAt : Z)
                         (normalizedMessages : value)
                         (stream : bool) (temp tokens : value)
                         (response : Response) : M Response :=
  if negb (ok response) then
    t <- text response ;;
    let message := formatApiError (status response) t in
    if shouldRetryWithFallback (status response) t then
      fallbackModel <- findFallbackModelOf resolvedModel resolvedAt ;;
      fallbackAt <- cachedAt ;;
      if truthy fallbackModel
         && negb (same_model (fallbackAt =? resolvedAt) fallbackModel resolvedModel)
      then
        retried <- fetch (chatRequest headers_ fallbackModel normalizedMessages
                                      stream temp tokens) ;;
        if negb (ok retried) then
          retryText <- text retried ;;
          throw (Error (formatApiError (status retried) retryText))
        else ret retried
      else throw (Error message)
    else throw (Error message)
  else ret response.

(** [temp] and [tokens] are the values of
    [temperature ?? Zotero.Prefs.get(...) ?? 0.3] and
    [maxTokens ?? Zotero.Prefs.get(...) ?? 2000]: they come from the caller
    or the preferences and go into the body as they are.  [hasOnChunk]
    tells whether the caller gave [onChunk].  An aborted [signal] is a
    scripted [AbortError] of the fetch or of the body.  [resolvedAt] is no
    variable of the source: it names the catalog [resolvedModel] comes
    from, for the comparison of the fallback with it. *)
Definition chat (model_ : string) (messages : value) (stream hasOnChunk : bool)
                (temp tokens : value) : M value :=
  token_ <- getSessionToken ;;
  resolvedModel <- resolveModel model_ ;;
  resolvedAt <- cachedAt ;;
  normalizedMessages <- lift (normalizeMessagesForVision messages) ;;
  hasVision <- lift (hasVisionRequest normalizedMessages) ;;
  let headers_ := buildHeaders stream hasVision token_ in
  response <- fetch (chatRequest headers_ resolvedModel normalizedMessages
                                 stream temp tokens) ;;
  response' <- answerOrRetry headers_ resolvedModel resolvedAt normalizedMessages
                             stream temp tokens response ;;
  if stream then handleStreamingResponse response' hasOnChunk
  else json response'.

(** [systemPrompt] is [Null] when the caller gives none. *)
Definition simpleChat (model_ : string) (prompt systemPrompt : value)
                      (temp tokens : value) : M value :=
  let messages :=
    ((if truthy systemPrompt
      then [Obj [("role", Str "system"); ("content", systemPrompt)]] else [])
     ++ [Obj [("role", Str "user"); ("content", prompt)]])%list in
  response <- chat model_ (Arr messages) false false temp tokens ;;
  choices <- lift (prop response "choices") ;;
  ret (or_else (opt_prop (opt_prop (opt_first choices) "message") "content")
               (Str "")).

End WithHost.
End CopilotClient.

(* ================================================================== *)
(** * BatchProcessor.processItem, a caller of chat *)
(* ================================================================== *)

Module BatchProcessor.

Import CopilotClient.

Definition SYSTEM_PROMPT : string :=
  "You are an academic research assistant. Provide concise, accurate responses about scientific papers.".

Definition DEFAULT_MODEL : string := "grok-code-fast-1".

(** The two line feeds of the template literal. *)
Definition blank_line : string := String newline (String newline EmptyString).

(** [title] and [abstract] are what [item.getField?.("title")] and
    [item.getField?.("abstractNote")] give for the item. *)
Definition fullPrompt (title abstract prompt : value) : string :=
  let title' := or_else title (Str "") in
  let abstract' := or_else abstract (Str "") in
  "Paper: " ++ ToString title' ++ blank_line
  ++ "Abstract: " ++ ToString (or_else abstract' (Str "(No abstract available)"))
  ++ blank_line ++ ToString prompt.

(** The messages of the request. *)
Definition itemMessages (title abstract prompt : value) : value :=
  Arr [Obj [("role", Str "system"); ("content", Str SYSTEM_PROMPT)];
       Obj [("role", Str "user");
            ("content", Str (fullPrompt title abstract prompt))]].

Section WithHost.
Context {host : Host}.

(** [defaultModel] is the value of the preference
    [extensions.zotero-ai-assistant.defaultModel], the empty string when it
    is not set; [temp] and [tokens] are the preferences [chat] reads.  The
    signal of the abort controller is a scripted [AbortError], as in
    [chat]. *)
Definition processItem (title abstract prompt : value) (defaultModel : string)
                       (temp tokens : value) : M value :=
  let model := if (defaultModel =? "")%string then DEFAULT_MODEL else defaultModel in
  response <- chat model (itemMessages title abstract prompt) false false
                   temp tokens ;;
  content <- lift (prop response "content") ;;
  ret (or_else (or_else content
                        (opt_prop (opt_prop (opt_first (opt_prop response "choices"))
                                            "message") "content"))
               (Str "")).

End WithHost.
End BatchProcessor.

(* ================================================================== *)
(** * A reference host *)
(* ================================================================== *)

(** A concrete [Host] for running the program: a JSON reader and writer
    for the integer fragment of JSON (a number with a fraction or an
    exponent is refused), and ToNumber on decimal integers. *)

Module RefHost.

Definition dquote : ascii := ascii_of_nat 34.
Definition backslash : ascii := ascii_of_nat 92.

(** The examples write the double quote of a JSON text as an apostrophe;
    [dq] puts the double quotes back. *)
Fixpoint dq (s : string) : string :=
  match s with
  | EmptyString => EmptyString
  | String c r => String (if Ascii.eqb c "'"%char then dquote else c) (dq r)
  end.

Definition is_digit (c : ascii) : bool :=
  let n := nat_of_ascii c in andb (Nat.leb 48 n) (Nat.leb n 57).

Definition digit_value (c : ascii) : Z := Z.of_nat (nat_of_ascii c) - 48.

(** Reads the digits that start [s] onto [acc]. *)
Fixpoint read_digits (acc : Z) (s : string) : Z * string :=
  match s with
  | String c r =>
      if is_digit c then read_digits (10 * acc + digit_value c) r else (acc, s)
  | EmptyString => (acc, s)
  end.

Definition starts_with_digit (s : string) : bool :=
  match s with String c _ => is_digit c | EmptyString => false end.

(** An optional minus sign and digits, nothing else. *)
Definition read_integer (s : string) : option (Z * string) :=
  match s with
  | String "-"%char r =>
      if starts_with_digit r
      then let (n, rest) := read_digits 0 r in Some (- n, rest)
      else None
  | _ =>
      if starts_with_digit s then Some (read_digits 0 s) else None
  end.

Definition StringToNumber (s : string) : option Z :=
  match trim s with
  | EmptyString => Some 0
  | String "+"%char r =>
      if starts_with_digit r
      then match read_digits 0 r with
           | (n, EmptyString) => Some n
           | _ => None
           end
      else None
  | t =>
      match read_integer t with
      | Some (n, EmptyString) => Some n
      | _ => None
      end
  end.

(** ** Writing *)

Definition hex_digit (n : nat) : ascii :=
  ascii_of_nat (if Nat.ltb n 10 then 48 + n else 87 + n).

Definition escape_char (c : ascii) : string :=
  let n := nat_of_ascii c in
  if Ascii.eqb c dquote then String backslash (String dquote EmptyString)
  else if Ascii.eqb c backslash then String backslash (String backslash EmptyString)
  else if Nat.eqb n 8 then String backslash "b"
  else if Nat.eqb n 9 then String backslash "t"
  else if Nat.eqb n 10 then String backslash "n"
  else if Nat.eqb n 12 then String backslash "f"
  else if Nat.eqb n 13 then String backslash "r"
  else if Nat.ltb n 32 then
    String backslash ("u00" ++ String (hex_digit (n / 16))
                                      (String (hex_digit (n mod 16)) EmptyString))
  else String c EmptyString.

Fixpoint escape (s : string) : string :=
  match s with
  | EmptyString => EmptyString
  | String c r => escape_char c ++ escape r
  end.

Definition quote (s : string) : string :=
  String dquote (escape s) ++ String dquote EmptyString.

(** [None] is the undefined JSON.stringify answers for undefined. *)
Fixpoint stringify (v : value) : option string :=
  match v with
  | Undefined => None
  | Null | NaN => Some "null"
  | Bool true => Some "true"
  | Bool false => Some "false"
  | Num n => Some (Z_to_string n)
  | Str s => Some (quote s)
  | Arr items =>
      Some ("[" ++ join ","
                    (map (fun x => match stringify x with
                                   | Some s => s
                                   | None => "null"
                                   end) items)
                ++ "]")
  | Obj fields =>
      Some ("{" ++ join ","
                    (flat_map (fun kv => match kv with
                                         | (k, x) =>
                                             match stringify x with
                                             | Some s => [quote k ++ ":" ++ s]
                                             | None => []
                                             end
                                         end) fields)
                ++ "}")
  end.

Definition JSON_stringify (v : value) : string :=
  match stringify v with Some s => s | None => "undefined" end.

(** ** Reading *)

Fixpoint skip_ws (s : string) : string :=
  match s with
  | String c r =>
      let n := nat_of_ascii c in
      if Nat.eqb n 32 || Nat.eqb n 9 || Nat.eqb n 10 || Nat.eqb n 13
      then skip_ws r else s
  | EmptyString => EmptyString
  end.

Definition hex_value (c : ascii) : option nat :=
  let n := nat_of_ascii c in
  if andb (Nat.leb 48 n) (Nat.leb n 57) then Some (n - 48)%nat
  else if andb (Nat.leb 97 n) (Nat.leb n 102) then Some (n - 87)%nat
  else if andb (Nat.leb 65 n) (Nat.leb n 70) then Some (n - 55)%nat
  else None.

(** The characters of a string literal after its opening quote, and what
    follows the closing quote.  A [\u] escape is read when it names a code
    unit below 256. *)
Fixpoint read_string (s : string) : option (string * string) :=
  match s with
  | EmptyString => None
  | String c r =>
      if Ascii.eqb c dquote then Some (EmptyString, r)
      else if Ascii.eqb c backslash then
        match r with
        | String e r' =>
            let simple (x : ascii) :=
              match read_string r' with
              | Some (body_, rest) => Some (String x body_, rest)
              | None => None
              end in
            if Ascii.eqb e dquote then simple dquote
            else if Ascii.eqb e backslash then simple backslash
            else if Ascii.eqb e "/"%char then simple "/"%char
            else if Ascii.eqb e "b"%char then simple (ascii_of_nat 8)
            else if Ascii.eqb e "t"%char then simple (ascii_of_nat 9)
            else if Ascii.eqb e "n"%char then simple (ascii_of_nat 10)
            else if Ascii.eqb e "f"%char then simple (ascii_of_nat 12)
            else if Ascii.eqb e "r"%char then simple (ascii_of_nat 13)
            else if Ascii.eqb e "u"%char then
              match r' with
              | String h1 (String h2 (String h3 (String h4 r''))) =>
                  match hex_value h1, hex_value h2, hex_value h3, hex_value h4 with
                  | Some 0%nat, Some 0%nat, Some a, Some b =>
                      match read_string r'' with
                      | Some (body_, rest) =>
                          Some (String (ascii_of_nat (16 * a + b)) body_, rest)
                      | None => None
                      end
                  | _, _, _, _ => None
                  end
              | _ => None
              end
            else None
        | EmptyString => None
        end
      else if Nat.ltb (nat_of_ascii c) 32 then None
      else
        match read_string r with
        | Some (body_, rest) => Some (String c body_, rest)
        | None => None
        end
  end.

(** Refuses a number that goes on with a fraction or an exponent. *)
Definition whole (r : option (Z * string)) : option (Z * string) :=
  match r with
  | Some (n, String c rest) =>
      if Ascii.eqb c "."%char || Ascii.eqb c "e"%char || Ascii.eqb c "E"%char
      then None else Some (n, String c rest)
  | other => other
  end.

(** A JSON number of the integer fragment: no leading zero, no fraction,
    no exponent. *)
Definition read_number (s : string) : option (Z * string) :=
  let digits := match s with String "-"%char r => r | _ => s end in
  match digits with
  | String "0"%char (String c _) =>
      if is_digit c then None else whole (read_integer s)
  | _ => whole (read_integer s)
  end.

Definition read_literal (word : string) (v : value) (s : string)
  : option (value * string) :=
  if prefix word s then Some (v, slice (String.length word) s) else None.

(** Recursive descent; [fuel] bounds the nesting and the number of
    elements read. *)
Fixpoint read_value (fuel : nat) (s : string) : option (value * string) :=
  match fuel with
  | O => None
  | S fuel' =>
      match skip_ws s with
      | String "{"%char r =>
          match skip_ws r with
          | String "}"%char rest => Some (Obj [], rest)
          | r' => read_members fuel' [] r'
          end
      | String "["%char r =>
          match skip_ws r with
          | String "]"%char rest => Some (Arr [], rest)
          | r' => read_elements fuel' [] r'
          end
      | String "t"%char _ as t => read_literal "true" (Bool true) t
      | String "f"%char _ as t => read_literal "false" (Bool false) t
      | String "n"%char _ as t => read_literal "null" Null t
      | String c r as t =>
          if Ascii.eqb c dquote then
            match read_string r with
            | Some (str, rest) => Some (Str str, rest)
            | None => None
            end
          else
            match read_number t with
            | Some (n, rest) => Some (Num n, rest)
            | None => None
            end
      | EmptyString => None
      end
  end

with read_elements (fuel : nat) (acc : list value) (s : string)
  : option (value * string) :=
  match fuel with
  | O => None
  | S fuel' =>
      match read_value fuel' s with
      | Some (v, rest) =>
          match skip_ws rest with
          | String ","%char rest' => read_elements fuel' (acc ++ [v]) rest'
          | String "]"%char rest' => Some (Arr (acc ++ [v]), rest')
          | _ => None
          end
      | None => None
      end
  end

with read_members (fuel : nat) (acc : list (string * value)) (s : string)
  : option (value * string) :=
  match fuel with
  | O => None
  | S fuel' =>
      match skip_ws s with
      | String c r =>
          if Ascii.eqb c dquote then
            match read_string r with
            | Some (key, rest) =>
                match skip_ws rest with
                | String ":"%char rest' =>
                    match read_value fuel' rest' with
                    | Some (v, rest'') =>
                        match skip_ws rest'' with
                        | String ","%char more =>
                            read_members fuel' (set_field key v acc) more
                        | String "}"%char more =>
                            Some (Obj (set_field key v acc), more)
                        | _ => None
                        end
                    | None => None
                    end
                | _ => None
                end
            | None => None
            end
          else None
      | EmptyString => None
      end
  end.

Definition JSON_parse (s : string) : exn + value :=
  match read_value (2 * String.length s + 2) s with
  | Some (v, rest) =>
      match skip_ws rest with
      | EmptyString => inr v
      | _ => inl (SyntaxError "JSON.parse: unexpected non-whitespace character after JSON data")
      end
  | None => inl (SyntaxError "JSON.parse: unexpected character")
  end.

Definition null_property_error (k : string) : exn :=
  TypeError ("can't access property " ++ k ++ " of null").

Definition host : Host :=
  Build_Host JSON_parse JSON_stringify StringToNumber null_property_error.

End RefHost.

(* ================================================================== *)
(** * Views of the world used to state the facts *)
(* ================================================================== *)

Module Views.

Import TokenStorage.

(** The test [findLogins] makes for the realm. *)
Definition in_realm (realm : string) (l : LoginInfo) : bool :=
  ((hostname l =? HOSTNAME) && (httpRealm l =? realm))%string.

(** The logins [findLogins] returns for the realm. *)
Definition records (realm : string) (w : World) : list LoginInfo :=
  filter (in_realm realm) (logins w).

Section WithHost.
Context {host : Host}.

(** What [getToken] finds: the first login of the realm. *)
Definition stored (realm : string) (w : World) : option TokenRecord :=
  if loginsAvailable w then
    match filter (in_realm realm) (logins w) with
    | [] => None
    | login :: _ =>
        Some (mkTokenRecord (password login)
                (match JSON_parse (username login) with
                 | inr v => v
                 | inl _ => Obj []
                 end))
    end
  else None.

(** The login [storeToken] writes. *)
Definition written (realm token_ : string) (metadata_ : list (string * value))
                   (now : Z) : LoginInfo :=
  createLoginInfo realm
    (JSON_stringify (Obj (set_field "storedAt" (Num now) metadata_))) token_.

(** The metadata [storeToken] serialises: the caller's, with [storedAt]. *)
Definition stamped (metadata_ : list (string * value)) (now : Z) : value :=
  Obj (set_field "storedAt" (Num now) metadata_).

(** ** The decoder of [handleStreamingResponse] as a function

    [decodeLine] is what [processLine] does to the decoder, with the calls
    of [onChunk] it makes; [StreamingFacts.processLine_decodeLine] proves
    it. *)

Definition payload_of (line : string) : string := trim (slice 6 line).

Definition decodeLine (d : CopilotClient.Decoder) (line : string)
  : CopilotClient.Decoder * list (value * string) :=
  if startsWith line "data: " then
    if (payload_of line =? "[DONE]")%string then (d, [])
    else if (payload_of line =? "")%string then (d, [])
    else
      match JSON_parse (payload_of line) with
      | inl _ => (d, [])
      | inr parsed =>
          match prop parsed "error" with
          | inl _ => (d, [])
          | inr err =>
              if truthy err then
                (CopilotClient.mkDecoder (CopilotClient.buffer d)
                   (CopilotClient.fullContent d)
                   (or_else (opt_prop err "message") err), [])
              else
                let content :=
                  opt_prop (opt_prop (opt_first (opt_prop parsed "choices")) "delta")
                           "content" in
                if truthy content then
                  let full := (CopilotClient.fullContent d ++ ToString content)%string in
                  (CopilotClient.mkDecoder (CopilotClient.buffer d) full
                     (CopilotClient.errorMessage d), [(content, full)])
                else (d, [])
          end
      end
  else (d, []).

Fixpoint decodeLines (d : CopilotClient.Decoder) (lines : list string)
  : CopilotClient.Decoder * list (value * string) :=
  match lines with
  | [] => (d, [])
  | line :: rest =>
      let (d1, calls1) := decodeLine d line in
      let (d2, calls2) := decodeLines d1 rest in
      (d2, (calls1 ++ calls2)%list)
  end.

(** A frame the decoder passes over: not a data frame, the [DONE]
    sentinel, a blank frame, or data that JSON.parse refuses. *)
Definition ignorable (line : string) : Prop :=
  startsWith line "data: " = false
  \/ payload_of line = "[DONE]"
  \/ payload_of line = ""
  \/ exists e, JSON_parse (payload_of line) = inl e.

(** A data frame whose JSON has a truthy [error]. *)
Definition error_frame (line : string) : Prop :=
  startsWith line "data: " = true
  /\ payload_of line <> "[DONE]"
  /\ payload_of line <> ""
  /\ exists parsed err,
       JSON_parse (payload_of line) = inr parsed
       /\ prop parsed "error" = inr err
       /\ truthy err = true.

(** The decoder at the end of a response body, and the calls of [onChunk]
    on the way. *)
Definition decoded (r : Response) : CopilotClient.Decoder * list (value * string) :=
  decodeLines (CopilotClient.mkDecoder "" "" Null)
              (removelast (split_lines_from "" (concat_chunks (body r)))).

End WithHost.

(** A decoder with another buffer. *)
Definition with_buffer (b : string) (d : CopilotClient.Decoder) : CopilotClient.Decoder :=
  CopilotClient.mkDecoder b (CopilotClient.fullContent d) (CopilotClient.errorMessage d).

(** No line feed in [s]. *)
Fixpoint no_newline (s : string) : bool :=
  match s with
  | EmptyString => true
  | String c r => negb (Ascii.eqb c newline) && no_newline r
  end.

(** The complete lines of a text that follows the buffer [b], and the
    unfinished line after them. *)
Definition complete_lines (b text_ : string) : list string :=
  removelast (split_lines_from b text_).

Definition unfinished_line (b text_ : string) : string :=
  last (split_lines_from b text_) EmptyString.

Section Session.
Context {host : Host}.

(** [getSessionToken] has to refresh: no session record, or one whose
    [expiresAt] is not beyond the buffer. *)
Definition needs_refresh (w : World) : Prop :=
  stored REALMS.GITHUB_COPILOT_SESSION w = None
  \/ exists s e,
       stored REALMS.GITHUB_COPILOT_SESSION w = Some s
       /\ prop (metadata s) "expiresAt" = inr e
       /\ gt_number e (clock w + GitHubDeviceFlow.bufferTime) = false.

(** No access token to exchange: no record, or a record with the empty
    token. *)
Definition no_access_token (w : World) : Prop :=
  stored REALMS.GITHUB_COPILOT w = None
  \/ exists a, stored REALMS.GITHUB_COPILOT w = Some a /\ token a = "".

(** The metadata [getSessionToken] stores with a new session token. *)
Definition session_metadata (c : GitHubDeviceFlow.CopilotToken)
  : list (string * value) :=
  [("expiresAt", of_number (GitHubDeviceFlow.copilotToken_expiresAt c))].

End Session.

(** ** The model catalog *)

(** The requests sent to the chat endpoint so far. *)
Definition chatCalls (w : World) : list Request :=
  filter (fun r => (url r =? CopilotClient.API_URL)%string) (requests w).

(** The cache is empty or holds a catalog: a list that is not empty, of
    truthy entries. *)
Definition is_catalog (models : list value) : Prop :=
  models <> [] /\ Forall (fun v => truthy v = true) models.

Definition cache_ok (w : World) : Prop :=
  match cachedModels w with
  | None => True
  | Some models => is_catalog models
  end.

(** Nothing cached, or cached at least a TTL ago. *)
Definition cache_miss (w : World) : Prop :=
  cachedModels w = None
  \/ CopilotClient.MODELS_CACHE_TTL <= clock w - cachedModelsAt w.

(** What the session and catalog reads leave alone: the model cache and
    the requests to the chat endpoint. *)
Definition quiet (w w' : World) : Prop :=
  cachedModels w' = cachedModels w
  /\ cachedModelsAt w' = cachedModelsAt w
  /\ chatCalls w' = chatCalls w.

(** [a] and [b] are one model for [===]: two arrays or objects that are
    entries of one catalog array, which [same_catalog] says, and otherwise
    equal values. *)
Definition one_model (same_catalog : Prop) (a b : value) : Prop :=
  if is_reference a && is_reference b then same_catalog else a = b.

(** The catalog [getAvailableModels] makes of what it fetched. *)
Definition catalog_of (fetched : list value) : list value :=
  if (length fetched =? 0)%nat then map Str CopilotClient.FALLBACK_MODELS
  else fetched.

(** The request [getAvailableModels] sends to one catalog endpoint. *)
Definition catalogRequest (token_ : value) (url_ : string) : Request :=
  mkRequest url_ "GET" (CopilotClient.catalog_headers token_) None.

Section Catalog.
Context {host : Host}.

(** An answer of a catalog endpoint that gives no identifier: the fetch
    fails, the status is not 2xx, the body cannot be read, the text does
    not start like JSON, is not JSON, or holds no identifier. *)
Definition useless (x : Exchange) : Prop :=
  match outcome x with
  | inl _ => True
  | inr r =>
      ok r = false
      \/ bodyError r <> None
      \/ (startsWith (trim (concat_chunks (body r))) "{" = false
          /\ startsWith (trim (concat_chunks (body r))) "[" = false)
      \/ (exists e, JSON_parse (concat_chunks (body r)) = inl e)
      \/ (exists data, JSON_parse (concat_chunks (body r)) = inr data
                       /\ CopilotClient.extractModelIds data = [])
  end.

End Catalog.

(** The world once [fetch req] has settled. *)
Definition answered (req : Request) (w : World) : World := snd (fetch req w).

(** The calls of [onChunk] recorded in the world. *)
Definition emit (given : bool) (calls : list (value * string)) (w : World) : World :=
  if given then set_chunkCalls (chunkCalls w ++ calls) w else w.

(** The world after a computation, and its completion. *)
Definition after {A} (c : M A) (w : World) : World := snd (c w).
Definition result {A} (c : M A) (w : World) : completion A := fst (c w).

(** ** The worlds the add-on can be in *)

(** A computation keeps a property of the world. *)
Definition preserves (I : World -> Prop) {A} (c : M A) : Prop :=
  forall w, I w -> I (after c w).

(** The calls the rest of the add-on can make into the three objects. *)
Inductive Operation : Type :=
| StoreToken (realm token_ : string) (metadata_ : list (string * value))
| GetToken (realm : string)
| RemoveToken (realm : string)
| HasValidToken (realm : string) (maxAge : value)
| ClearAll
| StartDeviceFlow
| PollForToken (fuel : nat) (hasStatus : bool)
| CancelFlow
| GetCopilotToken (accessToken : value)
| GetSessionToken
| HasValidSession
| Disconnect
| GetUserInfo (accessToken : value)
| Authenticate (fuel : nat) (hasStatus : bool)
| SimpleChat (model_ : string) (prompt systemPrompt temp tokens : value)
| Chat (model_ : string) (messages : value) (stream hasOnChunk : bool)
       (temp tokens : value)
| ResolveModel (requestedModel : string)
| GetAvailableModels
| FindFallbackModel (currentModel : value).

Section Reach.
Context {host : Host}.

Definition perform (op : Operation) (w : World) : World :=
  match op with
  | StoreToken realm token_ metadata_ => after (storeToken realm token_ metadata_) w
  | GetToken realm => after (getToken realm) w
  | RemoveToken realm => after (removeToken realm) w
  | HasValidToken realm maxAge => after (hasValidToken realm maxAge) w
  | ClearAll => after clearAll w
  | StartDeviceFlow => after GitHubDeviceFlow.startDeviceFlow w
  | PollForToken fuel hasStatus => after (GitHubDeviceFlow.pollForToken fuel hasStatus) w
  | CancelFlow => after GitHubDeviceFlow.cancelFlow w
  | GetCopilotToken accessToken => after (GitHubDeviceFlow.getCopilotToken accessToken) w
  | GetSessionToken => after GitHubDeviceFlow.getSessionToken w
  | HasValidSession => after GitHubDeviceFlow.hasValidSession w
  | Disconnect => after GitHubDeviceFlow.disconnect w
  | GetUserInfo accessToken => after (GitHubDeviceFlow.getUserInfo accessToken) w
  | Authenticate fuel hasStatus => after (GitHubDeviceFlow.authenticate fuel hasStatus) w
  | SimpleChat model_ prompt systemPrompt temp tokens =>
      after (CopilotClient.simpleChat model_ prompt systemPrompt temp tokens) w
  | Chat model_ messages stream hasOnChunk temp tokens =>
      after (CopilotClient.chat model_ messages stream hasOnChunk temp tokens) w
  | ResolveModel requestedModel => after (CopilotClient.resolveModel requestedModel) w
  | GetAvailableModels => after CopilotClient.getAvailableModels w
  | FindFallbackModel currentModel =>
      after (CopilotClient.findFallbackModel currentModel) w
  end.

(** What is outside the add-on: the logins (the user can edit them), the
    availability of the login manager, the time and the network. *)
Definition environment (l : list LoginInfo) (available : bool) (t : Z)
                       (net : list Exchange) (w : World) : World :=
  mkWorld l available t net (requests w) (cachedModels w) (cachedModelsAt w)
          (currentFlow w) (chunkCalls w) (statusCalls w).

(** The worlds reached from the start of the add-on ([_cachedModels] and
    [currentFlow] null) by calls into it, the environment changing at
    will in between. *)
Inductive reachable : World -> Prop :=
| reachable_start (l : list LoginInfo) (available : bool) (t : Z)
                  (net : list Exchange) :
    reachable (mkWorld l available t net [] None 0 None [] [])
| reachable_perform (op : Operation) (w : World) :
    reachable w -> reachable (perform op w)
| reachable_environment (l : list LoginInfo) (available : bool) (t : Z)
                        (net : list Exchange) (w : World) :
    reachable w -> reachable (environment l available t net w).

End Reach.

End Views.

(* ================================================================== *)
(** * Concrete worlds and inputs for the examples *)
(* ================================================================== *)

Module Examples.

Import TokenStorage.

(** A fresh add-on at time [now]: no login, nothing cached, no flow, a
    network that answers with [net]. *)
Definition freshWorld (now : Z) (net : list Exchange) : World :=
  mkWorld [] true now net [] None 0 None [] [].

(** The same with the given logins in the login manager. *)
Definition worldWith (l : list LoginInfo) (now : Z) (net : list Exchange) : World :=
  mkWorld l true now net [] None 0 None [] [].

(** 2023-11-14T22:13:20Z in milliseconds. *)
Definition t0 : Z := 1700000000000.

Definition minutes (n : Z) : Z := n * 60 * 1000.

(** [n] times the character [c]. *)
Fixpoint replicate (n : nat) (c : ascii) : string :=
  match n with
  | O => EmptyString
  | S n' => String c (replicate n' c)
  end.

(** A login of the session realm that expires [m] minutes after [t0],
    stored ten minutes before [t0]. *)
Definition sessionLogin (m : Z) : LoginInfo :=
  mkLoginInfo HOSTNAME REALMS.GITHUB_COPILOT_SESSION
    (RefHost.dq ("{'expiresAt':" ++ Z_to_string (t0 + minutes m)
                 ++ ",'storedAt':" ++ Z_to_string (t0 - minutes 10) ++ "}"))
    "session-old".

(** A login of the access-token realm. *)
Definition accessLogin : LoginInfo :=
  mkLoginInfo HOSTNAME REALMS.GITHUB_COPILOT
    (RefHost.dq ("{'user':null,'storedAt':" ++ Z_to_string (t0 - minutes 10) ++ "}"))
    "gho_access".

(** An answer of the network after [ms] milliseconds. *)
Definition answer (ms : Z) (status_ : Z) (body_ : string) : Exchange :=
  mkExchange ms (inr (mkResponse status_ "" None [body_] None)).

(** The token endpoint granting [session-new] until one hour after [t0]. *)
Definition grant : Exchange :=
  answer 40 200
    (RefHost.dq ("{'token':'session-new','expires_at':"
                 ++ Z_to_string ((t0 + minutes 60) / 1000) ++ "}")).

(** A device flow started at [t0]: a code good for fifteen minutes, to
    be polled every five seconds. *)
Definition aFlow : DeviceFlow :=
  mkDeviceFlow (Str "device-code") (Str "ABCD-1234")
               (Str "https://github.com/login/device") (Num 900) (Num 5) t0.

(** The token endpoint while the user has not approved, and once they have. *)
Definition pendingAnswer : Exchange :=
  answer 20 200 (RefHost.dq "{'error':'authorization_pending'}").

Definition approvedAnswer : Exchange :=
  answer 20 200 (RefHost.dq "{'access_token':'gho_access'}").

(** A poll loop in flight: the flow is current and the user approves
    after the first poll. *)
Definition pollingWorld : World :=
  mkWorld [] true t0 [pendingAnswer; approvedAnswer] [] None 0 (Some aFlow) [] [].

Definition nl : string := String newline EmptyString.

(** A connected add-on whose provider lists two models, refuses the first
    chat request with a "model not found" 404 and answers the second with
    a stream. *)
Definition retryWorld (stream_ : string) : World :=
  worldWith [sessionLogin 10; accessLogin] t0
    [answer 30 200 (RefHost.dq "{'data':[{'id':'gpt-5'},{'id':'gpt-4.1'}]}");
     answer 40 404 (RefHost.dq "{'error':{'message':'model not found'}}");
     answer 50 200 stream_].

Definition oneQuestion : value :=
  Arr [Obj [("role", Str "user"); ("content", Str "What is this paper about?")]].

(** The JSON of a frame that carries the content delta [s], and the value
    it denotes. *)
Definition delta_json (s : string) : string :=
  RefHost.dq ("{'choices':[{'delta':{'content':'" ++ s ++ "'}}]}").

Definition delta_value (s : string) : value :=
  Obj [("choices", Arr [Obj [("delta", Obj [("content", Str s)])]])].

(** One event-stream frame. *)
Definition data_frame (payload : string) : string := "data: " ++ payload ++ nl.

(** The stream of the specification's example. *)
Definition hello_stream : string :=
  data_frame (delta_json "Hel") ++ data_frame (delta_json "lo")
  ++ data_frame "[DONE]".

(** The same text in three chunks whose ends fall inside the frames. *)
Definition hello_chunks : list string :=
  [("data: " ++ delta_json "Hel" ++ nl ++ "da")%string;
   ("ta: " ++ delta_json "lo")%string;
   (nl ++ "data: [DONE]" ++ nl)%string].

(** Its complete lines. *)
Definition hello_lines : list string :=
  [("data: " ++ delta_json "Hel")%string;
   ("data: " ++ delta_json "lo")%string;
   "data: [DONE]"].

(** What [handleStreamingResponse] returns for the content [s]. *)
Definition streamed (s : string) (xm : option string) : value :=
  Obj [("content", Str s);
       ("model", or_else (match xm with Some m => Str m | None => Null end)
                         (Str "unknown"))].

End Examples.

(* ================================================================== *)
(** * Requests and callback traces used to state further facts *)
(* ================================================================== *)

Module Traces.

Import TokenStorage GitHubDeviceFlow.

Section WithHost.
Context {host : Host}.

(** The request [startDeviceFlow] sends. *)
Definition deviceCodeRequest : Request :=
  mkRequest DEVICE_CODE_URL "POST" json_headers
            (Some (JSON_stringify (Obj [("client_id", Str CLIENT_ID)]))).

End WithHost.

(** The two catalog endpoints, in the order of [MODELS_URLS]. *)
Definition modelsEndpoint : string := "https://api.githubcopilot.com/models".
Definition chatModelsEndpoint : string := "https://api.githubcopilot.com/chat/models".

Section Catalog.
Context {host : Host}.

(** An answer of a catalog endpoint that names models: a 2xx body that
    reads to its end, starts like JSON, is JSON, and holds a name. *)
Definition names_models (x : Exchange) (ids : list value) : Prop :=
  exists r data,
    outcome x = inr r /\ ok r = true /\ bodyError r = None
    /\ startsWith (trim (concat_chunks (body r))) "{"
       || startsWith (trim (concat_chunks (body r))) "[" = true
    /\ JSON_parse (concat_chunks (body r)) = inr data
    /\ CopilotClient.extractModelIds data = ids
    /\ ids <> [].

End Catalog.

(** The request [getUserInfo] sends. *)
Definition userInfoRequest (accessToken : value) : Request :=
  mkRequest USER_INFO_URL "GET"
            [("Authorization", "Bearer " ++ ToString accessToken);
             ("Accept", "application/json")]
            None.

(** The logins and the state of the login manager are [l] and [b]. *)
Definition same_logins (l : list LoginInfo) (b : bool) (w : World) : Prop :=
  logins w = l /\ loginsAvailable w = b.

(** No answer of the network arrives before it is asked for. *)
Definition causal (net : list Exchange) : Prop :=
  Forall (fun x => 0 <= latency x) net.

(** The calls of [onChunk] for the content deltas [deltas], the content
    being [acc] before them: each call has the delta and the content so
    far. *)
Fixpoint running (acc : string) (deltas : list value) : list (value * string) :=
  match deltas with
  | [] => []
  | c :: rest => (c, acc ++ ToString c) :: running (acc ++ ToString c) rest
  end.

(** The deltas put end to end. *)
Fixpoint joined (deltas : list value) : string :=
  match deltas with
  | [] => EmptyString
  | c :: rest => ToString c ++ joined rest
  end.

End Traces.

(* ================================================================== *)
(** * Further concrete worlds *)
(* ================================================================== *)

Module Scenarios.

Import TokenStorage Examples.

(** The answers of a sign-in that succeeds: the device code, a poll that
    finds the user not ready, one told to slow down, the approval, the
    session token and the user. *)
Definition signIn : list Exchange :=
  [answer 10 200
     (RefHost.dq "{'device_code':'dc','user_code':'AB-12','verification_uri':'https://github.com/login/device','expires_in':900,'interval':5}");
   pendingAnswer;
   answer 20 200 (RefHost.dq "{'error':'slow_down'}");
   approvedAnswer;
   grant;
   answer 15 200
     (RefHost.dq "{'id':7,'login':'octo','name':'Octo Cat','avatar_url':'u'}")].

(** The device-code endpoint answering without an interval. *)
Definition codeWithoutInterval : Exchange :=
  answer 10 200
    (RefHost.dq "{'device_code':'dc','user_code':'AB-12','verification_uri':'https://github.com/login/device','expires_in':900}").

(** The user endpoint answering with the user. *)
Definition userAnswer : Exchange :=
  answer 15 200
    (RefHost.dq "{'id':7,'login':'octo','name':'Octo Cat','avatar_url':'u'}").

(** A connected add-on whose session token is about to expire, with the
    one answer the token endpoint will give. *)
Definition staleWorld (x : Exchange) : World :=
  worldWith [sessionLogin 3; accessLogin] t0 [x].

(** The access record of [accessLogin], as [getToken] reads it. *)
Definition accessRecord : TokenRecord :=
  mkTokenRecord "gho_access"
    (Obj [("user", Null); ("storedAt", Num (t0 - minutes 10))]).

(** The session record of [sessionLogin m]. *)
Definition sessionRecord (m : Z) : TokenRecord :=
  mkTokenRecord "session-old"
    (Obj [("expiresAt", Num (t0 + minutes m));
          ("storedAt", Num (t0 - minutes 10))]).

(** A connected add-on with a fresh session token and the given answers
    to come. *)
Definition connectedWorld (net : list Exchange) : World :=
  worldWith [sessionLogin 10; accessLogin] t0 net.

(** A question with a picture. *)
Definition pictureQuestion : value :=
  Arr [Obj [("role", Str "user"); ("content", Str "What does the figure show?");
            ("images", Arr [Str "data:image/png;base64,AAAA"])]].

(** The same as [normalizeMessagesForVision] sends it. *)
Definition pictureParts : value :=
  Arr [Obj [("role", Str "user");
            ("content",
             Arr [Obj [("type", Str "text");
                       ("text", Str "What does the figure show?")];
                  Obj [("type", Str "image_url");
                       ("image_url",
                        Obj [("url", Str "data:image/png;base64,AAAA")])]])]].

(** A connected add-on that has read a catalog of two models the ranked
    list does not know. *)
Definition unrankedCatalogWorld : World :=
  Views.perform (host := RefHost.host) Views.GetAvailableModels
    (connectedWorld [answer 30 200 (RefHost.dq "{'data':['x','y']}")]).

(** A connected add-on that has read the catalog a, b, c. *)
Definition abcCatalogWorld : World :=
  Views.perform (host := RefHost.host) Views.GetAvailableModels
    (connectedWorld [answer 30 200 (RefHost.dq "{'data':['a','b','c']}")]).

(** A connected add-on whose provider lists gpt-5, refuses the first chat
    request with a 422 about a parameter, and answers the second with a
    stream. *)
Definition unsupportedParameterWorld : World :=
  connectedWorld
    [answer 30 200 (RefHost.dq "{'data':[{'id':'gpt-5'},{'id':'gpt-4.1'}]}");
     answer 40 422 "Unsupported parameter: temperature";
     answer 50 200 hello_stream].

(** A connected add-on whose provider lists one model, under an
    identifier that is an object, and refuses it. *)
Definition objectModelWorld : World :=
  connectedWorld
    [answer 30 200 (RefHost.dq "{'data':[{'id':{'family':'gpt','version':5}}]}");
     answer 40 404 (RefHost.dq "{'error':{'message':'model not found'}}");
     answer 50 200 hello_stream].

(** The model named in the body of a request. *)
Definition modelSent (q : Request) : value :=
  opt_prop (match RefHost.JSON_parse
                    (match requestBody q with Some b => b | None => "" end)
            with inr v => v | inl _ => Null end) "model".

(** The body of a completion that is not streamed. *)
Definition completion_json (s : string) : string :=
  RefHost.dq ("{'choices':[{'message':{'content':'" ++ s ++ "'}}]}").

End Scenarios.

(* ================================================================== *)
(** * Facts: values and strings *)
(* ================================================================== *)

Module JSFacts.

Lemma strict_eq_Str_l (s : string) (v : value) :
  strict_eq (Str s) v = true <-> v = Str s.
Proof.
  destruct v; simpl; split; intro H; try discriminate.
  - apply String.eqb_eq in H. now subst.
  - injection H as ->. apply String.eqb_refl.
Qed.

Lemma includes_str_In (available : list value) (s : string) :
  includes_str available s = true <-> In (Str s) available.
Proof.
  unfold includes_str. rewrite existsb_exists. split.
  - intros [v [Hin Heq]]. apply strict_eq_Str_l in Heq. now subst.
  - intro Hin. exists (Str s). split; [assumption | now apply strict_eq_Str_l].
Qed.

Lemma includes_str_not_In (available : list value) (s : string) :
  includes_str available s = false <-> ~ In (Str s) available.
Proof.
  rewrite <- includes_str_In. destruct (includes_str available s); split; intro H.
  - discriminate.
  - exfalso. now apply H.
  - discriminate.
  - reflexivity.
Qed.

Lemma truthy_Str (s : string) : truthy (Str s) = true <-> s <> "".
Proof.
  simpl. destruct (String.eqb_spec s ""); simpl; split; intro H;
    try discriminate; try congruence; try reflexivity.
Qed.

Lemma set_field_lookup (k : string) (v : value) (fields : list (string * value)) :
  lookup k (set_field k v fields) = Some v.
Proof.
  induction fields as [| [k' v'] rest IH]; simpl.
  - now rewrite String.eqb_refl.
  - destruct (String.eqb_spec k k') as [-> | Hne]; simpl.
    + now rewrite String.eqb_refl.
    + destruct (String.eqb_spec k k'); [contradiction | exact IH].
Qed.

Lemma set_field_lookup_other (k k' : string) (v : value)
      (fields : list (string * value)) :
  k' <> k -> lookup k' (set_field k v fields) = lookup k' fields.
Proof.
  intro Hne. induction fields as [| [k0 v0] rest IH]; simpl.
  - destruct (String.eqb_spec k' k); [contradiction | reflexivity].
  - destruct (String.eqb_spec k k0) as [-> | Hk]; simpl.
    + destruct (String.eqb_spec k' k0); [contradiction | reflexivity].
    + destruct (String.eqb_spec k' k0); [reflexivity | exact IH].
Qed.

End JSFacts.

(* ================================================================== *)
(** * Facts: TokenStorage *)
(* ================================================================== *)

Module TokenStorageFacts.

Import TokenStorage JSFacts Views.

Lemma LoginInfo_eqb_eq (a b : LoginInfo) : LoginInfo_eqb a b = true <-> a = b.
Proof.
  unfold LoginInfo_eqb. destruct a as [h1 r1 u1 p1], b as [h2 r2 u2 p2]; simpl.
  rewrite !andb_true_iff, !String.eqb_eq. split.
  - intros [[[-> ->] ->] ->]. reflexivity.
  - intro H. injection H as -> -> -> ->. repeat split.
Qed.

Lemma remove_first_app (realm : string) (pre rest : list LoginInfo) (x : LoginInfo) :
  Forall (fun l => in_realm realm l = false) pre ->
  in_realm realm x = true ->
  remove_first x (pre ++ x :: rest) = Some (pre ++ rest)%list.
Proof.
  intros Hpre Hx. induction Hpre as [| y pre Hy _ IH]; simpl.
  - assert (LoginInfo_eqb x x = true) as -> by now apply LoginInfo_eqb_eq.
    reflexivity.
  - destruct (LoginInfo_eqb x y) eqn:E.
    + apply LoginInfo_eqb_eq in E. subst. congruence.
    + now rewrite IH.
Qed.

(** The loop of [removeToken] takes out every login of the realm and no
    other. *)
Lemma for_of_removeLogin (realm : string) (rest pre : list LoginInfo) (w : World) :
  loginsAvailable w = true ->
  logins w = (pre ++ rest)%list ->
  Forall (fun l => in_realm realm l = false) pre ->
  for_of (filter (in_realm realm) rest) removeLogin w
  = (Returned tt, set_logins (pre ++ filter (fun l => negb (in_realm realm l)) rest) w).
Proof.
  revert pre w. induction rest as [| x rest IH]; intros pre w Hav Hl Hpre; simpl.
  - unfold ret. rewrite <- Hl. destruct w; reflexivity.
  - destruct (in_realm realm x) eqn:Hx; simpl.
    + unfold bind at 1. unfold removeLogin at 1. rewrite Hav, Hl.
      rewrite (remove_first_app realm) by assumption.
      rewrite (IH pre) by (try assumption; reflexivity).
      reflexivity.
    + rewrite (IH (pre ++ [x])%list).
      * now rewrite <- app_assoc.
      * assumption.
      * now rewrite <- app_assoc.
      * apply Forall_app. split; [assumption | now constructor].
Qed.

Section WithHost.
Context {host : Host}.

(** [getToken] reads and never throws. *)
Lemma getToken_stored (realm : string) (w : World) :
  getToken realm w = (Returned (stored realm w), w).
Proof.
  unfold getToken, stored, try_catch, bind, findLogins, in_realm.
  destruct (loginsAvailable w); [| reflexivity].
  destruct (filter _ (logins w)); reflexivity.
Qed.

Lemma removeToken_available (realm : string) (w : World) :
  loginsAvailable w = true ->
  removeToken realm w
  = (Returned true,
     set_logins (filter (fun l => negb (in_realm realm l)) (logins w)) w).
Proof.
  intro Hav. unfold removeToken, try_catch, bind, findLogins. rewrite Hav.
  fold (in_realm realm).
  rewrite (for_of_removeLogin realm (logins w) [] w Hav eq_refl (Forall_nil _)).
  reflexivity.
Qed.

Lemma removeToken_unavailable (realm : string) (w : World) :
  loginsAvailable w = false -> removeToken realm w = (Returned false, w).
Proof.
  intro Hav. unfold removeToken, try_catch, bind, findLogins. now rewrite Hav.
Qed.

Lemma storeToken_available (realm token_ : string)
      (metadata_ : list (string * value)) (w : World) :
  loginsAvailable w = true ->
  storeToken realm token_ metadata_ w
  = (Returned true,
     set_logins (filter (fun l => negb (in_realm realm l)) (logins w)
                 ++ [written realm token_ metadata_ (clock w)]) w).
Proof.
  intro Hav. unfold storeToken, try_catch, bind.
  rewrite removeToken_available by assumption.
  unfold Date_now, addLogin. simpl. rewrite Hav. reflexivity.
Qed.

Lemma storeToken_unavailable (realm token_ : string)
      (metadata_ : list (string * value)) (w : World) :
  loginsAvailable w = false ->
  storeToken realm token_ metadata_ w = (Returned false, w).
Proof.
  intro Hav. unfold storeToken, try_catch, bind.
  rewrite removeToken_unavailable by assumption.
  unfold Date_now, addLogin. simpl. now rewrite Hav.
Qed.

Lemma in_realm_written (realm token_ : string) (metadata_ : list (string * value))
      (now : Z) :
  in_realm realm (written realm token_ metadata_ now) = true.
Proof.
  unfold in_realm, written, createLoginInfo. simpl.
  now rewrite !String.eqb_refl.
Qed.

Lemma filter_in_realm_removed (realm : string) (l : list LoginInfo) :
  filter (in_realm realm) (filter (fun x => negb (in_realm realm x)) l) = [].
Proof.
  induction l as [| x l IH]; simpl; [reflexivity |].
  destruct (in_realm realm x) eqn:E; simpl; [exact IH | now rewrite E].
Qed.

(** After a store the realm holds the written login and nothing else. *)
Lemma logins_after_store (realm token_ : string)
      (metadata_ : list (string * value)) (w : World) :
  loginsAvailable w = true ->
  filter (in_realm realm) (logins (snd (storeToken realm token_ metadata_ w)))
  = [written realm token_ metadata_ (clock w)].
Proof.
  intro Hav. rewrite storeToken_available by assumption. simpl.
  rewrite filter_app, filter_in_realm_removed. simpl.
  now rewrite in_realm_written.
Qed.

Lemma clock_after_store (realm token_ : string)
      (metadata_ : list (string * value)) (w : World) :
  clock (after (storeToken realm token_ metadata_) w) = clock w.
Proof.
  unfold after. destruct (loginsAvailable w) eqn:Hav.
  - now rewrite storeToken_available.
  - now rewrite storeToken_unavailable.
Qed.

Lemma available_after_store (realm token_ : string)
      (metadata_ : list (string * value)) (w : World) :
  loginsAvailable (after (storeToken realm token_ metadata_) w) = loginsAvailable w.
Proof.
  unfold after. destruct (loginsAvailable w) eqn:Hav.
  - now rewrite storeToken_available.
  - now rewrite storeToken_unavailable.
Qed.

(** C6 (as amended).  With the login manager available and metadata that
    JSON carries unchanged, [storeToken] followed by [getToken] returns the
    stored secret and the stored metadata with [storedAt] set to the time
    of the store: every other key reads as it was stored.  A further
    [storeToken] for the realm leaves exactly one login there, the one just
    written, because the logins of the realm are removed first. *)
Theorem C6_store_then_load (realm secret : string)
        (metadata_ : list (string * value)) (w : World) :
  loginsAvailable w = true ->
  JSON_parse (JSON_stringify (stamped metadata_ (clock w)))
  = inr (stamped metadata_ (clock w)) ->
  let w1 := after (storeToken realm secret metadata_) w in
  getToken realm w1
  = (Returned (Some (mkTokenRecord secret (stamped metadata_ (clock w)))), w1)
  /\ opt_prop (stamped metadata_ (clock w)) "storedAt" = Num (clock w)
  /\ (forall k, k <> "storedAt" ->
       opt_prop (stamped metadata_ (clock w)) k = opt_prop (Obj metadata_) k)
  /\ records realm w1 = [written realm secret metadata_ (clock w)]
  /\ forall secret2 metadata2,
       records realm (after (storeToken realm secret2 metadata2) w1)
       = [written realm secret2 metadata2 (clock w)].
Proof.
  intros Hav Hjson w1.
  assert (Hrec : records realm w1 = [written realm secret metadata_ (clock w)]).
  { unfold records, w1, after. now apply logins_after_store. }
  assert (Hav1 : loginsAvailable w1 = true).
  { unfold w1. now rewrite available_after_store. }
  repeat split.
  - rewrite getToken_stored. f_equal. unfold stored. rewrite Hav1.
    unfold records in Hrec. rewrite Hrec. unfold written, createLoginInfo. simpl.
    unfold stamped in Hjson. now rewrite Hjson.
  - unfold stamped, opt_prop. now rewrite set_field_lookup.
  - intros k Hk. unfold stamped, opt_prop.
    now rewrite set_field_lookup_other.
  - exact Hrec.
  - intros secret2 metadata2. unfold records, after.
    rewrite logins_after_store by assumption.
    unfold w1. now rewrite clock_after_store.
Qed.

(** Without [storedAt] the age test is skipped, whatever [maxAge] is. *)
Lemma hasValidToken_age_skipped (realm : string) (maxAge : value)
      (w : World) (r : TokenRecord) :
  stored realm w = Some r ->
  prop (metadata r) "storedAt" = inr Undefined ->
  hasValidToken realm maxAge w
  = (if truthy (opt_prop (metadata r) "expiresAt")
        && number_gt (clock w) (opt_prop (metadata r) "expiresAt")
     then (Returned false, w) else (Returned true, w)).
Proof.
  intros Hst HstoredAt.
  unfold hasValidToken, bind. rewrite getToken_stored, Hst.
  assert (Hprop : prop (metadata r) "expiresAt"
                  = inr (opt_prop (metadata r) "expiresAt")).
  { unfold prop in *. destruct (metadata r); try reflexivity; discriminate. }
  assert (Htoo : (if truthy maxAge
                  then bind (lift (prop (metadata r) "storedAt"))
                         (fun storedAt =>
                            if truthy storedAt
                            then bind Date_now (fun now =>
                                   match ToNumber storedAt, ToNumber maxAge with
                                   | Some s0, Some m => ret (now - s0 >? m)
                                   | _, _ => ret false
                                   end)
                            else ret false)
                  else ret false) w = (Returned false, w)).
  { destruct (truthy maxAge); [| reflexivity].
    unfold bind. rewrite HstoredAt. reflexivity. }
  unfold bind in Htoo. rewrite Htoo. rewrite Hprop. cbn [lift ret].
  destruct (truthy (opt_prop (metadata r) "expiresAt")); [| reflexivity].
  unfold Date_now. cbn [andb].
  now destruct (number_gt (clock w) (opt_prop (metadata r) "expiresAt")).
Qed.

(** C10.  When the record [getToken] returns has no [storedAt] in its
    metadata, [hasValidToken] answers true for every [maxAge] as soon as
    [expiresAt] is absent, or is a time the clock has not passed.  Such is
    the record of a login whose user name is not JSON: [getToken] puts the
    empty object in the place of its metadata, and it is valid at any
    age. *)
Theorem C10_hasValidToken_without_storedAt (realm : string) (maxAge : value)
        (w : World) :
  (forall r,
      stored realm w = Some r ->
      prop (metadata r) "storedAt" = inr Undefined ->
      (opt_prop (metadata r) "expiresAt" = Undefined
       \/ exists e, opt_prop (metadata r) "expiresAt" = Num e /\ clock w <= e) ->
      hasValidToken realm maxAge w = (Returned true, w))
  /\ (forall login rest e,
        loginsAvailable w = true ->
        records realm w = login :: rest ->
        JSON_parse (username login) = inl e ->
        hasValidToken realm maxAge w = (Returned true, w)).
Proof.
  split.
  - intros r Hst HstoredAt Hexp.
    rewrite (hasValidToken_age_skipped realm maxAge w r Hst HstoredAt).
    destruct Hexp as [-> | [e [-> Hle]]]; [reflexivity |].
    unfold number_gt. simpl.
    destruct (Z.gtb_spec (clock w) e); [lia |]. now rewrite andb_false_r.
  - intros login rest e Hav Hrec Hparse.
    rewrite (hasValidToken_age_skipped realm maxAge w
               (mkTokenRecord (password login) (Obj []))).
    + reflexivity.
    + unfold stored. rewrite Hav. unfold records in Hrec. now rewrite Hrec, Hparse.
    + reflexivity.
Qed.

End WithHost.

Import Examples.

(** C6, the claim as stated, fails: stored with metadata
    [{storedAt: 1}] at time 2, the record loads with [{storedAt: 2}]. *)
Lemma C6_counterexample :
  let w := after (storeToken (host := RefHost.host) "realm" "secret"
                             [("storedAt", Num 1)]) (freshWorld 2 []) in
  result (getToken (host := RefHost.host) "realm") w
  = Returned (Some (mkTokenRecord "secret" (Obj [("storedAt", Num 2)])))
  /\ result (getToken (host := RefHost.host) "realm") w
     <> Returned (Some (mkTokenRecord "secret" (Obj [("storedAt", Num 1)]))).
Proof.
  split; [vm_compute; reflexivity | vm_compute; discriminate].
Qed.

Lemma C6_witness :
  let w := freshWorld t0 [] in
  let m := [("expiresAt", Num (t0 + minutes 30))] in
  let w1 := after (storeToken (host := RefHost.host)
                              REALMS.GITHUB_COPILOT_SESSION "tok" m) w in
  getToken (host := RefHost.host) REALMS.GITHUB_COPILOT_SESSION w1
  = (Returned (Some (mkTokenRecord "tok"
                       (Obj [("expiresAt", Num (t0 + minutes 30));
                             ("storedAt", Num t0)]))), w1).
Proof.
  intros w m w1.
  exact (proj1 (C6_store_then_load (host := RefHost.host)
                  REALMS.GITHUB_COPILOT_SESSION "tok" m w
                  eq_refl ltac:(vm_compute; reflexivity))).
Defined.

Lemma C10_witness :
  hasValidToken (host := RefHost.host) "realm" (Num 1000)
    (worldWith [mkLoginInfo HOSTNAME "realm" "not json" "tok"] t0 [])
  = (Returned true, worldWith [mkLoginInfo HOSTNAME "realm" "not json" "tok"] t0 []).
Proof.
  apply (proj1 (C10_hasValidToken_without_storedAt (host := RefHost.host)
                  "realm" (Num 1000) _) (mkTokenRecord "tok" (Obj []))).
  - vm_compute. reflexivity.
  - vm_compute. reflexivity.
  - left. vm_compute. reflexivity.
Defined.

End TokenStorageFacts.

(* ================================================================== *)
(** * Facts: model resolution and error messages *)
(* ================================================================== *)

Module ResolutionFacts.

Import CopilotClient JSFacts Views Examples.

Lemma pickRanked_first (ranking pre post : list string) (c : string)
      (available : list value) :
  ranking = (pre ++ c :: post)%list ->
  In (Str c) available ->
  (forall p, In p pre -> ~ In (Str p) available) ->
  pickRanked ranking available = Some c.
Proof.
  intros -> Hc Hpre. induction pre as [| p pre IH]; simpl.
  - now rewrite (proj2 (includes_str_In available c) Hc).
  - rewrite (proj2 (includes_str_not_In available p)).
    + apply IH. intros q Hq. apply Hpre. now right.
    + apply Hpre. now left.
Qed.

Lemma pickRanked_none (ranking : list string) (available : list value) :
  (forall c, In c ranking -> ~ In (Str c) available) ->
  pickRanked ranking available = None.
Proof.
  induction ranking as [| c ranking IH]; intro H; simpl; [reflexivity |].
  rewrite (proj2 (includes_str_not_In available c)).
  - apply IH. intros q Hq. apply H. now right.
  - apply H. now left.
Qed.

Lemma pickRanked_In (ranking : list string) (available : list value) (c : string) :
  pickRanked ranking available = Some c -> In c ranking /\ In (Str c) available.
Proof.
  induction ranking as [| x ranking IH]; simpl; [discriminate |].
  destruct (includes_str available x) eqn:E.
  - intros [= ->]. split; [now left | now apply includes_str_In].
  - intro H. destruct (IH H). split; [now right | assumption].
Qed.

(** On a catalog of truthy entries the pick is truthy, and null only on
    the empty catalog. *)
Lemma pickFallbackModelFrom_truthy (ranking : list string) (available : list value) :
  Forall (fun v => truthy v = true) available ->
  available <> [] ->
  truthy (pickFallbackModelFrom ranking available) = true.
Proof.
  intros Hall Hne. unfold pickFallbackModelFrom.
  destruct (pickRanked ranking available) as [c |] eqn:E.
  - apply pickRanked_In in E as [_ Hin].
    rewrite Forall_forall in Hall. exact (Hall _ Hin).
  - destruct available as [| x rest]; [contradiction |].
    inversion Hall; subst. unfold or_else, first. now rewrite H1.
Qed.

(** A pick that is an array or an object is the first entry of the
    catalog; so is such an answer of [resolveModel]. *)
Lemma pickFallbackModelFrom_reference (ranking : list string) (available : list value) :
  is_reference (pickFallbackModelFrom ranking available) = true ->
  pickFallbackModelFrom ranking available = first available.
Proof.
  unfold pickFallbackModelFrom.
  destruct (pickRanked ranking available); [discriminate |].
  unfold or_else. destruct (truthy (first available)); [reflexivity | discriminate].
Qed.

Lemma resolveModelIn_reference (ranking : list string) (available : list value)
      (requested : string) :
  is_reference (resolveModelIn ranking available requested) = true ->
  resolveModelIn ranking available requested = first available.
Proof.
  unfold resolveModelIn.
  destruct (length available =? 0)%nat.
  { unfold or_else. destruct (truthy (Str requested)); [discriminate |].
    destruct ranking; discriminate. }
  destruct (truthy (Str requested) && includes_str available requested);
    [discriminate |].
  cbv zeta. unfold or_else.
  destruct (truthy (pickFallbackModelFrom ranking available)).
  - apply pickFallbackModelFrom_reference.
  - destruct (truthy (Str requested)); [discriminate | reflexivity].
Qed.

(** The body of [resolveModel] on a list of truthy identifiers: the
    requested model when the list has it; otherwise the first entry of the
    ranking that the list has; otherwise the first entry of the list; and
    on the empty list the requested model when one is given, the head of
    the ranking when the request is empty. *)
Lemma resolveModelIn_cases (ranking : list string) (available : list value)
      (requested : string) :
  Forall (fun v => truthy v = true) available ->
  (In (Str requested) available ->
   resolveModelIn ranking available requested = Str requested)
  /\ (~ In (Str requested) available ->
      forall pre c post,
        ranking = (pre ++ c :: post)%list ->
        In (Str c) available ->
        (forall p, In p pre -> ~ In (Str p) available) ->
        resolveModelIn ranking available requested = Str c)
  /\ (~ In (Str requested) available ->
      (forall c, In c ranking -> ~ In (Str c) available) ->
      forall x rest,
        available = x :: rest ->
        resolveModelIn ranking available requested = x)
  /\ (available = [] ->
      resolveModelIn ranking available requested
      = if (requested =? "")%string then first (map Str ranking)
        else Str requested).
Proof.
  intro Hall. rewrite Forall_forall in Hall.
  split; [| split; [| split]].
  - intro Hin. unfold resolveModelIn.
    destruct available as [| x rest]; [contradiction |].
    rewrite (proj2 (includes_str_In _ _) Hin).
    rewrite (Hall _ Hin). reflexivity.
  - intros Hnot pre c post Hr Hc Hpre. unfold resolveModelIn.
    destruct available as [| x rest]; [contradiction |].
    rewrite (proj2 (includes_str_not_In _ _) Hnot), andb_false_r.
    unfold pickFallbackModelFrom.
    rewrite (pickRanked_first ranking pre post c) by assumption.
    unfold or_else. rewrite (Hall _ Hc). reflexivity.
  - intros Hnot Hnone x rest ->. unfold resolveModelIn.
    rewrite (proj2 (includes_str_not_In _ _) Hnot), andb_false_r.
    unfold pickFallbackModelFrom. rewrite pickRanked_none by assumption.
    unfold or_else, first.
    rewrite (Hall x (or_introl eq_refl)). simpl.
    rewrite (Hall x (or_introl eq_refl)). reflexivity.
  - intros ->. unfold resolveModelIn, or_else. simpl.
    destruct (requested =? "")%string; reflexivity.
Qed.

Section WithHost.
Context {host : Host}.

(** A fresh cache is the catalog [resolveModel] resolves against. *)
Lemma resolveModel_cached (models : list value) (requested : string) (w : World) :
  cachedModels w = Some models ->
  clock w - cachedModelsAt w < MODELS_CACHE_TTL ->
  resolveModel requested w
  = (Returned (resolveModelIn FALLBACK_MODELS models requested), w).
Proof.
  intros Hc Hfresh.
  unfold resolveModel, getAvailableModels, bind, Date_now, cacheLookup. simpl.
  rewrite Hc. destruct (Z.ltb_spec (clock w - cachedModelsAt w) MODELS_CACHE_TTL).
  - reflexivity.
  - lia.
Qed.

(** A body that does not look like JSON goes into the message whole. *)
Lemma formatApiError_plain (status_ : Z) (text_ : string) :
  status_ <> 401 -> status_ <> 403 -> text_ <> "" ->
  startsWith (trim text_) "{" = false ->
  startsWith (trim text_) "[" = false ->
  formatApiError status_ text_
  = "Copilot API error (" ++ Z_to_string status_ ++ "): " ++ text_.
Proof.
  intros H401 H403 Hne Hb1 Hb2. unfold formatApiError.
  destruct (Z.eqb_spec status_ 401); [contradiction |].
  destruct (Z.eqb_spec status_ 403); [contradiction |].
  rewrite Hb1, Hb2. simpl.
  destruct (String.eqb_spec text_ ""); [contradiction | reflexivity].
Qed.

(** The message of a JSON error object is the one shown. *)
Lemma formatApiError_json_error_message (status_ : Z) (text_ : string)
      (parsed : value) :
  status_ <> 401 -> status_ <> 403 ->
  startsWith (trim text_) "{" || startsWith (trim text_) "[" = true ->
  JSON_parse (trim text_) = inr parsed ->
  truthy (opt_prop (opt_prop parsed "error") "message") = true ->
  formatApiError status_ text_
  = "Copilot API error (" ++ Z_to_string status_ ++ "): "
    ++ ToString (opt_prop (opt_prop parsed "error") "message").
Proof.
  intros H401 H403 Hlooks Hparse Hm. unfold formatApiError.
  destruct (Z.eqb_spec status_ 401); [contradiction |].
  destruct (Z.eqb_spec status_ 403); [contradiction |].
  now rewrite Hlooks, Hparse, Hm.
Qed.

(** A body that looks like JSON and is not is cut at 200 characters. *)
Lemma formatApiError_unparsable_truncated (status_ : Z) (text_ : string) (e : exn) :
  status_ <> 401 -> status_ <> 403 ->
  startsWith (trim text_) "{" || startsWith (trim text_) "[" = true ->
  JSON_parse (trim text_) = inl e ->
  (200 < String.length text_)%nat ->
  formatApiError status_ text_
  = "Copilot API error (" ++ Z_to_string status_ ++ "): "
    ++ substring0 200 text_ ++ "...".
Proof.
  intros H401 H403 Hlooks Hparse Hlen. unfold formatApiError.
  destruct (Z.eqb_spec status_ 401); [contradiction |].
  destruct (Z.eqb_spec status_ 403); [contradiction |].
  rewrite Hlooks, Hparse.
  destruct (String.eqb_spec text_ "") as [-> | _]; [simpl in Hlen; lia |].
  destruct (Nat.ltb_spec 200 (String.length text_)); [reflexivity | lia].
Qed.

(** C8.  The code at a body of 201 letters answered with status 500: the
    message carries all 201 of them, none cut, no ellipsis. *)
Theorem C8_long_plain_body_not_truncated :
  formatApiError 500 (replicate 201 "a")
  = "Copilot API error (500): " ++ replicate 201 "a".
Proof.
  apply formatApiError_plain; try discriminate; reflexivity.
Qed.

End WithHost.

End ResolutionFacts.

(* ================================================================== *)
(** * Facts: the streaming decoder *)
(* ================================================================== *)

Module StreamingFacts.

Import CopilotClient JSFacts Views Examples.

(** ** Splitting into lines *)

Lemma split_lines_from_nonempty (cur s : string) : split_lines_from cur s <> [].
Proof.
  revert cur. induction s as [| c r IH]; intro cur; simpl.
  - discriminate.
  - destruct (Ascii.eqb c newline); [discriminate | apply IH].
Qed.

Lemma string_app_assoc (a b c : string) : ((a ++ b) ++ c)%string = (a ++ (b ++ c))%string.
Proof. induction a as [| x a IH]; simpl; [reflexivity | now rewrite IH]. Qed.

Lemma string_app_empty_r (a : string) : (a ++ "")%string = a.
Proof. induction a as [| x a IH]; simpl; [reflexivity | now rewrite IH]. Qed.

(** Splitting a text in two pieces: the unfinished line of the first
    piece is where the second goes on. *)
Lemma split_lines_from_app (x y cur : string) :
  split_lines_from cur (x ++ y)
  = (removelast (split_lines_from cur x)
     ++ split_lines_from (last (split_lines_from cur x) EmptyString) y)%list.
Proof.
  revert cur. induction x as [| c r IH]; intro cur; simpl.
  - reflexivity.
  - destruct (Ascii.eqb c newline).
    + rewrite IH.
      pose proof (split_lines_from_nonempty EmptyString r) as Hne.
      destruct (split_lines_from EmptyString r) as [| p ps]; [contradiction |].
      reflexivity.
    + apply IH.
Qed.

(** A buffer without a line feed is the start of the first line. *)
Lemma split_lines_buffer (b s cur : string) :
  no_newline b = true ->
  split_lines_from cur (b ++ s) = split_lines_from (cur ++ b) s.
Proof.
  revert cur. induction b as [| c r IH]; intros cur Hb; simpl in *.
  - now rewrite string_app_empty_r.
  - apply andb_true_iff in Hb as [Hc Hr].
    destruct (Ascii.eqb c newline); [discriminate |].
    rewrite IH by assumption. now rewrite string_app_assoc.
Qed.

Lemma no_newline_app (a b : string) :
  no_newline (a ++ b) = no_newline a && no_newline b.
Proof.
  induction a as [| c a IH]; simpl; [reflexivity |].
  rewrite IH. now rewrite andb_assoc.
Qed.

Lemma unfinished_line_no_newline (s cur : string) :
  no_newline cur = true ->
  no_newline (last (split_lines_from cur s) EmptyString) = true.
Proof.
  revert cur. induction s as [| c r IH]; intros cur Hcur; simpl.
  - assumption.
  - destruct (Ascii.eqb c newline) eqn:E.
    + pose proof (split_lines_from_nonempty EmptyString r) as Hne.
      specialize (IH EmptyString eq_refl).
      destruct (split_lines_from EmptyString r) as [| p ps]; [contradiction |].
      exact IH.
    + apply IH. rewrite no_newline_app, Hcur. simpl. now rewrite E.
Qed.

Lemma last_app_nonempty {A} (a b : list A) (d : A) :
  b <> [] -> last (a ++ b) d = last b d.
Proof.
  intro Hb. induction a as [| x a IH]; simpl; [reflexivity |].
  destruct (a ++ b)%list eqn:E; [| exact IH].
  apply app_eq_nil in E as [_ ->]. contradiction.
Qed.

(** ** The decoder *)

Lemma emit_nil (given : bool) (w : World) : emit given [] w = w.
Proof.
  unfold emit. destruct given; [| reflexivity].
  rewrite app_nil_r. now destruct w.
Qed.

Lemma emit_app (given : bool) (a b : list (value * string)) (w : World) :
  emit given (a ++ b) w = emit given b (emit given a w).
Proof.
  unfold emit. destruct given; [| reflexivity].
  unfold set_chunkCalls. simpl. now rewrite app_assoc.
Qed.

Section WithHost.
Context {host : Host}.

Lemma processLine_decodeLine (given : bool) (d : Decoder) (line : string) (w : World) :
  processLine given d line w
  = (Returned (fst (decodeLine d line)), emit given (snd (decodeLine d line)) w).
Proof.
  unfold processLine, decodeLine, payload_of.
  destruct (startsWith line "data: "); [| now rewrite emit_nil].
  destruct (_ =? "[DONE]")%string; [now rewrite emit_nil |].
  destruct (_ =? "")%string; [now rewrite emit_nil |].
  unfold try_catch, bind, lift.
  destruct (JSON_parse (trim (slice 6 line))) as [e | parsed]; simpl;
    [now rewrite emit_nil |].
  destruct (prop parsed "error") as [e | err]; simpl; [now rewrite emit_nil |].
  destruct (truthy err); simpl; [now rewrite emit_nil |].
  destruct (truthy _); simpl; [| now rewrite emit_nil].
  unfold onChunk, emit. reflexivity.
Qed.

Lemma processLines_decodeLines (given : bool) (lines : list string) (d : Decoder)
      (w : World) :
  processLines given d lines w
  = (Returned (fst (decodeLines d lines)), emit given (snd (decodeLines d lines)) w).
Proof.
  revert d w. induction lines as [| line rest IH]; intros d w; simpl.
  - now rewrite emit_nil.
  - unfold bind. rewrite processLine_decodeLine, IH.
    destruct (decodeLine d line) as [d1 c1]. simpl.
    destruct (decodeLines d1 rest) as [d2 c2]. simpl.
    now rewrite emit_app.
Qed.

Lemma decodeLine_with_buffer (b : string) (d : Decoder) (line : string) :
  decodeLine (with_buffer b d) line
  = (with_buffer b (fst (decodeLine d line)), snd (decodeLine d line)).
Proof.
  unfold decodeLine.
  destruct (startsWith line "data: "); [| reflexivity].
  destruct (_ =? "[DONE]")%string; [reflexivity |].
  destruct (_ =? "")%string; [reflexivity |].
  destruct (JSON_parse (payload_of line)) as [e | parsed]; [reflexivity |].
  destruct (prop parsed "error") as [e | err]; [reflexivity |].
  destruct (truthy err); [reflexivity |].
  destruct (truthy _); reflexivity.
Qed.

Lemma decodeLines_with_buffer (b : string) (lines : list string) (d : Decoder) :
  decodeLines (with_buffer b d) lines
  = (with_buffer b (fst (decodeLines d lines)), snd (decodeLines d lines)).
Proof.
  revert d. induction lines as [| line rest IH]; intro d; simpl.
  - reflexivity.
  - rewrite decodeLine_with_buffer.
    destruct (decodeLine d line) as [d1 c1]. simpl. rewrite IH.
    destruct (decodeLines d1 rest) as [d2 c2]. reflexivity.
Qed.

Lemma decodeLines_app (a b : list string) (d : Decoder) :
  decodeLines d (a ++ b)
  = (fst (decodeLines (fst (decodeLines d a)) b),
     snd (decodeLines d a) ++ snd (decodeLines (fst (decodeLines d a)) b))%list.
Proof.
  revert d. induction a as [| line rest IH]; intro d; simpl.
  - now destruct (decodeLines d b).
  - destruct (decodeLine d line) as [d1 c1]. rewrite IH.
    destruct (decodeLines d1 rest) as [d2 c2]. simpl.
    now rewrite app_assoc.
Qed.

Lemma with_buffer_twice (a b : string) (d : Decoder) :
  with_buffer a (with_buffer b d) = with_buffer a d.
Proof. reflexivity. Qed.

Lemma with_buffer_same (d : Decoder) : with_buffer (buffer d) d = d.
Proof. now destruct d. Qed.

Lemma decodeLine_buffer (d : Decoder) (line : string) :
  buffer (fst (decodeLine d line)) = buffer d.
Proof.
  unfold decodeLine.
  destruct (startsWith line "data: "); [| reflexivity].
  destruct (_ =? "[DONE]")%string; [reflexivity |].
  destruct (_ =? "")%string; [reflexivity |].
  destruct (JSON_parse (payload_of line)) as [e | parsed]; [reflexivity |].
  destruct (prop parsed "error") as [e | err]; [reflexivity |].
  destruct (truthy err); [reflexivity |].
  destruct (truthy _); reflexivity.
Qed.

Lemma decodeLines_buffer (lines : list string) (d : Decoder) :
  buffer (fst (decodeLines d lines)) = buffer d.
Proof.
  revert d. induction lines as [| line rest IH]; intro d; simpl; [reflexivity |].
  pose proof (decodeLine_buffer d line) as H1.
  destruct (decodeLine d line) as [d1 c1]. specialize (IH d1).
  destruct (decodeLines d1 rest) as [d2 c2]. simpl in *. congruence.
Qed.

(** The chunks matter through their concatenation only: the decoder after
    them is the decoder after the complete lines of the whole text, with
    the unfinished line in its buffer. *)
Lemma processChunks_decodeLines (given : bool) (chunks : list string) (d : Decoder)
      (w : World) :
  no_newline (buffer d) = true ->
  processChunks given d chunks w
  = (Returned (with_buffer (unfinished_line (buffer d) (concat_chunks chunks))
                 (fst (decodeLines d (complete_lines (buffer d) (concat_chunks chunks))))),
     emit given (snd (decodeLines d (complete_lines (buffer d) (concat_chunks chunks)))) w).
Proof.
  revert d w. induction chunks as [| chunk rest IH]; intros d w Hb.
  - simpl. unfold unfinished_line, complete_lines. simpl.
    now rewrite emit_nil, with_buffer_same.
  - simpl. unfold bind, processChunk, split_lines.
    rewrite (split_lines_buffer (buffer d) chunk "" Hb). simpl.
    rewrite processLines_decodeLines.
    fold (with_buffer (last (split_lines_from (buffer d) chunk) "") d).
    rewrite decodeLines_with_buffer. simpl.
    rewrite IH by (simpl; now apply unfinished_line_no_newline).
    simpl. unfold unfinished_line, complete_lines.
    rewrite split_lines_from_app.
    pose proof (split_lines_from_nonempty
                  (last (split_lines_from (buffer d) chunk) "") (concat_chunks rest))
      as Hne.
    rewrite removelast_app by assumption.
    rewrite last_app_nonempty by assumption.
    rewrite decodeLines_app, decodeLines_with_buffer. simpl.
    rewrite emit_app. reflexivity.
Qed.

(** [handleStreamingResponse] in terms of the decoder at the end of the
    body. *)
Lemma handleStreamingResponse_decoded (r : Response) (given : bool) (w : World) :
  handleStreamingResponse r given w
  = let d := fst (decoded r) in
    let w' := emit given (snd (decoded r)) w in
    match bodyError r with
    | Some e => (Thrown e, w')
    | None =>
        if truthy (errorMessage d) && negb (truthy (Str (fullContent d)))
        then (Thrown (new_Error (errorMessage d)), w')
        else (Returned (streamed (fullContent d) (xModel r)), w')
    end.
Proof.
  unfold handleStreamingResponse, bind.
  rewrite processChunks_decodeLines by reflexivity. simpl.
  unfold decoded, complete_lines.
  destruct (bodyError r); simpl; [reflexivity |].
  destruct (truthy (errorMessage _) && _); reflexivity.
Qed.

(** The body matters through its text only, not through its chunks. *)
Lemma handleStreamingResponse_chunking (r1 r2 : Response) (given : bool) (w : World) :
  concat_chunks (body r1) = concat_chunks (body r2) ->
  bodyError r1 = bodyError r2 ->
  xModel r1 = xModel r2 ->
  handleStreamingResponse r1 given w = handleStreamingResponse r2 given w.
Proof.
  intros Hb He Hx. rewrite !handleStreamingResponse_decoded.
  unfold decoded. now rewrite Hb, He, Hx.
Qed.

Lemma decodeLine_ignorable (d : Decoder) (line : string) :
  ignorable line -> decodeLine d line = (d, []).
Proof.
  unfold ignorable, decodeLine. intros [H | [H | [H | [e H]]]].
  - now rewrite H.
  - rewrite H. now destruct (startsWith line "data: ").
  - rewrite H. now destruct (startsWith line "data: ").
  - rewrite H. destruct (startsWith line "data: "); [| reflexivity].
    destruct (_ =? "[DONE]")%string; [reflexivity |].
    now destruct (_ =? "")%string.
Qed.

(** A frame with a content delta appends it and calls [onChunk] once with
    the delta and the content so far. *)
Lemma decodeLine_content (d : Decoder) (line : string) (parsed err : value) :
  startsWith line "data: " = true ->
  payload_of line <> "[DONE]" ->
  payload_of line <> "" ->
  JSON_parse (payload_of line) = inr parsed ->
  prop parsed "error" = inr err ->
  truthy err = false ->
  let content :=
    opt_prop (opt_prop (opt_first (opt_prop parsed "choices")) "delta") "content" in
  truthy content = true ->
  decodeLine d line
  = (mkDecoder (buffer d) (fullContent d ++ ToString content) (errorMessage d),
     [(content, (fullContent d ++ ToString content)%string)]).
Proof.
  intros Hs Hdone Hblank Hparse Hprop Herr content Hc. unfold decodeLine.
  rewrite Hs.
  destruct (String.eqb_spec (payload_of line) "[DONE]"); [contradiction |].
  destruct (String.eqb_spec (payload_of line) ""); [contradiction |].
  rewrite Hparse, Hprop, Herr. fold content. now rewrite Hc.
Qed.

Lemma truthy_or_else (a b : value) : truthy b = true -> truthy (or_else a b) = true.
Proof. intro Hb. unfold or_else. now destruct (truthy a) eqn:E. Qed.

Lemma decodeLine_error_frame (d : Decoder) (line : string) :
  error_frame line ->
  truthy (errorMessage (fst (decodeLine d line))) = true
  /\ fullContent (fst (decodeLine d line)) = fullContent d
  /\ snd (decodeLine d line) = [].
Proof.
  intros (Hs & Hdone & Hblank & parsed & err & Hparse & Hprop & Herr).
  unfold decodeLine. rewrite Hs.
  destruct (String.eqb_spec (payload_of line) "[DONE]"); [contradiction |].
  destruct (String.eqb_spec (payload_of line) ""); [contradiction |].
  rewrite Hparse, Hprop, Herr. simpl.
  split; [now apply truthy_or_else | split; reflexivity].
Qed.

(** The error message changes at error frames only. *)
Lemma decodeLine_errorMessage (d : Decoder) (line : string) :
  errorMessage (fst (decodeLine d line)) = errorMessage d \/ error_frame line.
Proof.
  unfold decodeLine, error_frame.
  destruct (startsWith line "data: "); [| now left].
  destruct (String.eqb_spec (payload_of line) "[DONE]"); [now left |].
  destruct (String.eqb_spec (payload_of line) ""); [now left |].
  destruct (JSON_parse (payload_of line)) as [e | parsed]; [now left |].
  destruct (prop parsed "error") as [e | err] eqn:Hprop; [now left |].
  destruct (truthy err) eqn:Herr.
  - right. split; [reflexivity |]. split; [assumption |]. split; [assumption |].
    exists parsed, err. split; [reflexivity |]. split; [exact Hprop | exact Herr].
  - left. match goal with |- context [if ?c then _ else _] => destruct c end;
      reflexivity.
Qed.

(** At the end the error message is set exactly when the decoder started
    with one or met an error frame. *)
Lemma decodeLines_errorMessage (lines : list string) (d : Decoder) :
  truthy (errorMessage (fst (decodeLines d lines))) = true
  <-> truthy (errorMessage d) = true \/ Exists error_frame lines.
Proof.
  revert d. induction lines as [| line rest IH]; intro d; simpl.
  - split; [now left | intros [H | H]; [assumption | inversion H]].
  - pose proof (decodeLine_errorMessage d line) as Hstep.
    pose proof (decodeLine_error_frame d line) as Hframe.
    destruct (decodeLine d line) as [d1 c1]. specialize (IH d1).
    destruct (decodeLines d1 rest) as [d2 c2]. simpl in *.
    rewrite IH. split.
    + intros [H | H].
      * destruct Hstep as [Heq | Hf]; [left; congruence | right; now left].
      * right. now right.
    + intros [H | H].
      * left. destruct Hstep as [Heq | Hf]; [congruence | now apply Hframe].
      * inversion H; subst; [left; now apply Hframe | now right].
Qed.

Lemma decodeLines_cons (d : Decoder) (line : string) (rest : list string) :
  decodeLines d (line :: rest)
  = (fst (decodeLines (fst (decodeLine d line)) rest),
     snd (decodeLine d line) ++ snd (decodeLines (fst (decodeLine d line)) rest))%list.
Proof.
  simpl. destruct (decodeLine d line) as [d1 c1]. cbn [fst snd].
  now destruct (decodeLines d1 rest).
Qed.

(** The three lines of the example, decoded. *)
Lemma decodeLines_hello :
  JSON_parse (delta_json "Hel") = inr (delta_value "Hel") ->
  JSON_parse (delta_json "lo") = inr (delta_value "lo") ->
  decodeLines (mkDecoder "" "" Null) hello_lines
  = (mkDecoder "" "Hello" Null, [(Str "Hel", "Hel"); (Str "lo", "Hello")]).
Proof.
  intros H1 H2. unfold hello_lines.
  assert (E1 : decodeLine (mkDecoder "" "" Null) ("data: " ++ delta_json "Hel")
               = (mkDecoder "" "Hel" Null, [(Str "Hel", "Hel")])).
  { rewrite (decodeLine_content _ _ (delta_value "Hel") Undefined);
      solve [reflexivity | exact H1 | intro H; vm_compute in H; discriminate]. }
  assert (E2 : decodeLine (mkDecoder "" "Hel" Null) ("data: " ++ delta_json "lo")
               = (mkDecoder "" "Hello" Null, [(Str "lo", "Hello")])).
  { rewrite (decodeLine_content _ _ (delta_value "lo") Undefined);
      solve [reflexivity | exact H2 | intro H; vm_compute in H; discriminate]. }
  assert (E3 : decodeLine (mkDecoder "" "Hello" Null) "data: [DONE]"
               = (mkDecoder "" "Hello" Null, [])).
  { apply decodeLine_ignorable. right. left. reflexivity. }
  rewrite decodeLines_cons, E1. cbn [fst snd].
  rewrite decodeLines_cons, E2. cbn [fst snd].
  rewrite decodeLines_cons, E3. reflexivity.
Qed.

(** C3.  (1) Whatever chunks carry it, the stream of the three frames
    [data: {delta Hel}], [data: {delta lo}], [data: [DONE]] yields the
    content Hello and two calls of [onChunk]: (Hel, Hel) and (lo, Hello).
    (2) A frame that is not data, the [DONE] sentinel, a blank frame and
    an unparsable frame leave the decoder and the world as they are.
    (3) When the body is read to its end, the stream fails exactly when it
    held an error frame and no content was accumulated; the error is the
    recorded message. *)
Theorem C3_streaming_decode :
  (forall (chunks : list string) (given : bool) (w : World)
          (st : Z) (stt : string) (xm : option string),
      JSON_parse (delta_json "Hel") = inr (delta_value "Hel") ->
      JSON_parse (delta_json "lo") = inr (delta_value "lo") ->
      concat_chunks chunks = hello_stream ->
      handleStreamingResponse (mkResponse st stt xm chunks None) given w
      = (Returned (streamed "Hello" xm),
         emit given [(Str "Hel", "Hel"); (Str "lo", "Hello")] w))
  /\ (forall (given : bool) (d : Decoder) (line : string) (w : World),
        ignorable line -> processLine given d line w = (Returned d, w))
  /\ (forall (r : Response) (given : bool) (w : World),
        bodyError r = None ->
        let d := fst (decoded r) in
        let w' := emit given (snd (decoded r)) w in
        (Exists error_frame (complete_lines "" (concat_chunks (body r)))
         /\ fullContent d = ""
         -> handleStreamingResponse r given w
            = (Thrown (new_Error (errorMessage d)), w'))
        /\ (~ (Exists error_frame (complete_lines "" (concat_chunks (body r)))
              /\ fullContent d = "")
            -> handleStreamingResponse r given w
               = (Returned (streamed (fullContent d) (xModel r)), w'))).
Proof.
  split; [| split].
  - intros chunks given w st stt xm H1 H2 Hc.
    rewrite handleStreamingResponse_decoded. unfold decoded.
    cbn [body bodyError xModel]. rewrite Hc.
    change (removelast (split_lines_from "" hello_stream)) with hello_lines.
    now rewrite decodeLines_hello.
  - intros given d line w Hi.
    rewrite processLine_decodeLine, decodeLine_ignorable by assumption.
    simpl. now rewrite emit_nil.
  - intros r given w Hbody d w'. subst d w'.
    rewrite handleStreamingResponse_decoded, Hbody. cbv zeta.
    pose proof (decodeLines_errorMessage
                  (complete_lines "" (concat_chunks (body r)))
                  (mkDecoder "" "" Null)) as Herr.
    unfold decoded, complete_lines in *.
    set (dl := decodeLines _ _) in *. simpl in Herr.
    split.
    + intros [Hex Hfull].
      rewrite (proj2 Herr (or_intror Hex)), Hfull. reflexivity.
    + intro Hnot.
      destruct (truthy (errorMessage (fst dl))) eqn:Et; [| reflexivity].
      destruct (String.eqb_spec (fullContent (fst dl)) "") as [Hfull | Hfull].
      * exfalso. apply Hnot. split; [| assumption].
        destruct (proj1 Herr eq_refl) as [H | H]; [discriminate | assumption].
      * simpl. destruct (String.eqb_spec (fullContent (fst dl)) "");
          [contradiction | reflexivity].
Qed.

End WithHost.

(** The example run on the reference host, with chunk boundaries inside
    the frames. *)
Lemma C3_witness :
  handleStreamingResponse (host := RefHost.host)
    (mkResponse 200 "OK" None hello_chunks None) true (freshWorld t0 [])
  = (Returned (Obj [("content", Str "Hello"); ("model", Str "unknown")]),
     set_chunkCalls [(Str "Hel", "Hel"); (Str "lo", "Hello")] (freshWorld t0 [])).
Proof.
  exact (proj1 (C3_streaming_decode (host := RefHost.host)) hello_chunks true
               (freshWorld t0 []) 200 "OK" None eq_refl eq_refl eq_refl).
Defined.

End StreamingFacts.

(* ================================================================== *)
(** * Facts: the session token *)
(* ================================================================== *)

Module SessionFacts.

Import TokenStorage GitHubDeviceFlow JSFacts Views Examples TokenStorageFacts.

(** ** What a fetch changes *)

Lemma answered_logins (req : Request) (w : World) :
  logins (answered req w) = logins w
  /\ loginsAvailable (answered req w) = loginsAvailable w.
Proof.
  unfold answered, fetch. destruct (network w) as [| x rest]; simpl.
  - now split.
  - destruct (outcome x); now split.
Qed.

Lemma answered_requests (req : Request) (w : World) :
  requests (answered req w) = (requests w ++ [req])%list.
Proof.
  unfold answered, fetch. destruct (network w) as [| x rest]; simpl.
  - reflexivity.
  - destruct (outcome x); reflexivity.
Qed.

Lemma answered_cache (req : Request) (w : World) :
  cachedModels (answered req w) = cachedModels w
  /\ cachedModelsAt (answered req w) = cachedModelsAt w.
Proof.
  unfold answered, fetch. destruct (network w) as [| x rest]; simpl.
  - now split.
  - destruct (outcome x); now split.
Qed.

Lemma answered_clock (req : Request) (w : World) (x : Exchange) (rest : list Exchange) :
  network w = x :: rest ->
  clock (answered req w) = clock w + latency x.
Proof.
  intro Hn. unfold answered, fetch. rewrite Hn. now destruct (outcome x).
Qed.

Lemma fetch_response (req : Request) (w : World) (x : Exchange)
      (rest : list Exchange) (r : Response) :
  network w = x :: rest -> outcome x = inr r ->
  fetch req w = (Returned r, answered req w).
Proof.
  intros Hn Ho. unfold answered, fetch. now rewrite Hn, Ho.
Qed.

Lemma records_answered (realm : string) (req : Request) (w : World) :
  records realm (answered req w) = records realm w.
Proof. unfold records. now rewrite (proj1 (answered_logins req w)). Qed.

Section WithHost.
Context {host : Host}.

Lemma stored_answered (realm : string) (req : Request) (w : World) :
  stored realm (answered req w) = stored realm w.
Proof.
  unfold stored. destruct (answered_logins req w) as [-> ->]. reflexivity.
Qed.

(** ** The exchange *)

(** [getCopilotToken] touches the world through its one fetch only. *)
Lemma getCopilotToken_world (accessToken : value) (w : World) :
  after (getCopilotToken accessToken) w = answered (exchangeRequest accessToken) w.
Proof.
  unfold after, answered, getCopilotToken, try_catch, bind.
  destruct (fetch (exchangeRequest accessToken) w) as [[r | e] w1];
    [| reflexivity].
  unfold text, lift, throw, ret. simpl.
  destruct (negb (ok r)).
  - destruct (bodyError r); [reflexivity |].
    destruct (status r =? 401); [reflexivity |].
    destruct (status r =? 403); [reflexivity |].
    destruct (status r =? 404); [reflexivity |].
    destruct (startsWith _ "{"); [| reflexivity].
    destruct (JSON_parse _) as [e | parsed]; [reflexivity |].
    destruct (prop parsed "message") as [e | m]; [reflexivity |].
    destruct (truthy m); [reflexivity |].
    destruct (prop parsed "error"); reflexivity.
  - destruct (bodyError r); [reflexivity |].
    destruct (JSON_parse _) as [e | data]; [reflexivity |].
    destruct (prop data "token") as [e | tok]; [reflexivity |].
    destruct (negb (truthy tok)); reflexivity.
Qed.


(** A 401 answer is the invalid-token error. *)
Lemma getCopilotToken_401 (accessToken : value) (w : World) (x : Exchange)
      (rest : list Exchange) (r : Response) :
  network w = x :: rest -> outcome x = inr r ->
  status r = 401 -> bodyError r = None ->
  getCopilotToken accessToken w
  = (Thrown (Error "GitHub token is invalid or expired. Please re-authenticate."),
     answered (exchangeRequest accessToken) w).
Proof.
  intros Hn Ho Hst Hbody.
  unfold getCopilotToken, try_catch, bind.
  rewrite (fetch_response _ w x rest r Hn Ho).
  unfold ok. rewrite Hst. simpl. unfold text. rewrite Hbody. simpl. reflexivity.
Qed.

(** ** disconnect *)

Lemma disconnect_available (w : World) :
  loginsAvailable w = true ->
  disconnect w
  = (Returned tt,
     set_logins (filter (fun l => negb (in_realm REALMS.GITHUB_COPILOT_SESSION l))
                   (filter (fun l => negb (in_realm REALMS.GITHUB_COPILOT l))
                           (logins w))) w).
Proof.
  intro Hav. unfold disconnect, bind.
  rewrite removeToken_available by assumption.
  rewrite removeToken_available by assumption.
  reflexivity.
Qed.

Lemma filter_filter_comm {A} (f g : A -> bool) (l : list A) :
  filter f (filter g l) = filter g (filter f l).
Proof.
  induction l as [| x l IH]; simpl; [reflexivity |].
  destruct (f x) eqn:Ef, (g x) eqn:Eg; simpl; rewrite ?Ef, ?Eg, IH; reflexivity.
Qed.

(** After [disconnect] neither realm holds a login. *)
Lemma records_after_disconnect (w : World) :
  loginsAvailable w = true ->
  records REALMS.GITHUB_COPILOT (after disconnect w) = []
  /\ records REALMS.GITHUB_COPILOT_SESSION (after disconnect w) = [].
Proof.
  intro Hav. unfold after, records. rewrite disconnect_available by assumption.
  simpl. split.
  - rewrite (filter_filter_comm (fun l => negb (in_realm REALMS.GITHUB_COPILOT_SESSION l))).
    apply filter_in_realm_removed.
  - apply filter_in_realm_removed.
Qed.

(** ** refreshSession *)

Lemma refreshSession_not_authenticated (w : World) :
  no_access_token w ->
  refreshSession w
  = (Thrown (Error "Not authenticated. Please connect to GitHub Copilot."), w).
Proof.
  intros [H | [a [H Ha]]]; unfold refreshSession, bind;
    rewrite getToken_stored, H; [reflexivity |].
  rewrite Ha. reflexivity.
Qed.

Lemma truthy_token (a : TokenRecord) :
  token a <> "" -> negb (truthy (Str (token a))) = false.
Proof.
  intro H. simpl. destruct (String.eqb_spec (token a) ""); [contradiction | reflexivity].
Qed.

Lemma refreshSession_granted (w : World) (a : TokenRecord) (c : CopilotToken)
      (w1 : World) :
  stored REALMS.GITHUB_COPILOT w = Some a -> token a <> "" ->
  getCopilotToken (Str (token a)) w = (Returned c, w1) ->
  refreshSession w
  = (Returned (copilotToken_token c),
     after (storeToken REALMS.GITHUB_COPILOT_SESSION
                       (ToString (copilotToken_token c)) (session_metadata c)) w1).
Proof.
  intros Ha Hne Hx. unfold refreshSession, bind.
  rewrite getToken_stored, Ha, truthy_token by assumption.
  unfold try_catch, bind. rewrite Hx. unfold after, session_metadata.
  destruct (storeToken _ _ _ w1) as [[b | e] w2] eqn:Hs; simpl; [reflexivity |].
  exfalso. destruct (loginsAvailable w1) eqn:Hav.
  - rewrite storeToken_available in Hs by assumption. discriminate.
  - rewrite storeToken_unavailable in Hs by assumption. discriminate.
Qed.

Lemma refreshSession_auth_failure (w : World) (a : TokenRecord) (e : exn)
      (w1 : World) :
  stored REALMS.GITHUB_COPILOT w = Some a -> token a <> "" ->
  getCopilotToken (Str (token a)) w = (Thrown e, w1) ->
  auth_failure (message_of e) = true ->
  refreshSession w
  = (Thrown (Error "GitHub session expired. Please reconnect to GitHub Copilot."),
     after disconnect w1).
Proof.
  intros Ha Hne Hx Hf. unfold refreshSession, bind.
  rewrite getToken_stored, Ha, truthy_token by assumption.
  unfold try_catch, bind. rewrite Hx, Hf. unfold after.
  destruct (loginsAvailable w1) eqn:Hav.
  - now rewrite disconnect_available.
  - unfold disconnect, bind. now rewrite !removeToken_unavailable.
Qed.

Lemma refreshSession_other_failure (w : World) (a : TokenRecord) (e : exn)
      (w1 : World) :
  stored REALMS.GITHUB_COPILOT w = Some a -> token a <> "" ->
  getCopilotToken (Str (token a)) w = (Thrown e, w1) ->
  auth_failure (message_of e) = false ->
  refreshSession w = (Thrown e, w1).
Proof.
  intros Ha Hne Hx Hf. unfold refreshSession, bind.
  rewrite getToken_stored, Ha, truthy_token by assumption.
  unfold try_catch, bind. now rewrite Hx, Hf.
Qed.



Lemma getSessionToken_needs_refresh (w : World) :
  needs_refresh w -> getSessionToken w = refreshSession w.
Proof.
  intros [H | (s & e & H & Hp & Hg)]; unfold getSessionToken, bind;
    rewrite getToken_stored, H; simpl; [reflexivity |].
  rewrite Hp. simpl. unfold Date_now. simpl. now rewrite Hg.
Qed.

Lemma getSessionToken_fresh (w : World) (s : TokenRecord) (e : value) :
  stored REALMS.GITHUB_COPILOT_SESSION w = Some s ->
  prop (metadata s) "expiresAt" = inr e ->
  gt_number e (clock w + bufferTime) = true ->
  getSessionToken w = (Returned (Str (token s)), w).
Proof.
  intros H Hp Hg. unfold getSessionToken, bind.
  rewrite getToken_stored, H. simpl. rewrite Hp. simpl.
  unfold Date_now. simpl. now rewrite Hg.
Qed.


Lemma stored_available (realm : string) (w : World) (r : TokenRecord) :
  stored realm w = Some r -> loginsAvailable w = true.
Proof. unfold stored. now destruct (loginsAvailable w). Qed.


(** C4 (as amended).  When [getSessionToken] has to refresh: without an
    access token it raises the not-authenticated error and leaves the
    world as it is; when the exchange fails with a message that names 401,
    invalid or expired, it raises the session-expired error and neither
    realm holds a login afterwards.  No token is returned in either case. *)
Theorem C4_refresh_failures (w : World) :
  needs_refresh w ->
  (no_access_token w ->
   getSessionToken w
   = (Thrown (Error "Not authenticated. Please connect to GitHub Copilot."), w))
  /\ (forall a e w1,
        stored REALMS.GITHUB_COPILOT w = Some a -> token a <> "" ->
        getCopilotToken (Str (token a)) w = (Thrown e, w1) ->
        auth_failure (message_of e) = true ->
        let w2 := after getSessionToken w in
        getSessionToken w
        = (Thrown (Error "GitHub session expired. Please reconnect to GitHub Copilot."),
           w2)
        /\ records REALMS.GITHUB_COPILOT w2 = []
        /\ records REALMS.GITHUB_COPILOT_SESSION w2 = []).
Proof.
  intro Hneed. rewrite (getSessionToken_needs_refresh w Hneed). split.
  - apply refreshSession_not_authenticated.
  - intros a e w1 Ha Hne Hx Hf w2. subst w2. unfold after at 1 2 3.
    rewrite (getSessionToken_needs_refresh w Hneed).
    rewrite (refreshSession_auth_failure w a e w1 Ha Hne Hx Hf). cbn [fst snd].
    split; [reflexivity |].
    apply records_after_disconnect.
    pose proof (getCopilotToken_world (Str (token a)) w) as Hw.
    unfold after in Hw. rewrite Hx in Hw. simpl in Hw. subst w1.
    rewrite (proj2 (answered_logins _ w)). now apply stored_available in Ha.
Qed.

End WithHost.


(** C4, the claim as stated, fails: with a session record inside the
    buffer and no access-token record, the failure is raised and the
    session record is still there. *)
Lemma C4_counterexample :
  let w := worldWith [sessionLogin 3] t0 [] in
  getSessionToken (host := RefHost.host) w
  = (Thrown (Error "Not authenticated. Please connect to GitHub Copilot."), w)
  /\ records REALMS.GITHUB_COPILOT_SESSION
             (after (getSessionToken (host := RefHost.host)) w)
     = [sessionLogin 3]
  /\ records REALMS.GITHUB_COPILOT_SESSION
             (after (getSessionToken (host := RefHost.host)) w)
     <> [].
Proof.
  intro w. split; [| split].
  - vm_compute. reflexivity.
  - vm_compute. reflexivity.
  - vm_compute. discriminate.
Qed.

(** A rejected exchange (401) on the reference host: both realms end up
    empty. *)
Lemma C4_witness :
  let w := worldWith [sessionLogin 3; accessLogin] t0 [answer 40 401 "Bad credentials"] in
  let w2 := after (getSessionToken (host := RefHost.host)) w in
  getSessionToken (host := RefHost.host) w
  = (Thrown (Error "GitHub session expired. Please reconnect to GitHub Copilot."), w2)
  /\ records REALMS.GITHUB_COPILOT w2 = []
  /\ records REALMS.GITHUB_COPILOT_SESSION w2 = [].
Proof.
  intros w w2.
  refine (proj2 (C4_refresh_failures (host := RefHost.host) w _)
                (mkTokenRecord "gho_access"
                   (Obj [("user", Null); ("storedAt", Num (t0 - minutes 10))]))
                (Error "GitHub token is invalid or expired. Please re-authenticate.")
                _ _ _ _ _).
  - right.
    exists (mkTokenRecord "session-old"
              (Obj [("expiresAt", Num (t0 + minutes 3));
                    ("storedAt", Num (t0 - minutes 10))])),
           (Num (t0 + minutes 3)).
    split; [vm_compute; reflexivity |].
    split; vm_compute; reflexivity.
  - vm_compute. reflexivity.
  - discriminate.
  - vm_compute. reflexivity.
  - vm_compute. reflexivity.
Defined.

End SessionFacts.

(* ================================================================== *)
(** * Facts: the model catalog *)
(* ================================================================== *)

Module CatalogFacts.

Import TokenStorage GitHubDeviceFlow CopilotClient.
Import JSFacts Views Examples TokenStorageFacts SessionFacts ResolutionFacts.

Lemma chatCalls_answered (req : Request) (w : World) :
  chatCalls (answered req w)
  = (chatCalls w ++ if (url req =? API_URL)%string then [req] else [])%list.
Proof.
  unfold chatCalls. rewrite answered_requests, filter_app. simpl.
  now destruct (url req =? API_URL)%string.
Qed.

Lemma chatCalls_same_requests (w w' : World) :
  requests w' = requests w -> chatCalls w' = chatCalls w.
Proof. unfold chatCalls. now intros ->. Qed.

Lemma extract_truthy (entry : value) :
  Forall (fun v => truthy v = true) (extract entry).
Proof.
  unfold extract.
  destruct (truthy entry) eqn:He; simpl; [| constructor].
  destruct (is_string entry); [now repeat constructor |].
  destruct (truthy (opt_prop entry "id")) eqn:E1; [now repeat constructor |].
  destruct (truthy (opt_prop entry "model")) eqn:E2; [now repeat constructor |].
  destruct (truthy (opt_prop entry "name")) eqn:E3; [now repeat constructor |].
  constructor.
Qed.

Lemma extractModelIds_truthy (payload : value) :
  Forall (fun v => truthy v = true) (extractModelIds payload).
Proof.
  unfold extractModelIds. apply Forall_forall. intros v Hin.
  now apply filter_In in Hin as [_ Hv].
Qed.

(** The second loop of [findFallbackModel] always finds a model: the
    ranking holds two different names. *)
Lemma firstOther_FALLBACK_MODELS (currentModel : value) :
  truthy (firstOther FALLBACK_MODELS currentModel) = true
  /\ strict_eq (firstOther FALLBACK_MODELS currentModel) currentModel = false.
Proof.
  unfold FALLBACK_MODELS. cbn [firstOther].
  destruct (strict_eq (Str "claude-sonnet-4.5") currentModel) eqn:E1; cbn [negb].
  - apply strict_eq_Str_l in E1. subst. vm_compute. now split.
  - split; [reflexivity | exact E1].
Qed.

(** The fallback is a model, and not the one just tried. *)
Lemma findFallbackModelIn_other (available : list value) (currentModel : value) :
  truthy (findFallbackModelIn FALLBACK_MODELS available currentModel) = true
  /\ strict_eq (findFallbackModelIn FALLBACK_MODELS available currentModel)
               currentModel = false.
Proof.
  unfold findFallbackModelIn.
  destruct (negb (length available =? 0)%nat); simpl;
    [| apply firstOther_FALLBACK_MODELS].
  destruct (truthy (pickFallbackModelFrom FALLBACK_MODELS available)) eqn:Et; simpl;
    [| apply firstOther_FALLBACK_MODELS].
  destruct (strict_eq (pickFallbackModelFrom FALLBACK_MODELS available) currentModel)
    eqn:Es; simpl; [apply firstOther_FALLBACK_MODELS | now split].
Qed.

(** For a model that is no entry of the catalog both bodies agree. *)
Lemma findFallbackModelAmong_foreign (ranking : list string) (available : list value)
      (currentModel : value) :
  findFallbackModelAmong false ranking available currentModel
  = findFallbackModelIn ranking available currentModel.
Proof.
  unfold findFallbackModelAmong, findFallbackModelIn, same_model.
  destruct (is_reference (pickFallbackModelFrom ranking available)
            && is_reference currentModel) eqn:E; [| reflexivity].
  apply andb_prop in E as [Ea Eb].
  destruct (pickFallbackModelFrom ranking available), currentModel;
    try discriminate; reflexivity.
Qed.

Lemma pickFallbackModel_not_null (models : list value) :
  is_catalog models -> pickFallbackModel models <> Null.
Proof.
  intros [Hne Hall] Hnull.
  pose proof (pickFallbackModelFrom_truthy FALLBACK_MODELS models Hall Hne) as Ht.
  unfold pickFallbackModel in Hnull. rewrite Hnull in Ht. discriminate.
Qed.

Lemma is_catalog_FALLBACK_MODELS : is_catalog (map Str FALLBACK_MODELS).
Proof. split; [discriminate | repeat constructor]. Qed.

(** ** What the session functions leave alone *)

Lemma quiet_refl (w : World) : quiet w w.
Proof. now repeat split. Qed.

Lemma quiet_trans (a b c : World) : quiet a b -> quiet b c -> quiet a c.
Proof.
  intros (H1 & H2 & H3) (K1 & K2 & K3). repeat split; congruence.
Qed.

Lemma quiet_set_logins (l : list LoginInfo) (w : World) : quiet w (set_logins l w).
Proof. now repeat split. Qed.

Lemma quiet_answered (req : Request) (w : World) :
  url req <> API_URL -> quiet w (answered req w).
Proof.
  intro Hu. destruct (answered_cache req w) as [H1 H2].
  repeat split; try assumption.
  rewrite chatCalls_answered.
  destruct (String.eqb_spec (url req) API_URL); [contradiction | apply app_nil_r].
Qed.

Section WithHost.
Context {host : Host}.

Lemma quiet_removeToken (realm : string) (w : World) :
  quiet w (after (removeToken realm) w).
Proof.
  unfold after. destruct (loginsAvailable w) eqn:Hav.
  - rewrite removeToken_available by assumption. apply quiet_set_logins.
  - rewrite removeToken_unavailable by assumption. apply quiet_refl.
Qed.

Lemma quiet_storeToken (realm token_ : string) (metadata_ : list (string * value))
      (w : World) :
  quiet w (after (storeToken realm token_ metadata_) w).
Proof.
  unfold after. destruct (loginsAvailable w) eqn:Hav.
  - rewrite storeToken_available by assumption. apply quiet_set_logins.
  - rewrite storeToken_unavailable by assumption. apply quiet_refl.
Qed.

Lemma quiet_disconnect (w : World) : quiet w (after disconnect w).
Proof.
  unfold after. destruct (loginsAvailable w) eqn:Hav.
  - rewrite disconnect_available by assumption. apply quiet_set_logins.
  - unfold disconnect, bind. rewrite !removeToken_unavailable by assumption.
    apply quiet_refl.
Qed.

Lemma quiet_getCopilotToken (accessToken : value) (w : World) :
  quiet w (after (getCopilotToken accessToken) w).
Proof.
  rewrite getCopilotToken_world. apply quiet_answered. discriminate.
Qed.

Lemma quiet_refreshSession (w : World) : quiet w (after refreshSession w).
Proof.
  destruct (stored REALMS.GITHUB_COPILOT w) as [a |] eqn:Ha.
  2:{ unfold after. rewrite refreshSession_not_authenticated by now left.
      apply quiet_refl. }
  destruct (String.eqb_spec (token a) "") as [He | Hne].
  { unfold after.
    rewrite refreshSession_not_authenticated by (right; now exists a).
    apply quiet_refl. }
  pose proof (quiet_getCopilotToken (Str (token a)) w) as Hq. unfold after in Hq.
  destruct (getCopilotToken (Str (token a)) w) as [[c | e] w1] eqn:Hx; simpl in Hq.
  - unfold after at 1. rewrite (refreshSession_granted w a c w1 Ha Hne Hx). simpl.
    eapply quiet_trans; [exact Hq | apply quiet_storeToken].
  - destruct (auth_failure (message_of e)) eqn:Hf.
    + unfold after at 1.
      rewrite (refreshSession_auth_failure w a e w1 Ha Hne Hx Hf). simpl.
      eapply quiet_trans; [exact Hq | apply quiet_disconnect].
    + unfold after.
      rewrite (refreshSession_other_failure w a e w1 Ha Hne Hx Hf). exact Hq.
Qed.

Lemma quiet_getSessionToken (w : World) : quiet w (after getSessionToken w).
Proof.
  destruct (stored REALMS.GITHUB_COPILOT_SESSION w) as [s |] eqn:Hs.
  2:{ unfold after. rewrite getSessionToken_needs_refresh by now left.
      apply quiet_refreshSession. }
  destruct (prop (metadata s) "expiresAt") as [e | e] eqn:Hp.
  { unfold after, getSessionToken, bind. rewrite getToken_stored, Hs. simpl.
    rewrite Hp. simpl. apply quiet_refl. }
  destruct (gt_number e (clock w + bufferTime)) eqn:Hg.
  - unfold after. rewrite (getSessionToken_fresh w s e Hs Hp Hg). apply quiet_refl.
  - unfold after.
    rewrite getSessionToken_needs_refresh by (right; exists s, e; now repeat split).
    apply quiet_refreshSession.
Qed.

(** ** The loop over the catalog endpoints *)

(** One endpoint: never throws, and what it leaves in [models] is the
    catalog it found or what was there. *)
Lemma fetchModelsFrom_step (token_ : value) (models : list value) (url_ : string)
      (w : World) :
  exists step,
    fetchModelsFrom token_ models url_ w
    = (Returned step, answered (catalogRequest token_ url_) w)
    /\ (step = Continue models
        \/ (exists data, step = Continue (extractModelIds data)
                         /\ extractModelIds data = [])
        \/ (exists data, step = Break (extractModelIds data)
                         /\ extractModelIds data <> [])).
Proof.
  unfold fetchModelsFrom, try_catch, bind, answered, catalogRequest.
  destruct (fetch _ w) as [[r | e] w1]; simpl;
    [| exists (Continue models); split; [reflexivity | now left]].
  destruct (negb (ok r)); simpl;
    [exists (Continue models); split; [reflexivity | now left] |].
  unfold text. destruct (bodyError r); simpl;
    [exists (Continue models); split; [reflexivity | now left] |].
  destruct (negb (startsWith _ "{") && negb (startsWith _ "[")); simpl;
    [exists (Continue models); split; [reflexivity | now left] |].
  destruct (JSON_parse _) as [e | data]; simpl;
    [exists (Continue models); split; [reflexivity | now left] |].
  destruct (extractModelIds data) as [| m ms] eqn:E; simpl.
  - exists (Continue []). split; [reflexivity |]. right. left. exists data.
    now rewrite E.
  - exists (Break (m :: ms)). split; [reflexivity |]. right. right. exists data.
    rewrite E. split; [reflexivity | discriminate].
Qed.

Lemma fetchModels_returns (token_ : value) (urls : list string) (models : list value)
      (w : World) :
  Forall (fun v => truthy v = true) models ->
  Forall (fun u => u <> API_URL) urls ->
  exists fetched w',
    fetchModels token_ urls models w = (Returned fetched, w')
    /\ Forall (fun v => truthy v = true) fetched
    /\ quiet w w'.
Proof.
  revert models w. induction urls as [| u urls IH]; intros models w Hm Hu; simpl.
  - exists models, w. split; [reflexivity | split; [assumption | apply quiet_refl]].
  - inversion Hu as [| ? ? Hu1 Hu2]; subst.
    destruct (fetchModelsFrom_step token_ models u w) as [step [Hs Hcase]].
    unfold bind. rewrite Hs.
    assert (Hq : quiet w (answered (catalogRequest token_ u) w))
      by (apply quiet_answered; exact Hu1).
    destruct Hcase as [-> | [[data [-> He]] | [data [-> He]]]].
    + destruct (IH models (answered (catalogRequest token_ u) w) Hm Hu2)
        as (f & w' & Hf & Ht & Hq').
      exists f, w'. split; [exact Hf | split; [exact Ht |]].
      eapply quiet_trans; eassumption.
    + destruct (IH (extractModelIds data) (answered (catalogRequest token_ u) w)
                  (extractModelIds_truthy data) Hu2)
        as (f & w' & Hf & Ht & Hq').
      exists f, w'. split; [exact Hf | split; [exact Ht |]].
      eapply quiet_trans; eassumption.
    + exists (extractModelIds data), (answered (catalogRequest token_ u) w).
      split; [reflexivity | split; [apply extractModelIds_truthy | exact Hq]].
Qed.

Lemma MODELS_URLS_not_chat : Forall (fun u => u <> API_URL) MODELS_URLS.
Proof. repeat constructor; discriminate. Qed.

(** ** getAvailableModels *)

Lemma getAvailableModels_hit (models : list value) (w : World) :
  cachedModels w = Some models ->
  clock w - cachedModelsAt w < MODELS_CACHE_TTL ->
  getAvailableModels w = (Returned models, w).
Proof.
  intros Hc Hf. unfold getAvailableModels, bind, Date_now, cacheLookup. simpl.
  rewrite Hc. destruct (Z.ltb_spec (clock w - cachedModelsAt w) MODELS_CACHE_TTL);
    [reflexivity | lia].
Qed.

Lemma hit_or_miss (w : World) :
  (exists models, cachedModels w = Some models
                  /\ clock w - cachedModelsAt w < MODELS_CACHE_TTL)
  \/ cache_miss w.
Proof.
  unfold cache_miss. destruct (cachedModels w) as [models |]; [| right; now left].
  destruct (Z.lt_ge_cases (clock w - cachedModelsAt w) MODELS_CACHE_TTL).
  - left. now exists models.
  - right. now right.
Qed.

Lemma cacheLookup_miss (w : World) :
  cache_miss w -> cacheLookup (clock w) w = (Returned None, w).
Proof.
  unfold cacheLookup. intros [-> | H]; [reflexivity |].
  destruct (cachedModels w); [| reflexivity].
  destruct (Z.ltb_spec (clock w - cachedModelsAt w) MODELS_CACHE_TTL);
    [lia | reflexivity].
Qed.

(** On a miss the catalog is rebuilt from what the endpoints gave and
    cached with the time read at the start. *)
Lemma getAvailableModels_miss (w : World) :
  cache_miss w ->
  exists fetched w2,
    getAvailableModels w
    = (Returned (catalog_of fetched),
       set_cache (Some (catalog_of fetched)) (clock w) w2)
    /\ Forall (fun v => truthy v = true) fetched
    /\ chatCalls w2 = chatCalls w
    /\ (forall e w1, getSessionToken w = (Thrown e, w1) -> fetched = [] /\ w2 = w1)
    /\ (forall tok w1, getSessionToken w = (Returned tok, w1) ->
        fetchModels tok MODELS_URLS [] w1 = (Returned fetched, w2)).
Proof.
  intro Hmiss. unfold getAvailableModels, bind, Date_now. cbv beta iota.
  rewrite (cacheLookup_miss w Hmiss). unfold try_catch, bind.
  pose proof (quiet_getSessionToken w) as Hq. unfold after in Hq.
  destruct (getSessionToken w) as [[tok | e] w1] eqn:Hs; simpl in Hq.
  - destruct (fetchModels_returns tok MODELS_URLS [] w1 (Forall_nil _)
                MODELS_URLS_not_chat) as (f & w2 & Hf & Ht & Hq2).
    rewrite Hf. exists f, w2. unfold setCache, catalog_of. simpl.
    split; [reflexivity |]. split; [exact Ht |]. split.
    + destruct Hq as (_ & _ & H3), Hq2 as (_ & _ & K3). congruence.
    + split; [intros ? ? [=] |]. intros tok' w1' [= <- <-]. exact Hf.
  - exists [], w1. unfold setCache, catalog_of. simpl.
    split; [reflexivity |]. split; [constructor |]. split.
    + now destruct Hq as (_ & _ & H3).
    + split; [intros ? ? [= <- <-]; now split | intros ? ? [=]].
Qed.

Lemma is_catalog_catalog_of (fetched : list value) :
  Forall (fun v => truthy v = true) fetched -> is_catalog (catalog_of fetched).
Proof.
  intro H. unfold catalog_of. destruct fetched as [| x rest]; simpl.
  - apply is_catalog_FALLBACK_MODELS.
  - split; [discriminate | assumption].
Qed.

(** [getAvailableModels] never throws, returns a catalog, keeps the cache
    one, and sends nothing to the chat endpoint. *)
Lemma getAvailableModels_catalog (w : World) :
  cache_ok w ->
  exists models w',
    getAvailableModels w = (Returned models, w')
    /\ is_catalog models
    /\ cache_ok w'
    /\ chatCalls w' = chatCalls w.
Proof.
  intro Hok. destruct (hit_or_miss w) as [[models [Hc Hf]] | Hmiss].
  - exists models, w. rewrite (getAvailableModels_hit models w Hc Hf).
    pose proof Hok as Hcat. unfold cache_ok in Hcat. rewrite Hc in Hcat.
    split; [reflexivity |]. split; [exact Hcat |]. split; [exact Hok | reflexivity].
  - destruct (getAvailableModels_miss w Hmiss) as (f & w2 & Hg & Ht & Hc & _).
    exists (catalog_of f), (set_cache (Some (catalog_of f)) (clock w) w2).
    split; [exact Hg |]. split; [now apply is_catalog_catalog_of |]. split.
    + unfold cache_ok. simpl. now apply is_catalog_catalog_of.
    + exact Hc.
Qed.

(** The time of caching tells the catalog arrays apart: a call that finds
    a catalog cached either returns that very catalog and leaves its time,
    or caches another with a time at least the TTL later. *)
Lemma getAvailableModels_cachedAt (w : World) (old : list value) :
  cachedModels w = Some old ->
  exists models w',
    getAvailableModels w = (Returned models, w')
    /\ cachedModels w' = Some models
    /\ ((models = old /\ w' = w)
        \/ cachedModelsAt w + MODELS_CACHE_TTL <= cachedModelsAt w').
Proof.
  intro Hc. destruct (hit_or_miss w) as [[models [Hc' Hf]] | Hmiss].
  - exists models, w. rewrite (getAvailableModels_hit models w Hc' Hf).
    split; [reflexivity |]. split; [exact Hc' |]. left.
    rewrite Hc in Hc'. injection Hc' as ->. now split.
  - destruct (getAvailableModels_miss w Hmiss) as (f & w2 & Hg & _).
    exists (catalog_of f), (set_cache (Some (catalog_of f)) (clock w) w2).
    split; [exact Hg |]. split; [reflexivity |]. right.
    destruct Hmiss as [Hnone | Hold]; [congruence |].
    cbn [cachedModelsAt set_cache]. lia.
Qed.

(** Without the invariant on the cache the call still returns and sends
    nothing to the chat endpoint. *)
Lemma getAvailableModels_returns (w : World) :
  exists models w',
    getAvailableModels w = (Returned models, w') /\ chatCalls w' = chatCalls w.
Proof.
  destruct (hit_or_miss w) as [[models [Hc Hf]] | Hmiss].
  - exists models, w. now rewrite (getAvailableModels_hit models w Hc Hf).
  - destruct (getAvailableModels_miss w Hmiss) as (f & w2 & Hg & _ & Hc & _).
    exists (catalog_of f), (set_cache (Some (catalog_of f)) (clock w) w2).
    split; [exact Hg | exact Hc].
Qed.

(** ** Endpoints that give nothing *)

Lemma network_answered (req : Request) (w : World) :
  network (answered req w) = tl (network w).
Proof.
  unfold answered, fetch. destruct (network w) as [| x rest]; simpl;
    [reflexivity | now destruct (outcome x)].
Qed.

Lemma fetchModelsFrom_useless (token_ : value) (url_ : string) (w : World) :
  Forall useless (firstn 1 (network w)) ->
  fetchModelsFrom token_ [] url_ w
  = (Returned (Continue []), answered (catalogRequest token_ url_) w).
Proof.
  intro Hu. unfold fetchModelsFrom, try_catch, bind, answered, catalogRequest, fetch.
  destruct (network w) as [| x rest]; simpl; [reflexivity |].
  simpl in Hu. inversion Hu as [| ? ? Hx _]; subst. unfold useless in Hx.
  destruct (outcome x) as [e | r]; simpl; [reflexivity |].
  destruct (ok r) eqn:Hok; simpl; [| reflexivity].
  unfold text. destruct (bodyError r) eqn:Hb; simpl; [reflexivity |].
  destruct Hx as [H | [H | [[H1 H2] | [[e H] | [data [H1 H2]]]]]].
  - discriminate.
  - contradiction.
  - rewrite H1, H2. reflexivity.
  - destruct (negb _ && negb _); [reflexivity |]. rewrite H. reflexivity.
  - destruct (negb _ && negb _); [reflexivity |]. rewrite H1. simpl.
    rewrite H2. reflexivity.
Qed.

Lemma fetchModels_useless (token_ : value) (urls : list string) (w : World) :
  Forall useless (firstn (length urls) (network w)) ->
  exists w', fetchModels token_ urls [] w = (Returned [], w').
Proof.
  revert w. induction urls as [| u urls IH]; intros w Hu; simpl.
  - now exists w.
  - unfold bind. rewrite fetchModelsFrom_useless.
    + apply IH. rewrite network_answered.
      destruct (network w) as [| x rest]; simpl in *.
      * destruct (length urls); constructor.
      * now inversion Hu.
    + destruct (network w) as [| x rest]; simpl in *; [constructor |].
      inversion Hu; subst. now repeat constructor.
Qed.

End WithHost.
End CatalogFacts.

(* ================================================================== *)
(** * Facts: chat *)
(* ================================================================== *)

Module ChatFacts.

Import TokenStorage GitHubDeviceFlow CopilotClient.
Import JSFacts Views Examples TokenStorageFacts SessionFacts ResolutionFacts.
Import StreamingFacts CatalogFacts.

(** The statuses and the words [shouldRetryWithFallback] looks for. *)
Lemma shouldRetryWithFallback_spec (status_ : Z) (text_ : string) :
  shouldRetryWithFallback status_ text_ = true
  <-> (status_ = 400 \/ status_ = 404 \/ status_ = 422)
      /\ (includes (toLowerCase text_) "model" = true
          \/ includes (toLowerCase text_) "invalid" = true
          \/ includes (toLowerCase text_) "unsupported" = true).
Proof.
  unfold shouldRetryWithFallback.
  destruct (Z.eqb_spec status_ 400), (Z.eqb_spec status_ 404),
    (Z.eqb_spec status_ 422); simpl; rewrite ?orb_true_iff;
    try (split; [intro H; split; [lia | tauto] | intros [_ H]; tauto]).
  split; [discriminate | intros [H _]; lia].
Qed.

Lemma shouldRetryWithFallback_401 (text_ : string) :
  shouldRetryWithFallback 401 text_ = false.
Proof. reflexivity. Qed.

Lemma chatCalls_emit (given : bool) (calls : list (value * string)) (w : World) :
  chatCalls (emit given calls w) = chatCalls w.
Proof. unfold emit. now destruct given. Qed.

Section WithHost.
Context {host : Host}.

Lemma formatApiError_401 (text_ : string) :
  formatApiError 401 text_
  = "Copilot API error (401): Authentication failed. Please reconnect to GitHub Copilot.".
Proof. reflexivity. Qed.

(** Reading a response sends nothing. *)
Lemma chatCalls_handleStreamingResponse (r : Response) (given : bool) (w : World) :
  chatCalls (after (handleStreamingResponse r given) w) = chatCalls w.
Proof.
  unfold after. rewrite handleStreamingResponse_decoded. cbv zeta.
  destruct (bodyError r); simpl; [apply chatCalls_emit |].
  destruct (truthy _ && _); simpl; apply chatCalls_emit.
Qed.

Lemma after_json (r : Response) (w : World) : after (json r) w = w.
Proof.
  unfold after, json, bind, text.
  destruct (bodyError r); simpl; [reflexivity |].
  now destruct (JSON_parse _).
Qed.

Lemma findFallbackModel_other (currentModel : value) (w : World) :
  exists m w',
    findFallbackModel currentModel w = (Returned m, w')
    /\ truthy m = true
    /\ strict_eq m currentModel = false
    /\ chatCalls w' = chatCalls w.
Proof.
  destruct (getAvailableModels_returns w) as (models & w' & Hg & Hc).
  exists (findFallbackModelIn FALLBACK_MODELS models currentModel), w'.
  unfold findFallbackModel, bind. rewrite Hg.
  destruct (findFallbackModelIn_other models currentModel) as [Ht Hs].
  now repeat split.
Qed.

(** A truthy primitive that [===] tells from another value is another
    value. *)
Lemma strict_eq_false_neq (a b : value) :
  is_reference a = false -> truthy a = true -> strict_eq a b = false -> a <> b.
Proof.
  intros Hr Ht Hs <-. destruct a as [| | c | n | | s0 | |];
    cbn in Hr, Ht, Hs; try discriminate.
  - now destruct c.
  - now rewrite Z.eqb_refl in Hs.
  - now rewrite String.eqb_refl in Hs.
Qed.

(** Two models [same_model] tells apart are two models: other values, or
    entries of two catalogs. *)
Lemma same_model_false (same : bool) (a b : value) :
  truthy a = true -> same_model same a b = false ->
  a <> b \/ (is_reference a = true /\ is_reference b = true /\ same = false).
Proof.
  unfold same_model. intros Ht.
  destruct (is_reference a) eqn:Ea, (is_reference b) eqn:Eb; cbn [andb].
  - intros ->. now right.
  - intros _. left. intros <-. congruence.
  - intro Hs. left. now apply strict_eq_false_neq.
  - intro Hs. left. now apply strict_eq_false_neq.
Qed.

Lemma same_model_Str (same : bool) (c : string) (b : value) :
  same_model same (Str c) b = strict_eq (Str c) b.
Proof. reflexivity. Qed.

(** The fallback [chat] asks for is a model, and not the one just tried. *)
Lemma findFallbackModelAmong_other (same : bool) (available : list value)
      (currentModel : value) :
  let m := findFallbackModelAmong same FALLBACK_MODELS available currentModel in
  truthy m = true /\ same_model same m currentModel = false.
Proof.
  intro m. subst m. unfold findFallbackModelAmong.
  assert (Hother : truthy (firstOther FALLBACK_MODELS currentModel) = true
                   /\ same_model same (firstOther FALLBACK_MODELS currentModel)
                                  currentModel = false).
  { destruct (firstOther_FALLBACK_MODELS currentModel) as [Ht Hs].
    split; [exact Ht |].
    unfold FALLBACK_MODELS in *. cbn [firstOther] in *.
    destruct (negb (strict_eq (Str "claude-sonnet-4.5") currentModel));
      [exact Hs |].
    destruct (negb (strict_eq (Str "gpt-5") currentModel)); [exact Hs |].
    destruct (negb (strict_eq (Str "gpt-5-mini") currentModel)); [exact Hs |].
    destruct (negb (strict_eq (Str "gpt-4.1") currentModel)); [exact Hs |].
    destruct (negb (strict_eq (Str "gemini-2.5-pro") currentModel)); [exact Hs |].
    discriminate. }
  destruct (negb (length available =? 0)%nat); cbn [andb]; [| exact Hother].
  destruct (truthy (pickFallbackModelFrom FALLBACK_MODELS available)) eqn:Et;
    cbn [andb]; [| exact Hother].
  destruct (same_model same (pickFallbackModelFrom FALLBACK_MODELS available)
                       currentModel) eqn:Es; cbn [negb]; [exact Hother | now split].
Qed.

Lemma findFallbackModelOf_other (currentModel : value) (currentAt : Z) (w : World) :
  exists models w',
    getAvailableModels w = (Returned models, w')
    /\ findFallbackModelOf currentModel currentAt w
       = (Returned (findFallbackModelAmong (cachedModelsAt w' =? currentAt)
                                           FALLBACK_MODELS models currentModel), w')
    /\ chatCalls w' = chatCalls w.
Proof.
  destruct (getAvailableModels_returns w) as (models & w' & Hg & Hc).
  exists models, w'. split; [exact Hg |]. split; [| exact Hc].
  unfold findFallbackModelOf, bind, cachedAt. now rewrite Hg.
Qed.

Lemma resolveModel_quiet (requested : string) (w : World) (m : value) (w' : World) :
  resolveModel requested w = (Returned m, w') -> chatCalls w' = chatCalls w.
Proof.
  destruct (getAvailableModels_returns w) as (models & w1 & Hg & Hc).
  unfold resolveModel, bind. rewrite Hg. now intros [= _ <-].
Qed.


(** The way [chat] goes up to the first answer of the chat endpoint. *)
Lemma chat_after_first (model_ : string) (messages : value) (stream given : bool)
      (temp tokens : value) (w : World)
      (tok : value) (w1 : World) (m1 : value) (w2 : World)
      (nm : value) (hv : bool) (x : Exchange) (rest : list Exchange)
      (r1 : Response) :
  getSessionToken w = (Returned tok, w1) ->
  resolveModel model_ w1 = (Returned m1, w2) ->
  normalizeMessagesForVision messages = inr nm ->
  hasVisionRequest nm = inr hv ->
  network w2 = x :: rest -> outcome x = inr r1 ->
  let hd := buildHeaders stream hv tok in
  let first_ := chatRequest hd m1 nm stream temp tokens in
  chat model_ messages stream given temp tokens w
  = bind (answerOrRetry hd m1 (cachedModelsAt w2) nm stream temp tokens r1)
         (fun response' =>
            if stream then handleStreamingResponse response' given
            else json response')
         (answered first_ w2).
Proof.
  intros Hs Hr Hn Hv Hnet Hout hd first_.
  unfold chat. unfold bind at 1. rewrite Hs.
  unfold bind at 1. rewrite Hr.
  unfold bind at 1, cachedAt at 1.
  unfold bind at 1. rewrite Hn. cbn [lift ret].
  unfold bind at 1. rewrite Hv. cbn [lift ret].
  unfold bind at 1. fold hd. fold first_.
  now rewrite (fetch_response first_ w2 x rest r1 Hnet Hout).
Qed.

Lemma answerOrRetry_refused (hd : list (string * string)) (m1 : value) (at1 : Z)
      (nm : value)
      (stream : bool) (temp tokens : value) (r1 : Response) (w : World) :
  ok r1 = false -> bodyError r1 = None ->
  shouldRetryWithFallback (status r1) (concat_chunks (body r1)) = false ->
  answerOrRetry hd m1 at1 nm stream temp tokens r1 w
  = (Thrown (Error (formatApiError (status r1) (concat_chunks (body r1)))), w).
Proof.
  intros Hok Hbody Hno. unfold answerOrRetry, bind, text.
  rewrite Hok, Hbody. cbn [negb ret]. now rewrite Hno.
Qed.

Lemma answerOrRetry_retried (hd : list (string * string)) (m1 : value) (at1 : Z)
      (nm : value)
      (stream : bool) (temp tokens : value) (r1 : Response) (w : World) :
  ok r1 = false -> bodyError r1 = None ->
  shouldRetryWithFallback (status r1) (concat_chunks (body r1)) = true ->
  exists models w4,
    getAvailableModels w = (Returned models, w4)
    /\ let m2 := findFallbackModelAmong (cachedModelsAt w4 =? at1) FALLBACK_MODELS
                                        models m1 in
       truthy m2 = true
       /\ same_model (cachedModelsAt w4 =? at1) m2 m1 = false
       /\ chatCalls w4 = chatCalls w
       /\ answerOrRetry hd m1 at1 nm stream temp tokens r1 w
          = bind (fetch (chatRequest hd m2 nm stream temp tokens))
                 (fun retried =>
                    if negb (ok retried) then
                      bind (text retried) (fun retryText =>
                        throw (Error (formatApiError (status retried) retryText)))
                    else ret retried)
                 w4.
Proof.
  intros Hok Hbody Hyes.
  destruct (findFallbackModelOf_other m1 at1 w) as (models & w4 & Hg & Hf & Hc).
  exists models, w4. split; [exact Hg |]. cbv zeta.
  destruct (findFallbackModelAmong_other (cachedModelsAt w4 =? at1) models m1)
    as [Ht Hne].
  split; [exact Ht |]. split; [exact Hne |]. split; [exact Hc |].
  unfold answerOrRetry, text. rewrite Hok, Hbody. cbn [negb].
  unfold bind at 1. cbn [ret]. rewrite Hyes.
  unfold bind at 1. rewrite Hf.
  unfold bind at 1, cachedAt at 1. rewrite Ht, Hne. reflexivity.
Qed.

(** The way [chat] goes after a first answer that is a rejection read to
    its end, along the test [shouldRetryWithFallback] makes. *)
Lemma chat_first_rejected (model_ : string) (messages : value) (stream given : bool)
        (temp tokens : value) (w : World)
        (tok : value) (w1 : World) (m1 : value) (w2 : World)
        (nm : value) (hv : bool) (x : Exchange) (rest : list Exchange)
        (r1 : Response) :
  getSessionToken w = (Returned tok, w1) ->
  resolveModel model_ w1 = (Returned m1, w2) ->
  normalizeMessagesForVision messages = inr nm ->
  hasVisionRequest nm = inr hv ->
  network w2 = x :: rest -> outcome x = inr r1 ->
  ok r1 = false -> bodyError r1 = None ->
  let run := chat model_ messages stream given temp tokens in
  let t := concat_chunks (body r1) in
  let hd := buildHeaders stream hv tok in
  let first_ := chatRequest hd m1 nm stream temp tokens in
  (shouldRetryWithFallback (status r1) t = false ->
   run w = (Thrown (Error (formatApiError (status r1) t)), answered first_ w2)
   /\ chatCalls (after run w) = (chatCalls w ++ [first_])%list)
  /\ (status r1 = 401 ->
      run w
      = (Thrown (Error "Copilot API error (401): Authentication failed. Please reconnect to GitHub Copilot."),
         answered first_ w2))
  /\ (shouldRetryWithFallback (status r1) t = true ->
      exists models w4,
        getAvailableModels (answered first_ w2) = (Returned models, w4)
        /\ let m2 := findFallbackModelAmong (cachedModelsAt w4 =? cachedModelsAt w2)
                                            FALLBACK_MODELS models m1 in
           truthy m2 = true
           /\ same_model (cachedModelsAt w4 =? cachedModelsAt w2) m2 m1 = false
           /\ chatCalls (after run w)
              = (chatCalls w ++ [first_; chatRequest hd m2 nm stream temp tokens])%list
           /\ (forall x2 rest2 r2,
                 network w4 = x2 :: rest2 -> outcome x2 = inr r2 ->
                 ok r2 = false -> bodyError r2 = None ->
                 result run w
                 = Thrown (Error (formatApiError (status r2) (concat_chunks (body r2)))))
           /\ (forall x2 rest2 r2,
                 network w4 = x2 :: rest2 -> outcome x2 = inr r2 ->
                 ok r2 = true ->
                 run w
                 = (if stream then handleStreamingResponse r2 given else json r2)
                     (answered (chatRequest hd m2 nm stream temp tokens) w4))).
Proof.
  intros Hs Hr Hn Hv Hnet Hout Hok Hbody run t hd first_.
  assert (Hc2 : chatCalls w2 = chatCalls w).
  { pose proof (quiet_getSessionToken w) as (_ & _ & Hq). unfold after in Hq.
    rewrite Hs in Hq. simpl in Hq.
    rewrite (resolveModel_quiet model_ w1 m1 w2 Hr). exact Hq. }
  assert (Hc3 : chatCalls (answered first_ w2) = (chatCalls w ++ [first_])%list).
  { rewrite chatCalls_answered, Hc2. reflexivity. }
  assert (Hat : cachedModelsAt (answered first_ w2) = cachedModelsAt w2)
    by apply answered_cache.
  assert (Hrun := chat_after_first model_ messages stream given temp tokens w
                    tok w1 m1 w2 nm hv x rest r1 Hs Hr Hn Hv Hnet Hout).
  cbv zeta in Hrun. fold hd first_ run in Hrun.
  assert (Hrefused : shouldRetryWithFallback (status r1) t = false ->
            run w = (Thrown (Error (formatApiError (status r1) t)),
                     answered first_ w2)).
  { intro Hno. rewrite Hrun. unfold bind.
    now rewrite (answerOrRetry_refused hd m1 _ nm stream temp tokens r1 _ Hok Hbody Hno). }
  split; [| split].
  - intro Hno. split; [now apply Hrefused |].
    unfold after. rewrite (Hrefused Hno). exact Hc3.
  - intro H401. rewrite Hrefused by (rewrite H401; reflexivity).
    now rewrite H401.
  - intro Hyes.
    destruct (answerOrRetry_retried hd m1 (cachedModelsAt w2) nm stream temp tokens r1
                (answered first_ w2) Hok Hbody Hyes)
      as (models & w4 & Hg & Hrest).
    cbv zeta in Hrest. destruct Hrest as (Ht & Hne & Hc4 & Hretry).
    exists models, w4. split; [exact Hg |]. cbv zeta.
    set (m2 := findFallbackModelAmong (cachedModelsAt w4 =? cachedModelsAt w2)
                                      FALLBACK_MODELS models m1) in *.
    split; [exact Ht |]. split; [exact Hne |].
    set (second := chatRequest hd m2 nm stream temp tokens) in *.
    assert (Hc5 : chatCalls (answered second w4)
                  = (chatCalls w ++ [first_; second])%list).
    { rewrite chatCalls_answered, Hc4, Hc3, <- app_assoc. reflexivity. }
    split; [| split].
    + unfold after. rewrite Hrun. unfold bind at 1. rewrite Hretry.
      unfold bind at 1. unfold answered in Hc5.
      destruct (fetch second w4) as [[r2 | e] w5]; cbn [snd] in Hc5;
        [| exact Hc5].
      destruct (ok r2); cbn [negb].
      * cbn [ret]. destruct stream.
        -- fold (after (handleStreamingResponse r2 given) w5).
           now rewrite chatCalls_handleStreamingResponse.
        -- fold (after (json r2) w5). now rewrite after_json.
      * unfold bind, text. destruct (bodyError r2); exact Hc5.
    + intros x2 rest2 r2 Hnet2 Hout2 Hok2 Hbody2. unfold result.
      rewrite Hrun. unfold bind at 1. rewrite Hretry. unfold bind at 1.
      rewrite (fetch_response second w4 x2 rest2 r2 Hnet2 Hout2).
      rewrite Hok2. cbn [negb]. unfold bind, text. now rewrite Hbody2.
    + intros x2 rest2 r2 Hnet2 Hout2 Hok2.
      rewrite Hrun. unfold bind at 1. rewrite Hretry. unfold bind at 1.
      rewrite (fetch_response second w4 x2 rest2 r2 Hnet2 Hout2).
      rewrite Hok2. cbn [negb ret]. now destruct stream.
Qed.

End WithHost.

(** A run on the reference host: gpt-5 is refused with a 404 that names
    the model, the fallback is the head of the ranking and the content is
    that of the second answer. *)
Lemma chat_retry_run :
  result (chat (host := RefHost.host) "gpt-5" oneQuestion true true (Num 0) (Num 2000))
         (retryWorld hello_stream)
  = Returned (Obj [("content", Str "Hello"); ("model", Str "unknown")])
  /\ map (fun r => opt_prop
                     (match RefHost.JSON_parse
                              (match requestBody r with Some b => b | None => "" end)
                      with inr v => v | inl _ => Null end) "model")
         (chatCalls (after (chat (host := RefHost.host) "gpt-5" oneQuestion true true
                                 (Num 0) (Num 2000))
                           (retryWorld hello_stream)))
     = [Str "gpt-5"; Str "claude-sonnet-4.5"].
Proof. split; vm_compute; reflexivity. Qed.

(** A 401 is not retried. *)
Lemma chat_401_run :
  result (chat (host := RefHost.host) "gpt-5" oneQuestion true true (Num 0) (Num 2000))
         (worldWith [sessionLogin 10; accessLogin] t0
            [answer 30 200 (RefHost.dq "{'data':[{'id':'gpt-5'}]}");
             answer 40 401 "unauthorized: invalid model token"])
  = Thrown (Error "Copilot API error (401): Authentication failed. Please reconnect to GitHub Copilot.").
Proof. vm_compute. reflexivity. Qed.

End ChatFacts.

(* ================================================================== *)
(** * Facts: the poll loop and its cancellation *)
(* ================================================================== *)

Module PollFacts.

Import GitHubDeviceFlow JSFacts Views Examples.

Section WithHost.
Context {host : Host}.

(** [cancelFlow] discards the flow, whatever it is. *)
Lemma cancelFlow_discards (w : World) :
  cancelFlow w = (Returned tt, set_currentFlow None w)
  /\ currentFlow (after cancelFlow w) = None.
Proof. now split. Qed.

(** The closure [poll] never looks at [currentFlow]: a run that is not
    past the expiry sends its request whether or not the flow was
    cancelled. *)
Lemma poll_sends_after_cancel (hasStatus : bool) (deviceCode_ : value)
      (pollInterval expiresAt : option Z) (w : World) :
  match expiresAt with Some e => clock w <= e | None => True end ->
  requests (after (poll hasStatus deviceCode_ pollInterval expiresAt)
                  (after cancelFlow w))
  = (requests w ++ [pollRequest deviceCode_])%list.
Proof.
  intro Hexp. unfold after, cancelFlow, clearFlow. cbn [snd].
  unfold poll, bind, Date_now. cbn [clock set_currentFlow].
  assert (Hnot : match expiresAt with Some e => clock w >? e | None => false end = false).
  { destruct expiresAt as [e |]; [| reflexivity].
    destruct (Z.gtb_spec (clock w) e); [lia | reflexivity]. }
  rewrite Hnot. unfold try_catch, bind, fetch. fold (pollRequest deviceCode_).
  cbn [network set_currentFlow].
  destruct (network w) as [| x rest]; [reflexivity |].
  destruct (outcome x) as [e | r]; [reflexivity |].
  unfold json, bind, text.
  destruct (bodyError r); [reflexivity |]. cbn [ret].
  destruct (JSON_parse _) as [e | data]; [reflexivity |]. cbn [lift ret].
  destruct (prop data "error") as [e | err]; [reflexivity |]. cbn [lift ret].
  destruct (truthy err).
  - destruct (strict_eq err (Str "authorization_pending")).
    { unfold onStatusUpdate. now destruct hasStatus. }
    destruct (strict_eq err (Str "slow_down")); [reflexivity |].
    destruct (strict_eq err (Str "expired_token")); [reflexivity |].
    destruct (strict_eq err (Str "access_denied")); reflexivity.
  - destruct (truthy (opt_prop data "access_token")); [| reflexivity].
    unfold clearFlow, onStatusUpdate. now destruct hasStatus.
Qed.

(** And when the answer carries an access token, it resolves the promise
    of the cancelled flow. *)
Lemma poll_resolves_after_cancel (hasStatus : bool) (deviceCode_ : value)
      (pollInterval expiresAt : option Z) (w : World)
      (x : Exchange) (rest : list Exchange) (r : Response) (data err : value) :
  match expiresAt with Some e => clock w <= e | None => True end ->
  network w = x :: rest -> outcome x = inr r -> bodyError r = None ->
  JSON_parse (concat_chunks (body r)) = inr data ->
  prop data "error" = inr err -> truthy err = false ->
  truthy (opt_prop data "access_token") = true ->
  result (poll hasStatus deviceCode_ pollInterval expiresAt) (after cancelFlow w)
  = Returned (Resolve (opt_prop data "access_token")).
Proof.
  intros Hexp Hnet Hout Hbody Hparse Herr Hfalsy Htok.
  unfold result, after, cancelFlow, clearFlow. cbn [snd].
  unfold poll, bind, Date_now. cbn [clock set_currentFlow].
  assert (Hnot : match expiresAt with Some e => clock w >? e | None => false end = false).
  { destruct expiresAt as [e |]; [| reflexivity].
    destruct (Z.gtb_spec (clock w) e); [lia | reflexivity]. }
  rewrite Hnot. unfold try_catch, bind, fetch. cbn [network set_currentFlow].
  rewrite Hnet, Hout. unfold json, bind, text. rewrite Hbody. cbn [ret].
  rewrite Hparse. cbn [lift ret]. rewrite Herr. cbn [lift ret].
  rewrite Hfalsy, Htok. reflexivity.
Qed.

End WithHost.

(** C7.  The code on a poll loop in flight that is cancelled after its
    first poll: [cancelFlow] discards the flow, and the next run of [poll]
    still sends a token request and resolves the promise with the access
    token. *)
Theorem C7_poll_after_cancel :
  let tick := poll (host := RefHost.host) true (deviceCode aFlow)
                   (pollInterval_of (host := RefHost.host) aFlow)
                   (expiresAt_of (host := RefHost.host) aFlow) in
  let w1 := after tick pollingWorld in
  let w2 := after cancelFlow (after (sleep (Some 5000)) w1) in
  let w3 := after tick w2 in
  result tick pollingWorld = Returned (Schedule (Some 5000))
  /\ currentFlow w1 = Some aFlow
  /\ currentFlow w2 = None
  /\ result tick w2 = Returned (Resolve (Str "gho_access"))
  /\ requests w3
     = (requests w2 ++ [pollRequest (host := RefHost.host) (deviceCode aFlow)])%list
  /\ statusCalls w3 = ["waiting"; "success"].
Proof. vm_compute. repeat split. Qed.

End PollFacts.

(* ================================================================== *)
(** * Facts: the model cache in every reachable world *)
(* ================================================================== *)

Module InvariantFacts.

Import TokenStorage GitHubDeviceFlow CopilotClient.
Import JSFacts Views Examples TokenStorageFacts SessionFacts ResolutionFacts.
Import StreamingFacts CatalogFacts ChatFacts.

(** ** Rules for [preserves] *)

Section Rules.
Variable I : World -> Prop.

Lemma preserves_ret {A} (a : A) : preserves I (ret a).
Proof. intros w H. exact H. Qed.

Lemma preserves_throw {A} (e : exn) : preserves I (@throw A e).
Proof. intros w H. exact H. Qed.

Lemma preserves_lift {A} (r : exn + A) : preserves I (lift r).
Proof. destruct r; [apply preserves_throw | apply preserves_ret]. Qed.

Lemma preserves_bind {A B} (c : M A) (k : A -> M B) :
  preserves I c -> (forall a, preserves I (k a)) -> preserves I (bind c k).
Proof.
  intros Hc Hk w Hw. unfold after, bind. specialize (Hc w Hw). unfold after in Hc.
  destruct (c w) as [[a | e] w1]; simpl in *; [| exact Hc].
  exact (Hk a w1 Hc).
Qed.

Lemma preserves_try_catch {A} (c : M A) (h : exn -> M A) :
  preserves I c -> (forall e, preserves I (h e)) -> preserves I (try_catch c h).
Proof.
  intros Hc Hh w Hw. unfold after, try_catch. specialize (Hc w Hw). unfold after in Hc.
  destruct (c w) as [[a | e] w1]; simpl in *; [exact Hc |].
  exact (Hh e w1 Hc).
Qed.

Lemma preserves_for_of {A} (xs : list A) (body_ : A -> M unit) :
  (forall x, preserves I (body_ x)) -> preserves I (for_of xs body_).
Proof.
  intro Hb. induction xs as [| x xs IH]; simpl.
  - apply preserves_ret.
  - apply preserves_bind; [apply Hb | intros _; exact IH].
Qed.

End Rules.

(** A computation that leaves the cache alone keeps [cache_ok]. *)
Lemma preserves_same_cache {A} (c : M A) :
  (forall w, cachedModels (after c w) = cachedModels w) -> preserves cache_ok c.
Proof. intros H w Hw. unfold cache_ok. now rewrite H. Qed.

Lemma preserves_Date_now : preserves cache_ok Date_now.
Proof. now apply preserves_same_cache. Qed.

Lemma preserves_fetch (req : Request) : preserves cache_ok (fetch req).
Proof. apply preserves_same_cache. intro w. apply answered_cache. Qed.

Lemma preserves_text (r : Response) : preserves cache_ok (text r).
Proof. apply preserves_same_cache. intro w. unfold after, text. now destruct (bodyError r). Qed.

Lemma preserves_sleep (d : option Z) : preserves cache_ok (sleep d).
Proof. now apply preserves_same_cache. Qed.

Lemma preserves_findLogins (h realm : string) : preserves cache_ok (findLogins h realm).
Proof.
  apply preserves_same_cache. intro w. unfold after, findLogins.
  now destruct (loginsAvailable w).
Qed.

Lemma preserves_addLogin (l : LoginInfo) : preserves cache_ok (addLogin l).
Proof.
  apply preserves_same_cache. intro w. unfold after, addLogin.
  now destruct (loginsAvailable w).
Qed.

Lemma preserves_removeLogin (l : LoginInfo) : preserves cache_ok (removeLogin l).
Proof.
  apply preserves_same_cache. intro w. unfold after, removeLogin.
  destruct (loginsAvailable w); [| reflexivity].
  now destruct (remove_first l (logins w)).
Qed.

Lemma preserves_onStatusUpdate (given : bool) (s : string) :
  preserves cache_ok (onStatusUpdate given s).
Proof. apply preserves_same_cache. intro w. unfold after, onStatusUpdate. now destruct given. Qed.

Lemma preserves_clearFlow : preserves cache_ok clearFlow.
Proof. now apply preserves_same_cache. Qed.

Lemma preserves_cachedAt : preserves cache_ok CopilotClient.cachedAt.
Proof. now apply preserves_same_cache. Qed.

Create HintDb preserve.
#[local] Hint Resolve preserves_Date_now preserves_fetch preserves_text
  preserves_sleep preserves_findLogins preserves_addLogin preserves_removeLogin
  preserves_onStatusUpdate preserves_clearFlow preserves_cachedAt : preserve.

(** Goes through a computation by its syntax. *)
Ltac preserve_step :=
  match goal with
  | |- preserves _ (ret _) => apply preserves_ret
  | |- preserves _ (throw _) => apply preserves_throw
  | |- preserves _ (lift _) => apply preserves_lift
  | |- preserves _ (bind _ _) => apply preserves_bind; [| intro]
  | |- preserves _ (try_catch _ _) => apply preserves_try_catch; [| intro]
  | |- preserves _ (for_of _ _) => apply preserves_for_of; intro
  | |- preserves _ (if ?b then _ else _) => destruct b
  | |- preserves _ (match ?x with _ => _ end) => destruct x
  | |- preserves _ _ => solve [auto with preserve]
  end.

Ltac preserve := repeat preserve_step.

Section WithHost.
Context {host : Host}.

Lemma preserves_removeToken (realm : string) : preserves cache_ok (removeToken realm).
Proof. unfold removeToken. preserve. Qed.

Lemma preserves_storeToken (realm token_ : string) (metadata_ : list (string * value)) :
  preserves cache_ok (storeToken realm token_ metadata_).
Proof. pose proof preserves_removeToken. unfold storeToken. preserve. Qed.

Lemma preserves_getToken (realm : string) : preserves cache_ok (getToken realm).
Proof. unfold getToken. preserve. Qed.

Lemma preserves_hasValidToken (realm : string) (maxAge : value) :
  preserves cache_ok (hasValidToken realm maxAge).
Proof. pose proof preserves_getToken. unfold hasValidToken. preserve. Qed.

Lemma preserves_clearAll : preserves cache_ok clearAll.
Proof. pose proof preserves_removeToken. unfold clearAll. preserve. Qed.

Lemma preserves_json (r : Response) : preserves cache_ok (json r).
Proof. unfold json. preserve. Qed.

Lemma preserves_startDeviceFlow : preserves cache_ok startDeviceFlow.
Proof.
  pose proof preserves_json. unfold startDeviceFlow. preserve.
Qed.

Lemma preserves_poll (hasStatus : bool) (deviceCode_ : value)
      (pollInterval expiresAt : option Z) :
  preserves cache_ok (poll hasStatus deviceCode_ pollInterval expiresAt).
Proof. pose proof preserves_json. unfold poll. preserve. Qed.

Lemma preserves_poll_loop (fuel : nat) (hasStatus : bool) (deviceCode_ : value)
      (pollInterval expiresAt : option Z) :
  preserves cache_ok (poll_loop fuel hasStatus deviceCode_ pollInterval expiresAt).
Proof.
  pose proof preserves_poll.
  induction fuel as [| fuel IH]; simpl; preserve.
Qed.

Lemma preserves_pollForToken (fuel : nat) (hasStatus : bool) :
  preserves cache_ok (pollForToken fuel hasStatus).
Proof.
  intros w Hw. unfold after, pollForToken.
  destruct (currentFlow w) as [f |]; [| exact Hw].
  now apply preserves_poll_loop.
Qed.

Lemma preserves_quiet {A} (c : M A) :
  (forall w, quiet w (after c w)) -> preserves cache_ok c.
Proof. intro H. apply preserves_same_cache. intro w. apply (H w). Qed.

Lemma preserves_getCopilotToken (accessToken : value) :
  preserves cache_ok (getCopilotToken accessToken).
Proof. apply preserves_quiet. intro w. apply quiet_getCopilotToken. Qed.

Lemma preserves_getSessionToken : preserves cache_ok getSessionToken.
Proof. apply preserves_quiet. apply quiet_getSessionToken. Qed.

Lemma preserves_disconnect : preserves cache_ok disconnect.
Proof. apply preserves_quiet. apply quiet_disconnect. Qed.

Lemma preserves_hasValidSession : preserves cache_ok hasValidSession.
Proof. pose proof preserves_getSessionToken. unfold hasValidSession. preserve. Qed.

Lemma preserves_getAvailableModels : preserves cache_ok getAvailableModels.
Proof.
  intros w Hw. destruct (getAvailableModels_catalog w Hw) as (m & w' & Hg & _ & Hok & _).
  unfold after. now rewrite Hg.
Qed.

Lemma preserves_resolveModel (requested : string) :
  preserves cache_ok (resolveModel requested).
Proof. pose proof preserves_getAvailableModels. unfold resolveModel. preserve. Qed.

Lemma preserves_findFallbackModel (currentModel : value) :
  preserves cache_ok (findFallbackModel currentModel).
Proof. pose proof preserves_getAvailableModels. unfold findFallbackModel. preserve. Qed.

Lemma preserves_handleStreamingResponse (r : Response) (given : bool) :
  preserves cache_ok (handleStreamingResponse r given).
Proof.
  apply preserves_same_cache. intro w. unfold after.
  rewrite handleStreamingResponse_decoded. cbv zeta.
  assert (He : forall c, cachedModels (emit given c w) = cachedModels w)
    by (intro c; unfold emit; now destruct given).
  destruct (bodyError r); simpl; [apply He |].
  destruct (truthy _ && _); simpl; apply He.
Qed.

Lemma preserves_findFallbackModelOf (currentModel : value) (currentAt : Z) :
  preserves cache_ok (findFallbackModelOf currentModel currentAt).
Proof.
  pose proof preserves_getAvailableModels. unfold findFallbackModelOf. preserve.
Qed.

Lemma preserves_answerOrRetry (hd : list (string * string)) (m : value) (at_ : Z)
      (nm : value) (stream : bool) (temp tokens : value) (r : Response) :
  preserves cache_ok (answerOrRetry hd m at_ nm stream temp tokens r).
Proof.
  pose proof preserves_findFallbackModelOf. unfold answerOrRetry. preserve.
Qed.

Lemma preserves_chat (model_ : string) (messages : value) (stream given : bool)
      (temp tokens : value) :
  preserves cache_ok (chat model_ messages stream given temp tokens).
Proof.
  pose proof preserves_getSessionToken. pose proof preserves_resolveModel.
  pose proof preserves_answerOrRetry. pose proof preserves_handleStreamingResponse.
  pose proof preserves_json.
  unfold chat. preserve.
Qed.

Lemma preserves_getUserInfo (accessToken : value) :
  preserves cache_ok (getUserInfo accessToken).
Proof. pose proof preserves_json. unfold getUserInfo. preserve. Qed.

Lemma preserves_authenticate (fuel : nat) (hasStatus : bool) :
  preserves cache_ok (authenticate fuel hasStatus).
Proof.
  pose proof preserves_startDeviceFlow. pose proof preserves_pollForToken.
  pose proof preserves_getCopilotToken. pose proof preserves_getUserInfo.
  pose proof preserves_storeToken.
  unfold authenticate. preserve.
Qed.

Lemma preserves_simpleChat (model_ : string) (prompt systemPrompt temp tokens : value) :
  preserves cache_ok (simpleChat model_ prompt systemPrompt temp tokens).
Proof. pose proof preserves_chat. unfold simpleChat. preserve. Qed.

(** Every call into the add-on keeps the cache a catalog. *)
Lemma perform_cache_ok (op : Operation) (w : World) :
  cache_ok w -> cache_ok (perform op w).
Proof.
  destruct op; simpl.
  - apply preserves_storeToken.
  - apply preserves_getToken.
  - apply preserves_removeToken.
  - apply preserves_hasValidToken.
  - apply preserves_clearAll.
  - apply preserves_startDeviceFlow.
  - apply preserves_pollForToken.
  - apply preserves_clearFlow.
  - apply preserves_getCopilotToken.
  - apply preserves_getSessionToken.
  - apply preserves_hasValidSession.
  - apply preserves_disconnect.
  - apply preserves_getUserInfo.
  - apply preserves_authenticate.
  - apply preserves_simpleChat.
  - apply preserves_chat.
  - apply preserves_resolveModel.
  - apply preserves_getAvailableModels.
  - apply preserves_findFallbackModel.
Qed.

(** In every reachable world the cache is null or a catalog. *)
Lemma reachable_cache_ok (w : World) : reachable w -> cache_ok w.
Proof.
  induction 1 as [l av t net | op w _ IH | l av t net w _ IH].
  - exact I.
  - now apply perform_cache_ok.
  - exact IH.
Qed.

(** C9.  In every world the add-on can reach, [getAvailableModels]
    returns a list that is not empty, of truthy identifiers, and leaves
    the cache a catalog; on that list [pickFallbackModel]
    is not null, and it is the list [resolveModel] and [findFallbackModel]
    work on.  On a cache miss, when the session token cannot be obtained,
    or when every endpoint gives nothing, the list is the five ranked
    fallback models and it is cached with the time of the call. *)
Theorem C9_getAvailableModels (w : World) :
  reachable w ->
  (exists models w',
      getAvailableModels w = (Returned models, w')
      /\ is_catalog models
      /\ cache_ok w'
      /\ pickFallbackModel models <> Null
      /\ (forall requested,
            resolveModel requested w
            = (Returned (resolveModelIn FALLBACK_MODELS models requested), w'))
      /\ (forall currentModel,
            findFallbackModel currentModel w
            = (Returned (findFallbackModelIn FALLBACK_MODELS models currentModel), w')))
  /\ (cache_miss w ->
      forall e w1,
        getSessionToken w = (Thrown e, w1) ->
        getAvailableModels w
        = (Returned (map Str FALLBACK_MODELS),
           set_cache (Some (map Str FALLBACK_MODELS)) (clock w) w1))
  /\ (cache_miss w ->
      forall tok w1,
        getSessionToken w = (Returned tok, w1) ->
        Forall useless (firstn (length MODELS_URLS) (network w1)) ->
        exists w2,
          getAvailableModels w
          = (Returned (map Str FALLBACK_MODELS),
             set_cache (Some (map Str FALLBACK_MODELS)) (clock w) w2))
  /\ length FALLBACK_MODELS = 5%nat.
Proof.
  intro Hreach. pose proof (reachable_cache_ok w Hreach) as Hok.
  split; [| split; [| split]].
  - destruct (getAvailableModels_catalog w Hok) as (models & w' & Hg & Hcat & Hok' & _).
    exists models, w'. split; [exact Hg |]. split; [exact Hcat |].
    split; [exact Hok' |]. split; [now apply pickFallbackModel_not_null |].
    split; intro x.
    + unfold resolveModel, bind. now rewrite Hg.
    + unfold findFallbackModel, bind. now rewrite Hg.
  - intros Hmiss e w1 Hs.
    destruct (getAvailableModels_miss w Hmiss) as (f & w2 & Hg & _ & _ & Hthrown & _).
    destruct (Hthrown e w1 Hs) as [-> ->]. exact Hg.
  - intros Hmiss tok w1 Hs Hu.
    destruct (getAvailableModels_miss w Hmiss) as (f & w2 & Hg & _ & _ & _ & Hret).
    specialize (Hret tok w1 Hs).
    destruct (fetchModels_useless tok MODELS_URLS w1 Hu) as [w2' Hf].
    rewrite Hf in Hret. injection Hret as <- <-.
    exists w2'. exact Hg.
  - reflexivity.
Qed.

End WithHost.

(** Not connected at all: the session token cannot be obtained and the
    catalog is the fallback list, cached. *)
Lemma C9_witness :
  getAvailableModels (host := RefHost.host) (freshWorld t0 [])
  = (Returned (map Str FALLBACK_MODELS),
     set_cache (Some (map Str FALLBACK_MODELS)) t0 (freshWorld t0 [])).
Proof.
  refine (proj1 (proj2 (C9_getAvailableModels (host := RefHost.host)
                          (freshWorld t0 []) (reachable_start [] true t0 [])))
                _ (Error "Not authenticated. Please connect to GitHub Copilot.")
                (freshWorld t0 []) _).
  - left. reflexivity.
  - vm_compute. reflexivity.
Defined.

(** Connected, with both endpoints giving nothing (a 500, then a page
    that is not JSON): the fallback list again. *)
Lemma getAvailableModels_endpoints_down :
  result (getAvailableModels (host := RefHost.host))
         (worldWith [sessionLogin 10] t0
            [answer 30 500 "oops"; answer 30 200 "<html>maintenance</html>"])
  = Returned (map Str FALLBACK_MODELS).
Proof. vm_compute. reflexivity. Qed.

End InvariantFacts.

(* ================================================================== *)
(** * Facts: the credential store beyond a single record *)
(* ================================================================== *)

Module VaultFacts.

Import TokenStorage GitHubDeviceFlow JSFacts Views Examples.
Import TokenStorageFacts SessionFacts.

(** A login of another realm is not a login of the realm. *)
Lemma in_realm_other (realm other : string) (l : LoginInfo) :
  other <> realm -> in_realm other l = true -> in_realm realm l = false.
Proof.
  unfold in_realm. intros Hne H. apply andb_true_iff in H as [_ Hr].
  apply String.eqb_eq in Hr.
  destruct (String.eqb_spec (httpRealm l) realm); [congruence |].
  apply andb_false_r.
Qed.

Lemma records_without_other (realm other : string) (l : list LoginInfo) :
  other <> realm ->
  filter (in_realm other) (filter (fun x => negb (in_realm realm x)) l)
  = filter (in_realm other) l.
Proof.
  intro Hne. induction l as [| x l IH]; simpl; [reflexivity |].
  destruct (in_realm other x) eqn:Eo.
  - rewrite (in_realm_other realm other x Hne Eo). simpl. now rewrite Eo, IH.
  - destruct (in_realm realm x); simpl; [exact IH | now rewrite Eo, IH].
Qed.

Lemma records_app_other (realm other : string) (l : list LoginInfo) (x : LoginInfo) :
  other <> realm -> in_realm realm x = true ->
  filter (in_realm other) (l ++ [x]) = filter (in_realm other) l.
Proof.
  intros Hne Hx. rewrite filter_app. simpl.
  destruct (in_realm other x) eqn:Eo; [| apply app_nil_r].
  rewrite (in_realm_other realm other x Hne Eo) in Hx. discriminate.
Qed.

Lemma filter_twice {A} (f : A -> bool) (l : list A) :
  filter f (filter f l) = filter f l.
Proof.
  induction l as [| x l IH]; simpl; [reflexivity |].
  destruct (f x) eqn:E; simpl; [now rewrite E, IH | exact IH].
Qed.

Lemma set_logins_same (w : World) : set_logins (logins w) w = w.
Proof. now destruct w. Qed.

Section WithHost.
Context {host : Host}.

(** [removeToken] with the login manager at hand answers true and leaves
    the logins that are not of the realm, in their order; the realm then
    reads as empty, no token of it is valid, and removing again changes
    nothing. *)
Theorem removeToken_empties_realm (realm : string) (w : World) :
  loginsAvailable w = true ->
  let w' := after (removeToken realm) w in
  removeToken realm w = (Returned true, w')
  /\ logins w' = filter (fun l => negb (in_realm realm l)) (logins w)
  /\ getToken realm w' = (Returned None, w')
  /\ (forall maxAge, hasValidToken realm maxAge w' = (Returned false, w'))
  /\ removeToken realm w' = (Returned true, w').
Proof.
  intros Hav w'.
  assert (Hw : w' = set_logins (filter (fun l => negb (in_realm realm l)) (logins w)) w).
  { unfold w', after. now rewrite removeToken_available. }
  assert (Hst : stored realm w' = None).
  { rewrite Hw. unfold stored. simpl. rewrite Hav.
    now rewrite filter_in_realm_removed. }
  split; [| split; [| split; [| split]]].
  - rewrite Hw. now apply removeToken_available.
  - now rewrite Hw.
  - now rewrite getToken_stored, Hst.
  - intro maxAge. unfold hasValidToken, bind. now rewrite getToken_stored, Hst.
  - rewrite removeToken_available by (rewrite Hw; exact Hav).
    f_equal. rewrite Hw at 1. simpl. rewrite filter_twice.
    rewrite Hw. reflexivity.
Qed.

Lemma records_after_store_other (realm other token_ : string)
      (metadata_ : list (string * value)) (w : World) :
  other <> realm ->
  records other (after (storeToken realm token_ metadata_) w) = records other w.
Proof.
  intro Hne. unfold after, records. destruct (loginsAvailable w) eqn:Hav.
  - rewrite storeToken_available by assumption. simpl.
    rewrite (records_app_other realm other) by
      (try assumption; apply in_realm_written).
    now apply records_without_other.
  - now rewrite storeToken_unavailable.
Qed.

(** Storing or removing under one realm leaves the records of every other
    realm, and what [getToken] reads there, as they were. *)
Theorem other_realms_untouched (realm other token_ : string)
        (metadata_ : list (string * value)) (w : World) :
  other <> realm ->
  records other (after (storeToken realm token_ metadata_) w) = records other w
  /\ records other (after (removeToken realm) w) = records other w
  /\ getToken other (after (storeToken realm token_ metadata_) w)
     = (Returned (stored other w), after (storeToken realm token_ metadata_) w)
  /\ getToken other (after (removeToken realm) w)
     = (Returned (stored other w), after (removeToken realm) w).
Proof.
  intro Hne.
  assert (Hs : records other (after (storeToken realm token_ metadata_) w)
               = records other w
               /\ loginsAvailable (after (storeToken realm token_ metadata_) w)
                  = loginsAvailable w).
  { unfold after, records. destruct (loginsAvailable w) eqn:Hav.
    - rewrite storeToken_available by assumption. simpl. split; [| exact Hav].
      rewrite (records_app_other realm other) by
        (try assumption; apply in_realm_written).
      now apply records_without_other.
    - rewrite storeToken_unavailable by assumption. simpl. now split. }
  assert (Hr : records other (after (removeToken realm) w) = records other w
               /\ loginsAvailable (after (removeToken realm) w) = loginsAvailable w).
  { unfold after, records. destruct (loginsAvailable w) eqn:Hav.
    - rewrite removeToken_available by assumption. simpl. split; [| exact Hav].
      now apply records_without_other.
    - rewrite removeToken_unavailable by assumption. simpl. now split. }
  destruct Hs as [Hs1 Hs2], Hr as [Hr1 Hr2].
  split; [exact Hs1 |]. split; [exact Hr1 |].
  split; rewrite getToken_stored; f_equal; f_equal; unfold stored, records in *.
  - now rewrite Hs2, Hs1.
  - now rewrite Hr2, Hr1.
Qed.

(** No call of [storeToken], [removeToken] or [getToken] throws.  The first
    two answer whether the login manager was at hand; when it is not, they
    change nothing, [getToken] reads null and no token is valid. *)
Theorem storage_failures_are_answers (realm token_ : string)
        (metadata_ : list (string * value)) (w : World) :
  result (storeToken realm token_ metadata_) w = Returned (loginsAvailable w)
  /\ result (removeToken realm) w = Returned (loginsAvailable w)
  /\ result (getToken realm) w = Returned (stored realm w)
  /\ (loginsAvailable w = false ->
      after (storeToken realm token_ metadata_) w = w
      /\ after (removeToken realm) w = w
      /\ getToken realm w = (Returned None, w)
      /\ forall maxAge, hasValidToken realm maxAge w = (Returned false, w)).
Proof.
  unfold result, after. destruct (loginsAvailable w) eqn:Hav.
  - rewrite storeToken_available, removeToken_available, getToken_stored by assumption.
    repeat split; discriminate.
  - rewrite storeToken_unavailable, removeToken_unavailable, getToken_stored
      by assumption.
    assert (Hst : stored realm w = None) by (unfold stored; now rewrite Hav).
    repeat split.
    + now rewrite Hst.
    + unfold hasValidToken, bind. now rewrite getToken_stored, Hst.
Qed.

Lemma hasValidToken_numbers (realm : string) (w : World) (r : TokenRecord)
      (m s : Z) (e : option Z) :
  stored realm w = Some r ->
  prop (metadata r) "storedAt" = inr (Num s) ->
  prop (metadata r) "expiresAt"
  = inr (match e with Some n => Num n | None => Undefined end) ->
  hasValidToken realm (Num m) w
  = (Returned (((m =? 0) || (s =? 0) || (clock w - s <=? m))
               && match e with
                  | Some n => (n =? 0) || (clock w <=? n)
                  | None => true
                  end), w).
Proof.
  intros Hst Hs He. unfold hasValidToken. unfold bind at 1.
  rewrite getToken_stored, Hst.
  unfold bind at 1. cbn [truthy].
  destruct (Z.eqb_spec m 0) as [-> | Hm]; cbn [negb orb].
  - cbn [ret]. unfold bind. rewrite He. cbn [lift ret].
    destruct e as [n |]; cbn [truthy]; [| reflexivity].
    destruct (Z.eqb_spec n 0) as [-> | Hn]; cbn [negb orb]; [reflexivity |].
    unfold Date_now, number_gt. cbn [ToNumber].
    destruct (Z.gtb_spec (clock w) n), (Z.leb_spec (clock w) n);
      try lia; reflexivity.
  - unfold bind at 1. rewrite Hs. cbn [lift ret truthy].
    destruct (Z.eqb_spec s 0) as [-> | Hs0]; cbn [negb orb].
    + cbn [ret]. unfold bind. rewrite He. cbn [lift ret].
      destruct e as [n |]; cbn [truthy]; [| reflexivity].
      destruct (Z.eqb_spec n 0) as [-> | Hn]; cbn [negb orb]; [reflexivity |].
      unfold Date_now, number_gt. cbn [ToNumber].
      destruct (Z.gtb_spec (clock w) n), (Z.leb_spec (clock w) n);
        try lia; reflexivity.
    + unfold bind at 1. unfold Date_now at 1. cbn [ToNumber ret].
      destruct (Z.gtb_spec (clock w - s) m), (Z.leb_spec (clock w - s) m);
        try lia; cbn [andb]; [reflexivity |].
      unfold bind. rewrite He. cbn [lift ret].
      destruct e as [n |]; cbn [truthy]; [| reflexivity].
      destruct (Z.eqb_spec n 0) as [-> | Hn]; cbn [negb orb]; [reflexivity |].
      unfold Date_now, number_gt. cbn [ToNumber].
      destruct (Z.gtb_spec (clock w) n), (Z.leb_spec (clock w) n);
        try lia; reflexivity.
Qed.

(** [hasValidToken] with a numeric [maxAge].  On a record whose [storedAt]
    is a number and whose [expiresAt] is a number or absent, the age test
    counts only when [maxAge] and [storedAt] are not zero, the expiry test
    only when [expiresAt] is there and not zero, and both bounds are
    inclusive.  So a token stored at the time [s], with metadata that JSON
    carries, and read when the clock says [t], is valid exactly when
    [t - s] is at most [maxAge] and [t] is at most its [expiresAt], each
    test under the same provisos. *)
Theorem hasValidToken_decision (realm : string) (m : Z) :
  (forall (w : World) (r : TokenRecord) (s : Z) (e : option Z),
      stored realm w = Some r ->
      prop (metadata r) "storedAt" = inr (Num s) ->
      prop (metadata r) "expiresAt"
      = inr (match e with Some n => Num n | None => Undefined end) ->
      hasValidToken realm (Num m) w
      = (Returned (((m =? 0) || (s =? 0) || (clock w - s <=? m))
                   && match e with
                      | Some n => (n =? 0) || (clock w <=? n)
                      | None => true
                      end), w))
  /\ (forall (secret : string) (metadata_ : list (string * value)) (e : option Z)
             (t : Z) (w : World),
        loginsAvailable w = true ->
        JSON_parse (JSON_stringify (stamped metadata_ (clock w)))
        = inr (stamped metadata_ (clock w)) ->
        lookup "expiresAt" metadata_
        = match e with Some n => Some (Num n) | None => None end ->
        let w1 := set_clock t (after (storeToken realm secret metadata_) w) in
        hasValidToken realm (Num m) w1
        = (Returned (((m =? 0) || (clock w =? 0) || (t - clock w <=? m))
                     && match e with
                        | Some n => (n =? 0) || (t <=? n)
                        | None => true
                        end), w1)).
Proof.
  split; [intros w r s e; apply hasValidToken_numbers |].
  intros secret metadata_ e t w Hav Hjson He w1.
  assert (Hst : stored realm w1
                = Some (mkTokenRecord secret (stamped metadata_ (clock w)))).
  { unfold w1, stored. cbn [loginsAvailable logins set_clock].
    rewrite available_after_store, Hav.
    unfold after. rewrite logins_after_store by assumption.
    unfold written, createLoginInfo. cbn [username password].
    unfold stamped in Hjson. now rewrite Hjson. }
  rewrite (hasValidToken_numbers realm w1 _ m (clock w) e Hst).
  - reflexivity.
  - unfold stamped, prop, opt_prop. cbn [metadata].
    now rewrite set_field_lookup.
  - unfold stamped, prop, opt_prop. cbn [metadata].
    rewrite set_field_lookup_other by discriminate. rewrite He.
    now destruct e.
Qed.

(** A record whose metadata is the JSON null makes [hasValidToken] throw:
    the TypeError of the property read leaves the function. *)
Theorem hasValidToken_null_metadata (realm : string) (maxAge : value) (w : World)
        (r : TokenRecord) :
  stored realm w = Some r -> metadata r = Null ->
  hasValidToken realm maxAge w
  = (Thrown (null_property_error
               (if truthy maxAge then "storedAt" else "expiresAt")), w).
Proof.
  intros Hst Hnull. unfold hasValidToken. unfold bind at 1.
  rewrite getToken_stored, Hst. unfold bind at 1. rewrite Hnull.
  destruct (truthy maxAge); [reflexivity |].
  cbn [ret]. unfold bind. reflexivity.
Qed.

Lemma filter_filter_and {A} (f g : A -> bool) (l : list A) :
  filter g (filter f l) = filter (fun x => f x && g x) l.
Proof.
  induction l as [| x l IH]; simpl; [reflexivity |].
  destruct (f x); simpl; [destruct (g x); now rewrite IH | exact IH].
Qed.

(** [clearAll] never throws and does what [disconnect] does: afterwards
    both realms read as empty, and the records of any other realm are as
    they were. *)
Theorem clearAll_forgets_both (w : World) :
  let w' := after clearAll w in
  clearAll w = (Returned tt, w')
  /\ getToken REALMS.GITHUB_COPILOT w' = (Returned None, w')
  /\ getToken REALMS.GITHUB_COPILOT_SESSION w' = (Returned None, w')
  /\ (forall other,
        other <> REALMS.GITHUB_COPILOT -> other <> REALMS.GITHUB_COPILOT_SESSION ->
        records other w' = records other w)
  /\ disconnect w = (Returned tt, w').
Proof.
  intro w'.
  assert (Hc : clearAll w = disconnect w).
  { unfold clearAll, disconnect. cbn [for_of]. unfold bind, ret.
    destruct (removeToken REALMS.GITHUB_COPILOT w) as [[b | e] w1]; [| reflexivity].
    destruct (removeToken REALMS.GITHUB_COPILOT_SESSION w1) as [[b' | e'] w2];
      reflexivity. }
  destruct (loginsAvailable w) eqn:Hav.
  - assert (Hw : w' = set_logins
                        (filter (fun l => negb (in_realm REALMS.GITHUB_COPILOT_SESSION l))
                           (filter (fun l => negb (in_realm REALMS.GITHUB_COPILOT l))
                                   (logins w))) w).
    { unfold w', after. rewrite Hc. now rewrite disconnect_available. }
    pose proof (records_after_disconnect w Hav) as [H1 H2].
    unfold after in H1, H2. rewrite <- Hc in H1, H2. fold (after clearAll w) in H1, H2.
    fold w' in H1, H2.
    assert (Hav' : loginsAvailable w' = true) by (rewrite Hw; exact Hav).
    split; [rewrite Hc, Hw; now apply disconnect_available |].
    split; [rewrite getToken_stored; unfold stored; fold (records REALMS.GITHUB_COPILOT w');
            now rewrite Hav', H1 |].
    split; [rewrite getToken_stored; unfold stored;
            fold (records REALMS.GITHUB_COPILOT_SESSION w'); now rewrite Hav', H2 |].
    split; [| rewrite Hw; now apply disconnect_available].
    intros other Hn1 Hn2. rewrite Hw. unfold records. simpl.
    rewrite records_without_other by assumption.
    now apply records_without_other.
  - assert (Hw : w' = w).
    { unfold w', after. rewrite Hc. unfold disconnect, bind.
      now rewrite !removeToken_unavailable. }
    assert (Hd : disconnect w = (Returned tt, w)).
    { unfold disconnect, bind. now rewrite !removeToken_unavailable. }
    rewrite Hw. split; [now rewrite Hc |].
    split; [rewrite getToken_stored; unfold stored; now rewrite Hav |].
    split; [rewrite getToken_stored; unfold stored; now rewrite Hav |].
    split; [reflexivity | exact Hd].
Qed.

End WithHost.

(** Removing the session record of a connected add-on leaves the access
    record alone. *)
Lemma removeToken_empties_realm_witness :
  let w := worldWith [sessionLogin 10; accessLogin] t0 [] in
  logins (after (removeToken REALMS.GITHUB_COPILOT_SESSION) w) = [accessLogin].
Proof.
  intro w.
  exact (proj1 (proj2 (removeToken_empties_realm (host := RefHost.host)
                         REALMS.GITHUB_COPILOT_SESSION w eq_refl))).
Defined.

(** A new session token stored beside the access token. *)
Lemma other_realms_untouched_witness :
  let w := worldWith [sessionLogin 10; accessLogin] t0 [] in
  records REALMS.GITHUB_COPILOT
          (after (storeToken (host := RefHost.host) REALMS.GITHUB_COPILOT_SESSION
                             "tok" []) w)
  = [accessLogin].
Proof.
  intro w.
  exact (proj1 (other_realms_untouched (host := RefHost.host)
                  REALMS.GITHUB_COPILOT_SESSION REALMS.GITHUB_COPILOT "tok" [] w
                  ltac:(discriminate))).
Defined.

(** A session record stored ten minutes ago is too old for a [maxAge] of
    five minutes; a session token good for thirty minutes, looked at
    twenty minutes after it was stored, is valid with a [maxAge] of an
    hour, and forty minutes after it is not. *)
Lemma hasValidToken_decision_witness :
  let w := worldWith [sessionLogin 10] t0 [] in
  let m := [("expiresAt", Num (t0 + minutes 30))] in
  let w1 := after (storeToken (host := RefHost.host)
                              REALMS.GITHUB_COPILOT_SESSION "tok" m)
                  (freshWorld t0 []) in
  hasValidToken (host := RefHost.host) REALMS.GITHUB_COPILOT_SESSION
                (Num (minutes 5)) w = (Returned false, w)
  /\ result (hasValidToken (host := RefHost.host) REALMS.GITHUB_COPILOT_SESSION
                           (Num (minutes 60))) (set_clock (t0 + minutes 20) w1)
     = Returned true
  /\ result (hasValidToken (host := RefHost.host) REALMS.GITHUB_COPILOT_SESSION
                           (Num (minutes 60))) (set_clock (t0 + minutes 40) w1)
     = Returned false.
Proof.
  intros w m w1. subst w1. unfold result. split; [| split].
  - exact (proj1 (hasValidToken_decision (host := RefHost.host)
                    REALMS.GITHUB_COPILOT_SESSION (minutes 5))
                 w (Scenarios.sessionRecord 10) (t0 - minutes 10)
                 (Some (t0 + minutes 10))
                 ltac:(vm_compute; reflexivity) eq_refl eq_refl).
  - rewrite (proj2 (hasValidToken_decision (host := RefHost.host)
                      REALMS.GITHUB_COPILOT_SESSION (minutes 60))
                   "tok" m (Some (t0 + minutes 30)) (t0 + minutes 20)
                   (freshWorld t0 [])
                   eq_refl ltac:(vm_compute; reflexivity) eq_refl).
    reflexivity.
  - rewrite (proj2 (hasValidToken_decision (host := RefHost.host)
                      REALMS.GITHUB_COPILOT_SESSION (minutes 60))
                   "tok" m (Some (t0 + minutes 30)) (t0 + minutes 40)
                   (freshWorld t0 [])
                   eq_refl ltac:(vm_compute; reflexivity) eq_refl).
    reflexivity.
Defined.

(** A login whose user name is the text null. *)
Lemma hasValidToken_null_metadata_witness :
  let w := worldWith [mkLoginInfo HOSTNAME "realm" "null" "tok"] t0 [] in
  result (hasValidToken (host := RefHost.host) "realm" Null) w
  = Thrown (TypeError "can't access property expiresAt of null").
Proof.
  intro w. unfold result.
  rewrite (hasValidToken_null_metadata (host := RefHost.host) "realm" Null w
             (mkTokenRecord "tok" Null) ltac:(vm_compute; reflexivity) eq_refl).
  reflexivity.
Defined.

End VaultFacts.

(* ================================================================== *)
(** * Facts: the device flow *)
(* ================================================================== *)

Module DeviceFlowFacts.

Import TokenStorage GitHubDeviceFlow JSFacts Views Traces Examples.
Import TokenStorageFacts SessionFacts CatalogFacts InvariantFacts.

(** ** What leaves the stored logins alone *)

Lemma keeps_same_logins {A} (c : M A) :
  (forall w, logins (after c w) = logins w
             /\ loginsAvailable (after c w) = loginsAvailable w) ->
  forall l b, preserves (same_logins l b) c.
Proof.
  intros H l b w [H1 H2]. destruct (H w) as [K1 K2].
  split; congruence.
Qed.

Lemma same_logins_kept {A} (c : M A) :
  (forall l b, preserves (same_logins l b) c) ->
  forall w, logins (after c w) = logins w
            /\ loginsAvailable (after c w) = loginsAvailable w.
Proof.
  intros H w. exact (H (logins w) (loginsAvailable w) w (conj eq_refl eq_refl)).
Qed.

Lemma same_logins_fetch (req : Request) (l : list LoginInfo) (b : bool) :
  preserves (same_logins l b) (fetch req).
Proof. apply keeps_same_logins. intro w. apply answered_logins. Qed.

Lemma same_logins_text (r : Response) (l : list LoginInfo) (b : bool) :
  preserves (same_logins l b) (text r).
Proof.
  apply keeps_same_logins. intro w. unfold after, text.
  now destruct (bodyError r).
Qed.

Lemma same_logins_onStatusUpdate (given : bool) (s : string)
      (l : list LoginInfo) (b : bool) :
  preserves (same_logins l b) (onStatusUpdate given s).
Proof.
  apply keeps_same_logins. intro w. unfold after, onStatusUpdate.
  now destruct given.
Qed.

Create HintDb frame.
#[local] Hint Resolve same_logins_fetch same_logins_text
  same_logins_onStatusUpdate : frame.

(** Goes through a computation by its syntax; a step that only sets the
    clock, the flow or a callback log keeps the logins by computation. *)
Ltac frame_step :=
  match goal with
  | |- preserves _ (ret _) => apply preserves_ret
  | |- preserves _ (throw _) => apply preserves_throw
  | |- preserves _ (lift _) => apply preserves_lift
  | |- preserves _ (bind _ _) => apply preserves_bind; [| intro]
  | |- preserves _ (try_catch _ _) => apply preserves_try_catch; [| intro]
  | |- preserves _ (if ?b then _ else _) => destruct b
  | |- preserves _ (match ?x with _ => _ end) => destruct x
  | |- preserves _ _ => solve [auto with frame]
  | |- preserves _ _ => solve [intros ? [? ?]; split; assumption]
  end.

Ltac frame := repeat frame_step.

Section WithHost.
Context {host : Host}.

Lemma same_logins_json (r : Response) (l : list LoginInfo) (b : bool) :
  preserves (same_logins l b) (json r).
Proof. unfold json. frame. Qed.

Lemma same_logins_startDeviceFlow (l : list LoginInfo) (b : bool) :
  preserves (same_logins l b) startDeviceFlow.
Proof. pose proof same_logins_json. unfold startDeviceFlow. frame. Qed.

Lemma same_logins_poll (hs : bool) (dc : value) (p e : option Z)
      (l : list LoginInfo) (b : bool) :
  preserves (same_logins l b) (poll hs dc p e).
Proof. pose proof same_logins_json. unfold poll. frame. Qed.

Lemma same_logins_poll_loop (fuel : nat) (hs : bool) (dc : value) (p e : option Z)
      (l : list LoginInfo) (b : bool) :
  preserves (same_logins l b) (poll_loop fuel hs dc p e).
Proof.
  pose proof same_logins_poll.
  induction fuel as [| fuel IH]; simpl; frame.
Qed.

Lemma same_logins_pollForToken (fuel : nat) (hs : bool)
      (l : list LoginInfo) (b : bool) :
  preserves (same_logins l b) (pollForToken fuel hs).
Proof.
  intros w Hw. unfold after, pollForToken.
  destruct (currentFlow w) as [f |]; [| exact Hw].
  now apply same_logins_poll_loop.
Qed.

Lemma same_logins_getCopilotToken (accessToken : value)
      (l : list LoginInfo) (b : bool) :
  preserves (same_logins l b) (getCopilotToken accessToken).
Proof.
  apply keeps_same_logins. intro w. rewrite getCopilotToken_world.
  apply answered_logins.
Qed.

Lemma same_logins_getUserInfo (accessToken : value)
      (l : list LoginInfo) (b : bool) :
  preserves (same_logins l b) (getUserInfo accessToken).
Proof. pose proof same_logins_json. unfold getUserInfo. frame. Qed.

(** ** One run of the poll closure *)

Lemma not_expired (e : option Z) (w : World) :
  match e with Some t => clock w <= t | None => True end ->
  match e with Some t => clock w >? t | None => false end = false.
Proof.
  destruct e as [t |]; [| reflexivity].
  intro H. destruct (Z.gtb_spec (clock w) t); [lia | reflexivity].
Qed.

(** A run that is not past the expiry sends the token request and never
    throws; a resolution carries a truthy token and clears the flow; a
    rescheduling leaves the flow and waits the interval, or the interval
    and five seconds. *)
Lemma poll_step (hs : bool) (dc : value) (p e : option Z) (w : World) :
  match e with Some t => clock w <= t | None => True end ->
  exists step w',
    poll hs dc p e w = (Returned step, w')
    /\ requests w' = (requests w ++ [pollRequest dc])%list
    /\ clock w' = clock (answered (pollRequest dc) w)
    /\ network w' = tl (network w)
    /\ match step with
       | Resolve v => truthy v = true /\ currentFlow w' = None
       | Schedule d =>
           currentFlow w' = currentFlow w
           /\ (d = p \/ d = match p with Some x => Some (x + 5000) | None => None end)
       | Reject _ => True
       end.
Proof.
  intro Hexp. unfold poll. unfold bind at 1. unfold Date_now at 1.
  rewrite (not_expired e w Hexp).
  pose proof (answered_requests (pollRequest dc) w) as Hreq.
  pose proof (network_answered (pollRequest dc) w) as Hnet.
  assert (Hflow : currentFlow (answered (pollRequest dc) w) = currentFlow w).
  { unfold answered, fetch. destruct (network w) as [| x rest]; [reflexivity |].
    now destruct (outcome x). }
  unfold answered in *. unfold try_catch, bind.
  destruct (fetch (pollRequest dc) w) as [[r | ex] w1]; cbn [snd] in *.
  2:{ do 2 eexists. split; [reflexivity |]. now repeat split. }
  unfold json, bind, text.
  destruct (bodyError r).
  { do 2 eexists. split; [reflexivity |]. now repeat split. }
  cbn [ret]. destruct (JSON_parse _) as [ex | data]; cbn [lift ret throw].
  { do 2 eexists. split; [reflexivity |]. now repeat split. }
  destruct (prop data "error") as [ex | err]; cbn [lift ret throw].
  { do 2 eexists. split; [reflexivity |]. now repeat split. }
  destruct (truthy err).
  - destruct (strict_eq err (Str "authorization_pending")).
    { unfold onStatusUpdate. do 2 eexists. split; [reflexivity |].
      destruct hs; cbn; repeat split; auto. }
    destruct (strict_eq err (Str "slow_down")).
    { do 2 eexists. split; [reflexivity |]. repeat split; auto. }
    destruct (strict_eq err (Str "expired_token")).
    { do 2 eexists. split; [reflexivity |]. now repeat split. }
    destruct (strict_eq err (Str "access_denied")).
    { do 2 eexists. split; [reflexivity |]. now repeat split. }
    do 2 eexists. split; [reflexivity |]. now repeat split.
  - destruct (truthy (opt_prop data "access_token")) eqn:Htok.
    + unfold clearFlow, onStatusUpdate. do 2 eexists. split; [reflexivity |].
      destruct hs; cbn; repeat split; auto.
    + do 2 eexists. split; [reflexivity |]. now repeat split.
Qed.

(** Past the expiry the run rejects at once: nothing is sent and the flow
    is cleared. *)
Lemma poll_expired (hs : bool) (dc : value) (p : option Z) (t : Z) (w : World) :
  t < clock w ->
  poll hs dc p (Some t) w
  = (Returned (Reject (Error "Device code expired. Please try again.")),
     set_currentFlow None w).
Proof.
  intro H. unfold poll, bind, Date_now.
  destruct (Z.gtb_spec (clock w) t); [reflexivity | lia].
Qed.

Lemma clock_answered_causal (req : Request) (w : World) :
  causal (network w) -> clock w <= clock (answered req w).
Proof.
  unfold causal, answered, fetch. intro H.
  destruct (network w) as [| x rest]; simpl; [lia |].
  inversion H; subst. destruct (outcome x); simpl; lia.
Qed.

Lemma causal_tl (net : list Exchange) : causal net -> causal (tl net).
Proof.
  unfold causal. destruct net as [| x rest]; simpl; [auto |].
  intro H. now inversion H.
Qed.

Lemma answered_currentFlow (req : Request) (w : World) :
  currentFlow (answered req w) = currentFlow w.
Proof.
  unfold answered, fetch. destruct (network w) as [| x rest]; [reflexivity |].
  now destruct (outcome x).
Qed.

Lemma strict_eq_Str_r (v : value) (s : string) :
  v <> Str s -> strict_eq v (Str s) = false.
Proof.
  intro H. destruct v; try reflexivity. cbn.
  destruct (String.eqb_spec s0 s); [congruence | reflexivity].
Qed.

(** A run reschedules itself only on the answers [authorization_pending]
    and [slow_down]. *)
Lemma poll_scheduled (hs : bool) (dc : value) (p e : option Z) (w w' : World)
      (d : option Z) :
  poll hs dc p e w = (Returned (Schedule d), w') ->
  exists x rest r data,
    network w = x :: rest /\ outcome x = inr r /\ bodyError r = None
    /\ JSON_parse (concat_chunks (body r)) = inr data
    /\ ((prop data "error" = inr (Str "authorization_pending") /\ d = p)
        \/ (prop data "error" = inr (Str "slow_down")
            /\ d = match p with Some q => Some (q + 5000) | None => None end)).
Proof.
  unfold poll. unfold bind at 1, Date_now at 1.
  destruct (match e with Some t => clock w >? t | None => false end);
    [unfold bind, clearFlow, ret; discriminate |].
  unfold try_catch, json, bind, text, fetch.
  destruct (network w) as [| x rest]; [discriminate |].
  destruct (outcome x) as [ex | r] eqn:Ho; [discriminate |].
  destruct (bodyError r) eqn:Hb; [discriminate |]. cbn [ret].
  destruct (JSON_parse (concat_chunks (body r))) as [ex | data] eqn:Hparse;
    cbn [lift ret throw]; [discriminate |].
  destruct (prop data "error") as [ex | err] eqn:Herr; cbn [lift ret throw];
    [discriminate |].
  destruct (truthy err).
  - destruct (strict_eq err (Str "authorization_pending")) eqn:E1.
    { unfold onStatusUpdate. intros [= <- _].
      exists x, rest, r, data. split; [reflexivity |].
      split; [exact Ho |]. split; [exact Hb |]. split; [exact Hparse |]. left.
      split; [| reflexivity].
      destruct err; try discriminate. cbn in E1. apply String.eqb_eq in E1.
      now subst. }
    destruct (strict_eq err (Str "slow_down")) eqn:E2.
    { intros [= <- _].
      exists x, rest, r, data. split; [reflexivity |].
      split; [exact Ho |]. split; [exact Hb |]. split; [exact Hparse |]. right.
      split; [| reflexivity].
      destruct err; try discriminate. cbn in E2. apply String.eqb_eq in E2.
      now subst. }
    destruct (strict_eq err (Str "expired_token")); [discriminate |].
    destruct (strict_eq err (Str "access_denied")); discriminate.
  - destruct (truthy (opt_prop data "access_token")); discriminate.
Qed.

(** The ways a poll rejects, for a run that is not past the expiry.  The
    code [expired_token] and the code [access_denied] reject with their
    fixed messages and clear the flow.  Every other rejection leaves the
    flow current: a failed fetch or a body that cannot be read or is not
    JSON rejects with that very error, an unknown error code with its
    description, or the code when there is none, and an answer with
    neither an error nor a token with the unexpected-response message. *)
Theorem poll_rejections (hs : bool) (dc : value) (p e : option Z) (w : World)
        (x : Exchange) (rest : list Exchange) :
  match e with Some t => clock w <= t | None => True end ->
  network w = x :: rest ->
  let w1 := answered (pollRequest dc) w in
  let run := poll hs dc p e w in
  currentFlow w1 = currentFlow w
  /\ (forall ex, outcome x = inl ex -> run = (Returned (Reject ex), w1))
  /\ (forall r ex,
        outcome x = inr r -> bodyError r = Some ex ->
        run = (Returned (Reject ex), w1))
  /\ (forall r ex,
        outcome x = inr r -> bodyError r = None ->
        JSON_parse (concat_chunks (body r)) = inl ex ->
        run = (Returned (Reject ex), w1))
  /\ (forall r data err,
        outcome x = inr r -> bodyError r = None ->
        JSON_parse (concat_chunks (body r)) = inr data ->
        prop data "error" = inr err ->
        (err = Str "expired_token" ->
         run = (Returned (Reject (Error "Device code expired. Please try again.")),
                set_currentFlow None w1))
        /\ (err = Str "access_denied" ->
            run = (Returned (Reject (Error "Access denied by user.")),
                   set_currentFlow None w1))
        /\ (truthy err = true ->
            err <> Str "authorization_pending" -> err <> Str "slow_down" ->
            err <> Str "expired_token" -> err <> Str "access_denied" ->
            run = (Returned (Reject (new_Error
                                       (or_else (opt_prop data "error_description")
                                                err))), w1))
        /\ (truthy err = false -> truthy (opt_prop data "access_token") = false ->
            run = (Returned (Reject (Error "Unexpected response from GitHub")), w1))).
Proof.
  intros Hlive Hnet w1 run. subst run.
  split; [apply answered_currentFlow |].
  assert (Hstart : forall (k : M PollStep),
            bind Date_now
              (fun now =>
                 if match e with Some t => now >? t | None => false end
                 then bind clearFlow (fun _ =>
                        ret (Reject (Error "Device code expired. Please try again.")))
                 else k) w = k w).
  { intro k. unfold bind at 1, Date_now. now rewrite (not_expired e w Hlive). }
  unfold poll. rewrite Hstart. unfold try_catch, json, bind, text.
  fold w1.
  split; [| split; [| split]].
  - intros ex Ho. unfold w1, answered, fetch. now rewrite Hnet, Ho.
  - intros r ex Ho Hbody. rewrite (fetch_response _ w x rest r Hnet Ho).
    fold w1. now rewrite Hbody.
  - intros r ex Ho Hbody Hparse. rewrite (fetch_response _ w x rest r Hnet Ho).
    fold w1. rewrite Hbody. cbn [ret]. now rewrite Hparse.
  - intros r data err Ho Hbody Hparse Herr.
    rewrite (fetch_response _ w x rest r Hnet Ho). fold w1.
    rewrite Hbody. cbn [ret]. rewrite Hparse. cbn [lift ret].
    rewrite Herr. cbn [lift ret].
    split; [| split; [| split]].
    + intros ->. reflexivity.
    + intros ->. reflexivity.
    + intros Ht H1 H2 H3 H4. rewrite Ht.
      now rewrite (strict_eq_Str_r err _ H1), (strict_eq_Str_r err _ H2),
                  (strict_eq_Str_r err _ H3), (strict_eq_Str_r err _ H4).
    + intros Ht Htok. now rewrite Ht, Htok.
Qed.

(** ** The timer loop *)

Lemma poll_loop_settles (hs : bool) (dc : value) (p t : Z) (fuel : nat) (w : World) :
  5000 <= p ->
  causal (network w) ->
  (t - clock w) / 5000 + 2 <= Z.of_nat fuel ->
  1 <= Z.of_nat fuel ->
  result (poll_loop fuel hs dc (Some p) (Some t)) w <> Returned None.
Proof.
  intro Hp. revert w. induction fuel as [| k IH]; intros w Hc Hfuel Hone; [lia |].
  unfold result. cbn [poll_loop]. unfold bind at 1.
  destruct (Z_lt_le_dec t (clock w)) as [Hexp | Hlive].
  { rewrite poll_expired by assumption. discriminate. }
  destruct (poll_step hs dc (Some p) (Some t) w Hlive)
    as (step & w1 & Hrun & _ & Hclock & Hnet & Hstep).
  rewrite Hrun. destruct step as [v | e | d]; try discriminate.
  destruct Hstep as [_ Hd]. unfold bind, sleep.
  pose proof (clock_answered_causal (pollRequest dc) w Hc) as Hmono.
  assert (Hwait : 5000 <= match d with Some x => Z.max x 0 | None => 0 end).
  { destruct Hd as [-> | ->]; lia. }
  apply IH.
  - cbn. rewrite Hnet. now apply causal_tl.
  - cbn [clock set_clock]. rewrite Hclock.
    assert (H0 : 0 <= (t - clock w) / 5000) by (apply Z.div_pos; lia).
    assert (Hle : (t - (clock (answered (pollRequest dc) w)
                        + match d with Some x => Z.max x 0 | None => 0 end)) / 5000
                  <= (t - clock w - 5000) / 5000) by (apply Z.div_le_mono; lia).
    replace (t - clock w - 5000) with (t - clock w + (-1) * 5000) in Hle by lia.
    rewrite Z.div_add in Hle by lia. lia.
  - assert (H0 : 0 <= (t - clock w) / 5000) by (apply Z.div_pos; lia). lia.
Qed.

Lemma poll_loop_resolved (hs : bool) (dc : value) (p e : option Z) (fuel : nat)
      (w w' : World) (v : value) :
  poll_loop fuel hs dc p e w = (Returned (Some v), w') ->
  truthy v = true /\ currentFlow w' = None.
Proof.
  revert w. induction fuel as [| k IH]; intros w; cbn [poll_loop]; [discriminate |].
  unfold bind at 1.
  assert (Hcase : match e with Some t => clock w <= t | None => True end
                  \/ exists t, e = Some t /\ t < clock w).
  { destruct e as [t |]; [| now left].
    destruct (Z_lt_le_dec t (clock w)); [right; now exists t | now left]. }
  destruct Hcase as [Hlive | [t [-> Hexp]]].
  2:{ rewrite poll_expired by assumption. discriminate. }
  destruct (poll_step hs dc p e w Hlive) as (step & w1 & Hrun & _ & _ & _ & Hstep).
  rewrite Hrun. destruct step as [v0 | ex | d]; cbn [ret throw].
  - intros [= <- <-]. exact Hstep.
  - discriminate.
  - unfold bind, sleep. apply IH.
Qed.

Lemma pollInterval_of_number (f : DeviceFlow) (i : Z) :
  ToNumber (interval f) = Some i ->
  pollInterval_of f = Some (Z.max (i * 1000) 5000).
Proof. intro H. unfold pollInterval_of, times. now rewrite H. Qed.

(** The poll loop settles.  With a flow whose expiry and interval are
    numbers and a network whose answers take no negative time, a loop
    given the remaining time over five seconds, and two, runs of the
    closure resolves or rejects: the promise is not left pending.  A loop
    started past the expiry rejects at once, sends nothing and clears the
    flow. *)
Theorem pollForToken_settles (fuel : nat) (hs : bool) (w : World) (f : DeviceFlow)
        (t i : Z) :
  currentFlow w = Some f ->
  expiresAt_of f = Some t ->
  ToNumber (interval f) = Some i ->
  causal (network w) ->
  Z.max 0 (t - clock w) / 5000 + 2 <= Z.of_nat fuel ->
  ((exists v, result (pollForToken fuel hs) w = Returned (Some v))
   \/ (exists e, result (pollForToken fuel hs) w = Thrown e))
  /\ (t < clock w ->
      pollForToken fuel hs w
      = (Thrown (Error "Device code expired. Please try again."),
         set_currentFlow None w)).
Proof.
  intros Hf He Hi Hc Hfuel.
  assert (H0 : 0 <= Z.max 0 (t - clock w) / 5000) by (apply Z.div_pos; lia).
  split.
  - assert (Hne : result (pollForToken fuel hs) w <> Returned None).
    { unfold result, pollForToken. rewrite Hf, He, (pollInterval_of_number f i Hi).
      apply poll_loop_settles; try assumption; try lia.
      assert ((t - clock w) / 5000 <= Z.max 0 (t - clock w) / 5000)
        by (apply Z.div_le_mono; lia).
      lia. }
    destruct (result (pollForToken fuel hs) w) as [[v |] | e].
    + left. now exists v.
    + contradiction.
    + right. now exists e.
  - intro Hexp. unfold pollForToken. rewrite Hf, He.
    destruct fuel as [| k]; [lia |]. cbn [poll_loop]. unfold bind.
    now rewrite poll_expired.
Qed.

(** A rescheduled poll waits at least five seconds, and at least the
    interval the server asked for.  With [p] the larger of the two: the
    answer [authorization_pending] tells the callback that the flow is
    waiting and schedules the next run after [p], the answer [slow_down]
    after [p] and five seconds; a run that is rescheduled has had one of
    these two answers, and a rescheduling leaves the flow as it is. *)
Theorem poll_waits_five_seconds (hs : bool) (f : DeviceFlow) (i : Z) (w : World) :
  ToNumber (interval f) = Some i ->
  let p := Z.max (i * 1000) 5000 in
  let run := poll hs (deviceCode f) (pollInterval_of f) (expiresAt_of f) w in
  let w1 := answered (pollRequest (deviceCode f)) w in
  5000 <= p /\ i * 1000 <= p
  /\ (forall d w',
        run = (Returned (Schedule d), w') ->
        (d = Some p \/ d = Some (p + 5000)) /\ currentFlow w' = currentFlow w
        /\ exists x rest r data,
             network w = x :: rest /\ outcome x = inr r /\ bodyError r = None
             /\ JSON_parse (concat_chunks (body r)) = inr data
             /\ ((prop data "error" = inr (Str "authorization_pending")
                  /\ d = Some p)
                 \/ (prop data "error" = inr (Str "slow_down")
                     /\ d = Some (p + 5000))))
  /\ (forall x rest r data,
        match expiresAt_of f with Some t => clock w <= t | None => True end ->
        network w = x :: rest -> outcome x = inr r -> bodyError r = None ->
        JSON_parse (concat_chunks (body r)) = inr data ->
        (prop data "error" = inr (Str "authorization_pending") ->
         run = (Returned (Schedule (Some p)),
                after (onStatusUpdate hs "waiting") w1))
        /\ (prop data "error" = inr (Str "slow_down") ->
            run = (Returned (Schedule (Some (p + 5000))), w1))).
Proof.
  intros Hi p run w1. subst run.
  rewrite (pollInterval_of_number f i Hi). fold p.
  split; [lia |]. split; [lia |]. split.
  - intros d w' Hrun.
    pose proof (poll_scheduled hs (deviceCode f) (Some p) (expiresAt_of f) w w' d Hrun)
      as Hsched.
    assert (Hcase : match expiresAt_of f with Some t => clock w <= t | None => True end
                    \/ exists t, expiresAt_of f = Some t /\ t < clock w).
    { destruct (expiresAt_of f) as [t |]; [| now left].
      destruct (Z_lt_le_dec t (clock w)); [right; now exists t | now left]. }
    destruct Hcase as [Hlive | [t [He Hexp]]].
    2:{ rewrite He, poll_expired in Hrun by assumption. discriminate. }
    destruct (poll_step hs (deviceCode f) (Some p) (expiresAt_of f) w Hlive)
      as (step & w0 & Hrun' & _ & _ & _ & Hstep).
    rewrite Hrun' in Hrun. injection Hrun as -> ->.
    destruct Hstep as [Hflow Hd]. split; [exact Hd |]. split; [exact Hflow |].
    exact Hsched.
  - intros x rest r data Hlive Hnet Ho Hbody Hparse.
    split; intros Herr; unfold poll; unfold bind at 1, Date_now at 1;
      rewrite (not_expired _ w Hlive);
      unfold try_catch, json, bind, text;
      rewrite (fetch_response _ w x rest r Hnet Ho); fold w1;
      rewrite Hbody; cbn [ret]; rewrite Hparse; cbn [lift ret];
      rewrite Herr; reflexivity.
Qed.

Lemma pollForToken_flow (fuel : nat) (hs : bool) (w w' : World) (v : value) :
  pollForToken fuel hs w = (Returned (Some v), w') ->
  truthy v = true /\ currentFlow w' = None.
Proof.
  unfold pollForToken. destruct (currentFlow w) as [f |]; [| discriminate].
  apply poll_loop_resolved.
Qed.

(** A flow is used once.  When [pollForToken] resolves, the token is
    truthy, the flow is gone, the stored logins are as they were, and a
    further [pollForToken] throws without sending anything. *)
Theorem pollForToken_resolved (fuel : nat) (hs : bool) (w w' : World) (v : value) :
  pollForToken fuel hs w = (Returned (Some v), w') ->
  truthy v = true
  /\ currentFlow w' = None
  /\ logins w' = logins w
  /\ forall fuel' hs',
       pollForToken fuel' hs' w'
       = (Thrown (Error "No active device flow. Call startDeviceFlow first."), w').
Proof.
  intro Hrun.
  pose proof (same_logins_kept (pollForToken fuel hs)
                (same_logins_pollForToken fuel hs) w) as [Hl _].
  unfold after in Hl. rewrite Hrun in Hl. cbn [snd] in Hl.
  unfold pollForToken in Hrun. destruct (currentFlow w) as [f |]; [| discriminate].
  apply poll_loop_resolved in Hrun as [Ht Hflow].
  split; [exact Ht |]. split; [exact Hflow |]. split; [exact Hl |].
  intros fuel' hs'. unfold pollForToken. now rewrite Hflow.
Qed.

(** ** Starting the flow *)

(** [startDeviceFlow] sends one request, the POST of the client id to
    the device-code endpoint, and leaves the stored logins alone.  When it
    throws, the current flow is what it was; a status that is not 2xx
    throws the status line, an answer with a truthy [error] its
    description, or the error when there is none.  Otherwise the flow
    becomes current with the fields of the answer, the interval of the
    answer or 5 when the answer has none, and the time of the answer as
    its start; the result is the user code, the address and the
    validity. *)
Theorem startDeviceFlow_outcomes (w : World) :
  let request :=
    mkRequest "https://github.com/login/device/code" "POST"
      [("Accept", "application/json"); ("Content-Type", "application/json")]
      (Some (JSON_stringify (Obj [("client_id", Str "Iv1.b507a08c87ecfe98")]))) in
  let w' := after startDeviceFlow w in
  requests w' = (requests w ++ [request])%list
  /\ logins w' = logins w
  /\ (forall e, result startDeviceFlow w = Thrown e -> currentFlow w' = currentFlow w)
  /\ (forall x rest r,
        network w = x :: rest -> outcome x = inr r -> ok r = false ->
        result startDeviceFlow w
        = Thrown (Error ("HTTP " ++ Z_to_string (status r) ++ ": " ++ statusText r)))
  /\ (forall x rest r data err,
        network w = x :: rest -> outcome x = inr r ->
        ok r = true -> bodyError r = None ->
        JSON_parse (concat_chunks (body r)) = inr data ->
        prop data "error" = inr err ->
        (truthy err = true ->
         result startDeviceFlow w
         = Thrown (Error (ToString (if truthy (opt_prop data "error_description")
                                    then opt_prop data "error_description"
                                    else err))))
        /\ (truthy err = false ->
            startDeviceFlow w
            = (Returned (Obj [("userCode", opt_prop data "user_code");
                              ("verificationUri", opt_prop data "verification_uri");
                              ("expiresIn", opt_prop data "expires_in")]),
               set_currentFlow
                 (Some (mkDeviceFlow
                          (opt_prop data "device_code")
                          (opt_prop data "user_code")
                          (opt_prop data "verification_uri")
                          (opt_prop data "expires_in")
                          (if truthy (opt_prop data "interval")
                           then opt_prop data "interval" else Num 5)
                          (clock w + latency x)))
                 (answered request w))))
  /\ (forall v,
        result startDeviceFlow w = Returned v ->
        exists f,
          currentFlow w' = Some f
          /\ startTime f = clock w'
          /\ truthy (interval f) = true
          /\ v = Obj [("userCode", userCode f);
                      ("verificationUri", verificationUri f);
                      ("expiresIn", expiresIn f)]).
Proof.
  intros request w'. subst w'.
  change request with deviceCodeRequest. clear request.
  pose proof (answered_requests deviceCodeRequest w) as Hreq.
  pose proof (answered_currentFlow deviceCodeRequest w) as Hflow.
  pose proof (same_logins_kept startDeviceFlow same_logins_startDeviceFlow w)
    as [Hlogins _].
  split; [| split; [exact Hlogins |]].
  - unfold after, startDeviceFlow, try_catch, bind. fold deviceCodeRequest.
    unfold answered in Hreq.
    destruct (fetch deviceCodeRequest w) as [[r | ex] w1]; cbn [snd] in *;
      [| exact Hreq].
    destruct (negb (ok r)); [exact Hreq |].
    unfold json, bind, text. destruct (bodyError r); [exact Hreq |]. cbn [ret].
    destruct (JSON_parse _) as [ex | data]; cbn [lift ret throw]; [exact Hreq |].
    destruct (prop data "error") as [ex | err]; cbn [lift ret throw]; [exact Hreq |].
    destruct (truthy err); exact Hreq.
  - split; [| split; [| split]].
    + unfold result, after, startDeviceFlow, try_catch, bind. fold deviceCodeRequest.
      unfold answered in Hflow.
      destruct (fetch deviceCodeRequest w) as [[r | ex] w1]; cbn [snd fst] in *;
        [| intros; exact Hflow].
      destruct (negb (ok r)); [intros; exact Hflow |].
      unfold json, bind, text. destruct (bodyError r); [intros; exact Hflow |].
      cbn [ret].
      destruct (JSON_parse _) as [ex | data]; cbn [lift ret throw];
        [intros; exact Hflow |].
      destruct (prop data "error") as [ex | err]; cbn [lift ret throw];
        [intros; exact Hflow |].
      destruct (truthy err); [intros; exact Hflow |].
      unfold Date_now. cbn. intros e [=].
    + intros x rest r Hnet Hout Hok.
      unfold result, startDeviceFlow, try_catch, bind. fold deviceCodeRequest.
      rewrite (fetch_response deviceCodeRequest w x rest r Hnet Hout).
      now rewrite Hok.
    + intros x rest r data err Hnet Hout Hok Hbody Hparse Herr.
      assert (Hrun : startDeviceFlow w
                = (if truthy err
                   then throw (new_Error (or_else (opt_prop data "error_description") err))
                   else
                     bind Date_now (fun now =>
                       bind (fun w0 => (Returned tt,
                               set_currentFlow
                                 (Some (mkDeviceFlow (opt_prop data "device_code")
                                          (opt_prop data "user_code")
                                          (opt_prop data "verification_uri")
                                          (opt_prop data "expires_in")
                                          (or_else (opt_prop data "interval") (Num 5))
                                          now)) w0))
                            (fun _ =>
                               ret (Obj [("userCode", opt_prop data "user_code");
                                         ("verificationUri", opt_prop data "verification_uri");
                                         ("expiresIn", opt_prop data "expires_in")]))))
                    (answered deviceCodeRequest w)).
      { unfold startDeviceFlow, try_catch. fold deviceCodeRequest.
        unfold bind at 1.
        rewrite (fetch_response deviceCodeRequest w x rest r Hnet Hout).
        rewrite Hok. cbn [negb]. unfold json, text. rewrite Hbody.
        unfold bind at 1 2. cbn [ret]. rewrite Hparse. cbn [lift ret].
        unfold bind at 1. rewrite Herr. cbn [lift ret].
        destruct (truthy err); [reflexivity |].
        unfold bind, Date_now, ret. reflexivity. }
      split; intro Ht; rewrite Ht in Hrun.
      * unfold result. rewrite Hrun. reflexivity.
      * rewrite Hrun. unfold bind, Date_now, ret.
        rewrite (answered_clock deviceCodeRequest w x rest Hnet). reflexivity.
    + intro v.
      unfold result, after, startDeviceFlow, try_catch, bind. fold deviceCodeRequest.
      destruct (fetch deviceCodeRequest w) as [[r | ex] w1]; cbn [snd fst];
        [| discriminate].
      destruct (negb (ok r)); [discriminate |].
      unfold json, bind, text. destruct (bodyError r); [discriminate |]. cbn [ret].
      destruct (JSON_parse _) as [ex | data]; cbn [lift ret throw]; [discriminate |].
      destruct (prop data "error") as [ex | err]; cbn [lift ret throw];
        [discriminate |].
      destruct (truthy err); [discriminate |].
      unfold Date_now. cbn. intros [= <-].
      eexists. split; [reflexivity |]. cbn. split; [reflexivity |].
      split; [| reflexivity].
      unfold or_else. destruct (truthy (opt_prop data "interval")) eqn:E;
        [exact E | reflexivity].
Qed.

(** ** The exchange and the user *)

Lemma getCopilotToken_refused (accessToken : value) (w : World) (x : Exchange)
      (rest : list Exchange) (r : Response) :
  network w = x :: rest -> outcome x = inr r ->
  ok r = false -> bodyError r = None ->
  getCopilotToken accessToken w
  = (Thrown (Error
       (if status r =? 401 then
          "GitHub token is invalid or expired. Please re-authenticate."
        else if status r =? 403 then
          "You do not have access to GitHub Copilot. Please ensure you have an active subscription."
        else if status r =? 404 then
          "GitHub Copilot is not enabled for your account. Please check your subscription."
        else "HTTP " ++ Z_to_string (status r) ++ ": "
             ++ substring0 100 (concat_chunks (body r)))),
     answered (exchangeRequest accessToken) w).
Proof.
  intros Hn Ho Hok Hbody. unfold getCopilotToken, try_catch at 1, bind at 1.
  rewrite (fetch_response _ w x rest r Hn Ho). rewrite Hok. cbn [negb].
  unfold bind at 1, text. rewrite Hbody. cbn [ret].
  destruct (status r =? 401); [reflexivity |].
  destruct (status r =? 403); [reflexivity |].
  destruct (status r =? 404); [reflexivity |].
  unfold bind, try_catch.
  destruct (startsWith _ "{"); [| reflexivity].
  destruct (JSON_parse _) as [ex | parsed]; cbn [lift ret throw]; [reflexivity |].
  destruct (prop parsed "message") as [ex | m]; cbn [lift ret throw]; [reflexivity |].
  destruct (truthy m); [reflexivity |].
  destruct (prop parsed "error"); reflexivity.
Qed.

(** The failures of the exchange.  A status that is not 2xx throws a fixed
    message for 401, 403 and 404 and otherwise the status with the first
    hundred characters of the body, whatever JSON message the body holds;
    a 2xx body that is not JSON, or has no truthy [token], throws the two
    other fixed messages.  One request is sent either way. *)
Theorem getCopilotToken_failures (accessToken : value) (w : World) (x : Exchange)
        (rest : list Exchange) (r : Response) :
  network w = x :: rest -> outcome x = inr r -> bodyError r = None ->
  let w1 := answered (exchangeRequest accessToken) w in
  let t := concat_chunks (body r) in
  (ok r = false ->
   getCopilotToken accessToken w
   = (Thrown (Error
        (if status r =? 401 then
           "GitHub token is invalid or expired. Please re-authenticate."
         else if status r =? 403 then
           "You do not have access to GitHub Copilot. Please ensure you have an active subscription."
         else if status r =? 404 then
           "GitHub Copilot is not enabled for your account. Please check your subscription."
         else "HTTP " ++ Z_to_string (status r) ++ ": " ++ substring0 100 t)), w1))
  /\ (ok r = true -> forall e, JSON_parse t = inl e ->
      getCopilotToken accessToken w
      = (Thrown (Error "Invalid response from Copilot token endpoint"), w1))
  /\ (ok r = true -> forall data tok,
        JSON_parse t = inr data -> prop data "token" = inr tok -> truthy tok = false ->
        getCopilotToken accessToken w
        = (Thrown (Error "No token in Copilot response"), w1))
  /\ requests w1 = (requests w ++ [exchangeRequest accessToken])%list.
Proof.
  intros Hn Ho Hbody w1 t. split; [| split; [| split]].
  - intro Hok. now apply (getCopilotToken_refused accessToken w x rest r).
  - intros Hok e Hparse. unfold getCopilotToken, try_catch at 1, bind at 1.
    rewrite (fetch_response _ w x rest r Hn Ho). rewrite Hok. cbn [negb].
    unfold bind at 1, text. rewrite Hbody. cbn [ret].
    unfold bind, try_catch. fold t. now rewrite Hparse.
  - intros Hok data tok Hparse Htok Hfalsy.
    unfold getCopilotToken, try_catch at 1, bind at 1.
    rewrite (fetch_response _ w x rest r Hn Ho). rewrite Hok. cbn [negb].
    unfold bind at 1, text. rewrite Hbody. cbn [ret].
    unfold bind, try_catch. fold t. rewrite Hparse. cbn [lift ret].
    rewrite Htok. cbn [lift ret]. now rewrite Hfalsy.
  - apply answered_requests.
Qed.

Lemma getCopilotToken_truthy (accessToken : value) (w w1 : World) (c : CopilotToken) :
  getCopilotToken accessToken w = (Returned c, w1) ->
  truthy (copilotToken_token c) = true.
Proof.
  unfold getCopilotToken, try_catch at 1, bind at 1.
  destruct (fetch _ w) as [[r | ex] w0]; [| discriminate].
  destruct (negb (ok r)).
  - unfold bind at 1, text. destruct (bodyError r); [discriminate |]. cbn [ret].
    destruct (status r =? 401); [discriminate |].
    destruct (status r =? 403); [discriminate |].
    destruct (status r =? 404); [discriminate |].
    unfold bind, try_catch.
    destruct (startsWith _ "{"); [| discriminate].
    destruct (JSON_parse _) as [ex | parsed]; cbn [lift ret throw]; [discriminate |].
    destruct (prop parsed "message") as [ex | m]; cbn [lift ret throw];
      [discriminate |].
    destruct (truthy m); [discriminate |].
    destruct (prop parsed "error"); discriminate.
  - unfold bind at 1, text. destruct (bodyError r); [discriminate |]. cbn [ret].
    unfold bind, try_catch.
    destruct (JSON_parse _) as [ex | data]; cbn [lift ret throw]; [discriminate |].
    destruct (prop data "token") as [ex | tok]; cbn [lift ret throw];
      [discriminate |].
    destruct (truthy tok) eqn:E; cbn [negb]; [| discriminate].
    intros [= <- _]. exact E.
Qed.

Lemma getUserInfo_answer (accessToken : value) (w : World) :
  exists v,
    getUserInfo accessToken w
    = (Returned v, answered (userInfoRequest accessToken) w)
    /\ (v = Null
        \/ exists data,
             v = Obj [("id", opt_prop data "id");
                      ("login", opt_prop data "login");
                      ("name", opt_prop data "name");
                      ("avatarUrl", opt_prop data "avatar_url")])
    /\ (forall r, result (fetch (userInfoRequest accessToken)) w = Returned r ->
                  ok r = false -> v = Null).
Proof.
  unfold getUserInfo, try_catch, bind, answered, result.
  fold (userInfoRequest accessToken).
  destruct (fetch (userInfoRequest accessToken) w) as [[r | ex] w1]; cbn [snd fst].
  2:{ exists Null. split; [reflexivity |]. split; [now left | reflexivity]. }
  destruct (ok r) eqn:Hok; cbn [negb].
  2:{ exists Null. split; [reflexivity |]. split; [now left | reflexivity]. }
  unfold json, bind, text. destruct (bodyError r).
  { exists Null. split; [reflexivity |]. split; [now left |]. intros ? [= <-]. congruence. }
  cbn [ret]. destruct (JSON_parse _) as [ex | data]; cbn [lift ret throw].
  { exists Null. split; [reflexivity |]. split; [now left |]. intros ? [= <-]. congruence. }
  destruct (prop data "id") as [ex | id] eqn:Hid; cbn [lift ret throw].
  { exists Null. split; [reflexivity |]. split; [now left |]. intros ? [= <-]. congruence. }
  eexists. split; [reflexivity |]. split.
  - right. exists data. unfold prop in Hid.
    destruct data; try discriminate; injection Hid as <-; reflexivity.
  - intros ? [= <-]. congruence.
Qed.

(** [getUserInfo] never throws.  It sends one request, a GET to the user
    endpoint with the access token as bearer, and changes nothing else.
    The answer is null when the fetch fails, when the status is not 2xx,
    when the body cannot be read or is not JSON, and when the JSON is
    null; otherwise it is the [id], [login], [name] and [avatar_url] of
    the JSON answered, the last as [avatarUrl]. *)
Theorem getUserInfo_never_throws (accessToken : value) (w : World) :
  let request :=
    mkRequest "https://api.github.com/user" "GET"
      [("Authorization", ("Bearer " ++ ToString accessToken)%string);
       ("Accept", "application/json")]
      None in
  let run := getUserInfo accessToken in
  after run w = answered request w
  /\ requests (after run w) = (requests w ++ [request])%list
  /\ (exists v, result run w = Returned v)
  /\ (network w = [] -> result run w = Returned Null)
  /\ (forall x rest,
        network w = x :: rest ->
        (forall e, outcome x = inl e -> result run w = Returned Null)
        /\ (forall r,
              outcome x = inr r ->
              (ok r = false -> result run w = Returned Null)
              /\ (forall e, ok r = true -> bodyError r = Some e ->
                            result run w = Returned Null)
              /\ (forall e, ok r = true -> bodyError r = None ->
                            JSON_parse (concat_chunks (body r)) = inl e ->
                            result run w = Returned Null)
              /\ (forall data,
                    ok r = true -> bodyError r = None ->
                    JSON_parse (concat_chunks (body r)) = inr data ->
                    result run w
                    = Returned
                        (match data with
                         | Null | Undefined => Null
                         | _ => Obj [("id", opt_prop data "id");
                                     ("login", opt_prop data "login");
                                     ("name", opt_prop data "name");
                                     ("avatarUrl", opt_prop data "avatar_url")]
                         end)))).
Proof.
  intros request run. subst run.
  change request with (userInfoRequest accessToken). clear request.
  destruct (getUserInfo_answer accessToken w) as (v & Hrun & _).
  split; [unfold after; now rewrite Hrun |].
  split; [unfold after; rewrite Hrun; apply answered_requests |].
  split; [exists v; unfold result; now rewrite Hrun |].
  clear v Hrun.
  unfold result, getUserInfo, try_catch, bind.
  fold (userInfoRequest accessToken).
  split.
  - intro Hnet. unfold fetch. now rewrite Hnet.
  - intros x rest Hnet. split.
    + intros e Hout. unfold fetch. now rewrite Hnet, Hout.
    + intros r Hout.
      rewrite (fetch_response (userInfoRequest accessToken) w x rest r Hnet Hout).
      split; [intro Hok; now rewrite Hok |].
      split; [| split].
      * intros e Hok Hbody. rewrite Hok. cbn [negb].
        unfold json, bind, text. now rewrite Hbody.
      * intros e Hok Hbody Hparse. rewrite Hok. cbn [negb].
        unfold json, bind, text. rewrite Hbody. cbn [ret]. now rewrite Hparse.
      * intros data Hok Hbody Hparse. rewrite Hok. cbn [negb].
        unfold json, bind, text. rewrite Hbody. cbn [ret]. rewrite Hparse.
        cbn [lift ret]. destruct data; reflexivity.
Qed.

(** ** Disconnecting *)

Lemma stored_after_disconnect (w : World) :
  stored REALMS.GITHUB_COPILOT (after disconnect w) = None
  /\ stored REALMS.GITHUB_COPILOT_SESSION (after disconnect w) = None
  /\ requests (after disconnect w) = requests w
  /\ disconnect w = (Returned tt, after disconnect w).
Proof.
  destruct (loginsAvailable w) eqn:Hav.
  - pose proof (records_after_disconnect w Hav) as [H1 H2].
    assert (Hav' : loginsAvailable (after disconnect w) = true).
    { unfold after. now rewrite disconnect_available. }
    unfold stored. rewrite Hav'. unfold records in H1, H2. rewrite H1, H2.
    split; [reflexivity |]. split; [reflexivity |].
    unfold after. rewrite disconnect_available by assumption. now split.
  - assert (Hd : disconnect w = (Returned tt, w)).
    { unfold disconnect, bind. now rewrite !removeToken_unavailable. }
    unfold after. rewrite Hd. cbn [snd]. unfold stored. rewrite Hav.
    now repeat split.
Qed.

(** [disconnect] with the login manager at work removes the logins of
    the two realms and no other, and sends nothing.  From then on the
    add-on is not connected, whatever the clock, the network and the login
    manager do, as long as no token is stored again: [getSessionToken]
    throws the not-authenticated error and [hasValidSession] answers
    false, both without a request.  With the login manager out of order
    [disconnect] returns as well and has removed nothing. *)
Theorem disconnect_ends_session (w : World) :
  let w' := after disconnect w in
  disconnect w = (Returned tt, w')
  /\ requests w' = requests w
  /\ (loginsAvailable w = false -> w' = w)
  /\ (loginsAvailable w = true ->
      logins w'
      = filter (fun l => negb (in_realm REALMS.GITHUB_COPILOT l)
                         && negb (in_realm REALMS.GITHUB_COPILOT_SESSION l))
               (logins w)
      /\ records REALMS.GITHUB_COPILOT w' = []
      /\ records REALMS.GITHUB_COPILOT_SESSION w' = []
      /\ forall (available : bool) (t : Z) (net : list Exchange),
           let later := environment (logins w') available t net w' in
           getSessionToken later
           = (Thrown (Error "Not authenticated. Please connect to GitHub Copilot."),
              later)
           /\ hasValidSession later = (Returned false, later)).
Proof.
  intro w'. destruct (stored_after_disconnect w) as (_ & _ & Hreq & Hrun).
  fold w' in Hreq, Hrun.
  split; [exact Hrun |]. split; [exact Hreq |]. split.
  - intro Hav. unfold w', after, disconnect, bind.
    now rewrite !removeToken_unavailable.
  - intro Hav. destruct (records_after_disconnect w Hav) as [Ha Hs].
    fold w' in Ha, Hs.
    split.
    { unfold w', after. rewrite disconnect_available by assumption. cbn [snd].
      cbn [logins set_logins]. apply VaultFacts.filter_filter_and. }
    split; [exact Ha |]. split; [exact Hs |].
    intros available t net later.
    assert (Hsa : stored REALMS.GITHUB_COPILOT later = None).
    { unfold stored, later. cbn [loginsAvailable logins environment].
      unfold records in Ha. rewrite Ha. now destruct available. }
    assert (Hss : stored REALMS.GITHUB_COPILOT_SESSION later = None).
    { unfold stored, later. cbn [loginsAvailable logins environment].
      unfold records in Hs. rewrite Hs. now destruct available. }
    assert (Hget : getSessionToken later
                   = (Thrown (Error "Not authenticated. Please connect to GitHub Copilot."),
                      later)).
    { rewrite getSessionToken_needs_refresh by (now left).
      apply refreshSession_not_authenticated. now left. }
    split; [exact Hget |].
    unfold hasValidSession, try_catch, bind. now rewrite Hget.
Qed.

(** ** Which refused exchanges cost the credentials *)

(** A refresh whose exchange is refused.  A 401 deletes both records and
    asks to reconnect; a 403 or a 404 throws its own message and leaves
    the stored logins as they were; any other status throws the status and
    the start of the body, and deletes both records exactly when that text
    holds 401, invalid or expired. *)
Theorem refresh_refusals (w : World) (a : TokenRecord) (x : Exchange)
        (rest : list Exchange) (r : Response) :
  needs_refresh w ->
  stored REALMS.GITHUB_COPILOT w = Some a -> token a <> "" ->
  network w = x :: rest -> outcome x = inr r ->
  ok r = false -> bodyError r = None ->
  let w1 := answered (exchangeRequest (Str (token a))) w in
  let reconnect :=
    (Thrown (Error "GitHub session expired. Please reconnect to GitHub Copilot."),
     after disconnect w1) in
  logins w1 = logins w
  /\ (status r = 401 -> getSessionToken w = reconnect)
  /\ (status r = 403 ->
      getSessionToken w
      = (Thrown (Error "You do not have access to GitHub Copilot. Please ensure you have an active subscription."),
         w1))
  /\ (status r = 404 ->
      getSessionToken w
      = (Thrown (Error "GitHub Copilot is not enabled for your account. Please check your subscription."),
         w1))
  /\ (status r <> 401 -> status r <> 403 -> status r <> 404 ->
      let message := "HTTP " ++ Z_to_string (status r) ++ ": "
                     ++ substring0 100 (concat_chunks (body r)) in
      getSessionToken w
      = if auth_failure message then reconnect else (Thrown (Error message), w1)).
Proof.
  intros Hneed Ha Hne Hn Ho Hok Hbody w1 reconnect.
  pose proof (getCopilotToken_refused (Str (token a)) w x rest r Hn Ho Hok Hbody) as Hx.
  fold w1 in Hx. rewrite (getSessionToken_needs_refresh w Hneed).
  split; [apply answered_logins |].
  split; [| split; [| split]].
  - intro Hst. rewrite Hst in Hx. cbn [Z.eqb Pos.eqb] in Hx.
    now apply (refreshSession_auth_failure w a _ w1 Ha Hne Hx).
  - intro Hst. rewrite Hst in Hx. cbn [Z.eqb Pos.eqb] in Hx.
    now apply (refreshSession_other_failure w a _ w1 Ha Hne Hx).
  - intro Hst. rewrite Hst in Hx. cbn [Z.eqb Pos.eqb] in Hx.
    now apply (refreshSession_other_failure w a _ w1 Ha Hne Hx).
  - intros H401 H403 H404 message.
    destruct (Z.eqb_spec (status r) 401); [contradiction |].
    destruct (Z.eqb_spec (status r) 403); [contradiction |].
    destruct (Z.eqb_spec (status r) 404); [contradiction |].
    fold message in Hx.
    destruct (auth_failure message) eqn:Hf.
    + now apply (refreshSession_auth_failure w a _ w1 Ha Hne Hx).
    + now apply (refreshSession_other_failure w a _ w1 Ha Hne Hx).
Qed.

(** ** The whole authentication *)

Lemma storeToken_runs (realm token_ : string) (metadata_ : list (string * value))
      (w : World) :
  storeToken realm token_ metadata_ w
  = (Returned (loginsAvailable w), after (storeToken realm token_ metadata_) w).
Proof.
  unfold after. destruct (loginsAvailable w) eqn:Hav.
  - now rewrite storeToken_available.
  - now rewrite storeToken_unavailable.
Qed.

(** The steps behind an authentication that returns. *)
Lemma authenticate_returned (fuel : nat) (hs : bool) (w w' : World) (v : value) :
  authenticate fuel hs w = (Returned (Some v), w') ->
  exists started w1 accessToken w2 c w3 user,
    startDeviceFlow w = (Returned started, w1)
    /\ pollForToken fuel hs w1 = (Returned (Some accessToken), w2)
    /\ getCopilotToken accessToken w2 = (Returned c, w3)
    /\ getUserInfo accessToken w3
       = (Returned user, answered (userInfoRequest accessToken) w3)
    /\ w' = after (storeToken REALMS.GITHUB_COPILOT_SESSION
                              (ToString (copilotToken_token c))
                              [("expiresAt", of_number (copilotToken_expiresAt c))])
              (after (storeToken REALMS.GITHUB_COPILOT (ToString accessToken)
                                 [("user", user)])
                     (answered (userInfoRequest accessToken) w3))
    /\ v = Obj [("accessToken", accessToken);
                ("copilotToken",
                 Obj [("token", copilotToken_token c);
                      ("expiresAt", of_number (copilotToken_expiresAt c))]);
                ("user", user)].
Proof.
  unfold authenticate. unfold bind at 1.
  destruct (startDeviceFlow w) as [[started | e] w1] eqn:H1; [| discriminate].
  unfold bind at 1.
  destruct (pollForToken fuel hs w1) as [[[accessToken |] | e] w2] eqn:H2;
    [| discriminate | discriminate].
  unfold bind at 1.
  destruct (getCopilotToken accessToken w2) as [[c | e] w3] eqn:H3; [| discriminate].
  destruct (getUserInfo_answer accessToken w3) as (user & H4 & _).
  unfold bind at 1. rewrite H4.
  unfold bind at 1. rewrite storeToken_runs.
  unfold bind at 1. rewrite storeToken_runs.
  cbn [ret]. intros [= <- <-].
  exists started, w1, accessToken, w2, c, w3, user. now repeat split.
Qed.

(** The tokens are stored last: an authentication that throws, at any
    step, or is still waiting when the polls run out, leaves the stored
    logins as they were. *)
Theorem authenticate_stores_last (fuel : nat) (hs : bool) (w : World) :
  (forall v, result (authenticate fuel hs) w <> Returned (Some v)) ->
  logins (after (authenticate fuel hs) w) = logins w.
Proof.
  unfold result, after, authenticate. intro Hnot.
  pose proof (same_logins_kept startDeviceFlow same_logins_startDeviceFlow w)
    as [K1 _].
  unfold after in K1. unfold bind at 1 in Hnot. unfold bind at 1.
  destruct (startDeviceFlow w) as [[started | e] w1]; cbn [snd] in *; [| exact K1].
  pose proof (same_logins_kept (pollForToken fuel hs)
                (same_logins_pollForToken fuel hs) w1) as [K2 _].
  unfold after in K2. unfold bind at 1 in Hnot. unfold bind at 1.
  destruct (pollForToken fuel hs w1) as [[[accessToken |] | e] w2]; cbn [snd] in *;
    [| cbn [snd ret]; congruence | congruence].
  pose proof (same_logins_kept (getCopilotToken accessToken)
                (same_logins_getCopilotToken accessToken) w2) as [K3 _].
  unfold after in K3. unfold bind at 1 in Hnot. unfold bind at 1.
  destruct (getCopilotToken accessToken w2) as [[c | e] w3]; cbn [snd] in *;
    [| congruence].
  exfalso.
  destruct (getUserInfo_answer accessToken w3) as (user & H4 & _).
  unfold bind at 1 in Hnot. rewrite H4 in Hnot.
  unfold bind at 1 in Hnot. rewrite storeToken_runs in Hnot.
  unfold bind at 1 in Hnot. rewrite storeToken_runs in Hnot.
  cbn [ret fst] in Hnot. eapply Hnot. reflexivity.
Qed.

(** An authentication that returns, the login manager at hand.  Its
    tokens are truthy; each of the two realms holds one login, written at
    the end with the token as its password; the flow is gone.  When JSON
    carries the session metadata and the expiry is more than five minutes
    ahead, [getSessionToken] answers the new token at once, without a
    request. *)
Theorem authenticate_connects (fuel : nat) (hs : bool) (w w' : World) (v : value) :
  loginsAvailable w = true ->
  authenticate fuel hs w = (Returned (Some v), w') ->
  exists accessToken tok expiresAt user,
    v = Obj [("accessToken", accessToken);
             ("copilotToken", Obj [("token", tok); ("expiresAt", expiresAt)]);
             ("user", user)]
    /\ truthy accessToken = true
    /\ truthy tok = true
    /\ records REALMS.GITHUB_COPILOT w'
       = [written REALMS.GITHUB_COPILOT (ToString accessToken) [("user", user)]
                  (clock w')]
    /\ records REALMS.GITHUB_COPILOT_SESSION w'
       = [written REALMS.GITHUB_COPILOT_SESSION (ToString tok)
                  [("expiresAt", expiresAt)] (clock w')]
    /\ currentFlow w' = None
    /\ (forall n,
          expiresAt = Num n ->
          JSON_parse (JSON_stringify (stamped [("expiresAt", Num n)] (clock w')))
          = inr (stamped [("expiresAt", Num n)] (clock w')) ->
          clock w' + bufferTime < n ->
          getSessionToken w' = (Returned (Str (ToString tok)), w')).
Proof.
  intros Hav Hrun.
  destruct (authenticate_returned fuel hs w w' v Hrun)
    as (started & w1 & accessToken & w2 & c & w3 & user
        & H1 & H2 & H3 & H4 & Hw' & Hv).
  set (w4 := answered (userInfoRequest accessToken) w3) in *.
  set (w5 := after (storeToken REALMS.GITHUB_COPILOT (ToString accessToken)
                               [("user", user)]) w4) in *.
  (* the login manager stays at hand and the flow stays cleared *)
  pose proof (same_logins_kept startDeviceFlow same_logins_startDeviceFlow w)
    as [_ A1]. unfold after in A1. rewrite H1 in A1. cbn [snd] in A1.
  pose proof (same_logins_kept (pollForToken fuel hs)
                (same_logins_pollForToken fuel hs) w1) as [_ A2].
  unfold after in A2. rewrite H2 in A2. cbn [snd] in A2.
  pose proof (same_logins_kept (getCopilotToken accessToken)
                (same_logins_getCopilotToken accessToken) w2) as [_ A3].
  unfold after in A3. rewrite H3 in A3. cbn [snd] in A3.
  assert (Hav4 : loginsAvailable w4 = true).
  { unfold w4. rewrite (proj2 (answered_logins _ w3)). congruence. }
  assert (Hav5 : loginsAvailable w5 = true).
  { unfold w5. now rewrite available_after_store. }
  assert (Hc5 : clock w5 = clock w4) by (unfold w5; apply clock_after_store).
  assert (Hc' : clock w' = clock w4) by (rewrite Hw', clock_after_store; exact Hc5).
  destruct (pollForToken_flow fuel hs w1 w2 accessToken H2) as [Htok Hflow2].
  assert (Hflow3 : currentFlow w3 = None).
  { pose proof (getCopilotToken_world accessToken w2) as Hw. unfold after in Hw.
    rewrite H3 in Hw. cbn [snd] in Hw. rewrite Hw, answered_currentFlow.
    exact Hflow2. }
  assert (Hflow' : currentFlow w' = None).
  { rewrite Hw'. unfold after, w5, after.
    rewrite !storeToken_available by assumption. cbn.
    unfold w4. now rewrite answered_currentFlow. }
  assert (Hs : records REALMS.GITHUB_COPILOT_SESSION w'
               = [written REALMS.GITHUB_COPILOT_SESSION
                          (ToString (copilotToken_token c))
                          [("expiresAt", of_number (copilotToken_expiresAt c))]
                          (clock w')]).
  { rewrite Hw' at 1. unfold records, after.
    rewrite logins_after_store by assumption. now rewrite Hc', Hc5. }
  assert (Ha : records REALMS.GITHUB_COPILOT w'
               = [written REALMS.GITHUB_COPILOT (ToString accessToken)
                          [("user", user)] (clock w')]).
  { rewrite Hw' at 1.
    rewrite (VaultFacts.records_after_store_other REALMS.GITHUB_COPILOT_SESSION
               REALMS.GITHUB_COPILOT _ _ w5 ltac:(discriminate)).
    unfold w5, records, after. rewrite logins_after_store by assumption.
    now rewrite Hc'. }
  exists accessToken, (copilotToken_token c),
         (of_number (copilotToken_expiresAt c)), user.
  split; [exact Hv |]. split; [exact Htok |].
  split; [exact (getCopilotToken_truthy accessToken w2 w3 c H3) |].
  split; [exact Ha |]. split; [exact Hs |]. split; [exact Hflow' |].
  intros n Hn Hjson Hfresh.
  assert (Hav' : loginsAvailable w' = true).
  { rewrite Hw'. now rewrite available_after_store. }
  apply (getSessionToken_fresh w'
           (mkTokenRecord (ToString (copilotToken_token c))
                          (stamped [("expiresAt", Num n)] (clock w')))
           (Num n)).
  - unfold stored. rewrite Hav'. unfold records in Hs. rewrite Hs.
    unfold written, createLoginInfo. cbn [username password]. rewrite Hn.
    unfold stamped in Hjson. now rewrite Hjson.
  - reflexivity.
  - unfold gt_number. cbn [ToNumber].
    destruct (Z.gtb_spec n (clock w' + bufferTime)); [reflexivity | lia].
Qed.

End WithHost.

Import Scenarios.

(** The user refuses: the poll rejects and the flow is cleared. *)
Lemma poll_rejections_witness :
  let denied := answer 20 200 (RefHost.dq "{'error':'access_denied'}") in
  let w := mkWorld [] true t0 [denied] [] None 0 (Some aFlow) [] [] in
  poll (host := RefHost.host) true (deviceCode aFlow)
       (pollInterval_of (host := RefHost.host) aFlow)
       (expiresAt_of (host := RefHost.host) aFlow) w
  = (Returned (Reject (Error "Access denied by user.")),
     set_currentFlow None
       (answered (pollRequest (host := RefHost.host) (deviceCode aFlow)) w)).
Proof.
  intros denied w.
  refine (proj1 (proj2
            (proj2 (proj2 (proj2 (proj2
               (poll_rejections (host := RefHost.host) true (deviceCode aFlow)
                  (pollInterval_of (host := RefHost.host) aFlow)
                  (expiresAt_of (host := RefHost.host) aFlow) w denied [] _ eq_refl))))
               (mkResponse 200 "" None [RefHost.dq "{'error':'access_denied'}"] None)
               (Obj [("error", Str "access_denied")]) (Str "access_denied")
               eq_refl eq_refl _ eq_refl)) eq_refl).
  - vm_compute. discriminate.
  - vm_compute. reflexivity.
Defined.

(** The flow of the examples, polled from its start: 182 runs are enough
    for a code good for fifteen minutes. *)
Lemma pollForToken_settles_witness :
  (exists v, result (pollForToken (host := RefHost.host) 182 true) pollingWorld
             = Returned (Some v))
  \/ (exists e, result (pollForToken (host := RefHost.host) 182 true) pollingWorld
                = Thrown e).
Proof.
  refine (proj1 (pollForToken_settles (host := RefHost.host) 182 true pollingWorld
                   aFlow (t0 + 900000) 5 eq_refl eq_refl eq_refl _ _)).
  - repeat constructor; simpl; lia.
  - vm_compute. discriminate.
Defined.

(** The first poll of that flow finds the user not ready and waits the
    five seconds the server asked for. *)
Lemma poll_waits_five_seconds_witness :
  result (poll (host := RefHost.host) true (deviceCode aFlow)
               (pollInterval_of (host := RefHost.host) aFlow)
               (expiresAt_of (host := RefHost.host) aFlow)) pollingWorld
  = Returned (Schedule (Some 5000)).
Proof.
  unfold result.
  rewrite (proj1 (proj2 (proj2 (proj2
             (poll_waits_five_seconds (host := RefHost.host) true aFlow 5
                pollingWorld eq_refl)))
             pendingAnswer [approvedAnswer]
             (mkResponse 200 "" None
                [RefHost.dq "{'error':'authorization_pending'}"] None)
             (Obj [("error", Str "authorization_pending")])
             ltac:(vm_compute; discriminate) eq_refl eq_refl eq_refl
             ltac:(vm_compute; reflexivity))
          eq_refl).
  reflexivity.
Defined.

(** The loop on that flow resolves with the access token at the second
    poll, and the flow is gone. *)
Lemma pollForToken_resolved_witness :
  truthy (Str "gho_access") = true
  /\ currentFlow (after (pollForToken (host := RefHost.host) 5 true) pollingWorld)
     = None.
Proof.
  destruct (pollForToken_resolved (host := RefHost.host) 5 true pollingWorld
              (after (pollForToken (host := RefHost.host) 5 true) pollingWorld)
              (Str "gho_access") ltac:(vm_compute; reflexivity))
    as (Ht & Hflow & _).
  exact (conj Ht Hflow).
Defined.

(** An answer without an interval starts a flow polled every 5 seconds. *)
Lemma startDeviceFlow_outcomes_witness :
  currentFlow (after (startDeviceFlow (host := RefHost.host))
                     (freshWorld t0 [codeWithoutInterval]))
  = Some (mkDeviceFlow (Str "dc") (Str "AB-12")
                       (Str "https://github.com/login/device") (Num 900) (Num 5)
                       (t0 + 10)).
Proof.
  unfold after.
  rewrite (proj2
             (proj1 (proj2 (proj2 (proj2 (proj2
                (startDeviceFlow_outcomes (host := RefHost.host)
                   (freshWorld t0 [codeWithoutInterval]))))))
                codeWithoutInterval []
                (mkResponse 200 "" None
                   [RefHost.dq "{'device_code':'dc','user_code':'AB-12','verification_uri':'https://github.com/login/device','expires_in':900}"]
                   None)
                (Obj [("device_code", Str "dc"); ("user_code", Str "AB-12");
                      ("verification_uri", Str "https://github.com/login/device");
                      ("expires_in", Num 900)])
                Undefined
                eq_refl eq_refl eq_refl eq_refl ltac:(vm_compute; reflexivity) eq_refl)
             eq_refl).
  reflexivity.
Defined.

(** The user as answered, and null for an answer that is the JSON null. *)
Lemma getUserInfo_never_throws_witness :
  result (getUserInfo (host := RefHost.host) (Str "gho_access"))
         (freshWorld t0 [userAnswer])
  = Returned (Obj [("id", Num 7); ("login", Str "octo"); ("name", Str "Octo Cat");
                   ("avatarUrl", Str "u")])
  /\ result (getUserInfo (host := RefHost.host) (Str "gho_access"))
            (freshWorld t0 [answer 15 200 "null"])
     = Returned Null.
Proof.
  split.
  - rewrite (proj2 (proj2 (proj2
               (proj2
                  (proj2 (proj2 (proj2 (proj2
                     (getUserInfo_never_throws (host := RefHost.host) (Str "gho_access")
                        (freshWorld t0 [userAnswer])))))
                     userAnswer [] eq_refl)
                  (mkResponse 200 "" None
                     [RefHost.dq "{'id':7,'login':'octo','name':'Octo Cat','avatar_url':'u'}"]
                     None)
                  eq_refl)))
               (Obj [("id", Num 7); ("login", Str "octo"); ("name", Str "Octo Cat");
                     ("avatar_url", Str "u")])
               eq_refl eq_refl ltac:(vm_compute; reflexivity)).
    reflexivity.
  - rewrite (proj2 (proj2 (proj2
               (proj2
                  (proj2 (proj2 (proj2 (proj2
                     (getUserInfo_never_throws (host := RefHost.host) (Str "gho_access")
                        (freshWorld t0 [answer 15 200 "null"])))))
                     (answer 15 200 "null") [] eq_refl)
                  (mkResponse 200 "" None ["null"] None)
                  eq_refl)))
               Null
               eq_refl eq_refl ltac:(vm_compute; reflexivity)).
    reflexivity.
Defined.

(** A connected add-on that disconnects: both logins are gone, and an
    hour later, with the token endpoint ready to grant, there is still no
    session. *)
Lemma disconnect_ends_session_witness :
  let w := connectedWorld [] in
  let w' := after disconnect w in
  let later := environment (logins w') true (t0 + minutes 60) [grant] w' in
  result (hasValidSession (host := RefHost.host)) w = Returned true
  /\ logins w' = []
  /\ hasValidSession (host := RefHost.host) later = (Returned false, later).
Proof.
  intros w w' later.
  destruct (proj2 (proj2 (proj2 (disconnect_ends_session (host := RefHost.host) w)))
              eq_refl) as (_ & _ & _ & Hlater).
  split; [vm_compute; reflexivity |].
  split; [vm_compute; reflexivity |].
  exact (proj2 (Hlater true (t0 + minutes 60) [grant])).
Defined.

(** A 500 whose body is a JSON error: the message thrown is the status
    and the body, not the message of the JSON. *)
Lemma getCopilotToken_failures_witness :
  let body_ := RefHost.dq "{'message':'upstream timeout'}" in
  result (getCopilotToken (host := RefHost.host) (Str "gho_access"))
         (freshWorld t0 [answer 40 500 body_])
  = Thrown (Error ("HTTP 500: " ++ body_)).
Proof.
  intro body_. unfold result.
  rewrite (proj1 (getCopilotToken_failures (host := RefHost.host) (Str "gho_access")
                    (freshWorld t0 [answer 40 500 body_]) (answer 40 500 body_) []
                    (mkResponse 500 "" None [body_] None) eq_refl eq_refl eq_refl)
                 eq_refl).
  reflexivity.
Defined.

(** A 403 at the refresh: the error says so and both logins are still
    there. *)
Lemma refresh_refusals_witness :
  let w := staleWorld (answer 40 403 "Forbidden") in
  result (getSessionToken (host := RefHost.host)) w
  = Thrown (Error "You do not have access to GitHub Copilot. Please ensure you have an active subscription.")
  /\ logins (after (getSessionToken (host := RefHost.host)) w)
     = [sessionLogin 3; accessLogin].
Proof.
  intro w.
  destruct (refresh_refusals (host := RefHost.host) w accessRecord
              (answer 40 403 "Forbidden") []
              (mkResponse 403 "" None ["Forbidden"] None)
              ltac:(right; exists (sessionRecord 3), (Num (t0 + minutes 3));
                    split; [vm_compute; reflexivity |];
                    split; vm_compute; reflexivity)
              ltac:(vm_compute; reflexivity) ltac:(discriminate)
              eq_refl eq_refl eq_refl eq_refl)
    as (Hl & _ & H403 & _).
  unfold result, after. rewrite (H403 eq_refl). cbn [fst snd].
  split; [reflexivity | exact Hl].
Defined.

(** With no answer to the device-code request the authentication throws
    and the stored logins are as they were. *)
Lemma authenticate_stores_last_witness :
  logins (after (authenticate (host := RefHost.host) 10 true)
                (worldWith [accessLogin] t0 []))
  = [accessLogin].
Proof.
  exact (authenticate_stores_last (host := RefHost.host) 10 true
           (worldWith [accessLogin] t0 [])
           ltac:(intro v; vm_compute; discriminate)).
Defined.

(** The sign-in of [signIn] on a fresh add-on: both tokens are stored and
    the flow is gone. *)
Lemma authenticate_connects_witness :
  let w' := after (authenticate (host := RefHost.host) 10 true)
                  (freshWorld t0 signIn) in
  map password (records REALMS.GITHUB_COPILOT w') = ["gho_access"]
  /\ map password (records REALMS.GITHUB_COPILOT_SESSION w') = ["session-new"]
  /\ currentFlow w' = None.
Proof.
  intro w'.
  destruct (authenticate_connects (host := RefHost.host) 10 true
              (freshWorld t0 signIn) w'
              (match result (authenticate (host := RefHost.host) 10 true)
                            (freshWorld t0 signIn)
               with Returned (Some v) => v | _ => Null end)
              eq_refl ltac:(vm_compute; reflexivity))
    as (accessToken & tok & expiresAt & user & _ & _ & _ & _ & _ & Hflow & _).
  split; [vm_compute; reflexivity |].
  split; [vm_compute; reflexivity | exact Hflow].
Defined.

End DeviceFlowFacts.

(* ================================================================== *)
(** * Facts: messages, catalog payloads and the resolved model *)
(* ================================================================== *)

Module MessageFacts.

Import CopilotClient JSFacts Views Traces Examples.
Import ResolutionFacts CatalogFacts InvariantFacts.

Section WithHost.
Context {host : Host}.

(** ** Normalising messages *)

Lemma prop_defined (v : value) (k : string) (x : value) :
  prop v k = inr x -> x = opt_prop v k.
Proof. unfold prop. destruct v; intros [=]; now subst. Qed.

Lemma or_else_twice (a b : value) :
  truthy b = false -> or_else (or_else a b) b = or_else a b.
Proof.
  intro Hb. unfold or_else. destruct (truthy a) eqn:Ea.
  - now rewrite Ea.
  - now rewrite Hb.
Qed.

Lemma isArray_or_else (a : value) :
  isArray a = false -> isArray (or_else a (Str "")) = false.
Proof. intro H. unfold or_else. now destruct (truthy a). Qed.

Lemma normalizeMessage_again (m n : value) :
  normalizeMessage m = inr n -> normalizeMessage n = inr n.
Proof.
  unfold normalizeMessage at 1.
  destruct (prop m "content") as [e | content] eqn:Hc; [discriminate |].
  destruct (isArray content) eqn:Ha.
  - intros [= <-]. unfold normalizeMessage. now rewrite Hc, Ha.
  - destruct (opt_prop m "images") as [| | | | | | [| image images] |];
      intros [= <-]; unfold normalizeMessage; cbn [prop opt_prop lookup String.eqb Ascii.eqb Bool.eqb isArray];
      try (rewrite (isArray_or_else content Ha);
           rewrite or_else_twice by reflexivity; reflexivity);
      reflexivity.
Qed.

Lemma map_throwing_again (items items' : list value) :
  map_throwing normalizeMessage items = inr items' ->
  map_throwing normalizeMessage items' = inr items'.
Proof.
  revert items'. induction items as [| m rest IH]; intros items'; cbn [map_throwing].
  - now intros [= <-].
  - destruct (normalizeMessage m) as [e | n] eqn:Hm; [discriminate |].
    destruct (map_throwing normalizeMessage rest) as [e | ns] eqn:Hr; [discriminate |].
    intros [= <-]. cbn [map_throwing].
    now rewrite (normalizeMessage_again m n Hm), (IH ns eq_refl).
Qed.

(** Normalising is idempotent: messages that were normalised come out of
    a second pass as they are. *)
Theorem normalizeMessagesForVision_idempotent (messages normalized : value) :
  normalizeMessagesForVision messages = inr normalized ->
  normalizeMessagesForVision normalized = inr normalized.
Proof.
  unfold normalizeMessagesForVision at 1.
  destruct messages as [| | | | | | items |]; try (intros [= <-]; reflexivity).
  destruct (map_throwing normalizeMessage items) as [e | items'] eqn:Hm;
    [discriminate |].
  intros [= <-]. unfold normalizeMessagesForVision.
  now rewrite (map_throwing_again items items' Hm).
Qed.

(** ** The vision flag *)

Lemma prop_of_defined (v : value) (k k' : string) (x : value) :
  prop v k = inr x -> prop v k' = inr (opt_prop v k').
Proof. unfold prop. destruct v; intros [=]; reflexivity. Qed.

Lemma messageHasVision_normalized (m n : value) :
  normalizeMessage m = inr n ->
  messageHasVision n = messageHasVision m
  /\ exists b, messageHasVision m = inr b.
Proof.
  unfold normalizeMessage.
  destruct (prop m "content") as [e | content] eqn:Hc; [discriminate |].
  pose proof (prop_of_defined m "content" "images" content Hc) as Hi.
  pose proof (prop_defined m "content" content Hc) as Hcontent.
  destruct (isArray content) eqn:Ha.
  - intros [= <-]. split; [reflexivity |]. unfold messageHasVision. rewrite Hi.
    destruct (opt_prop m "images") as [| | | | | | [| image images] |];
      destruct (opt_prop m "content"); eexists; reflexivity.
  - assert (Hplain : forall c, isArray c = false ->
              match c with
              | Arr parts =>
                  @inr exn bool
                    (existsb (fun part => truthy part
                                          && strict_eq (opt_prop part "type")
                                                       (Str "image_url")) parts)
              | _ => inr false
              end = inr false).
    { intros c Hcarr. destruct c; try reflexivity; discriminate. }
    unfold messageHasVision. rewrite Hi. rewrite <- Hcontent.
    destruct (opt_prop m "images") as [| | | | | | [| image images] |];
      intros [= <-]; cbn [prop opt_prop lookup String.eqb Ascii.eqb Bool.eqb];
      rewrite ?(Hplain content Ha),
              ?(Hplain (or_else content (Str "")) (isArray_or_else content Ha));
      (split; [reflexivity | eexists; reflexivity]).
Qed.

Lemma some_throwing_normalized (items items' : list value) :
  map_throwing normalizeMessage items = inr items' ->
  some_throwing messageHasVision items' = some_throwing messageHasVision items
  /\ exists b, some_throwing messageHasVision items = inr b.
Proof.
  revert items'. induction items as [| m rest IH]; intros items'; cbn [map_throwing].
  - intros [= <-]. split; [reflexivity | now exists false].
  - destruct (normalizeMessage m) as [e | n] eqn:Hm; [discriminate |].
    destruct (map_throwing normalizeMessage rest) as [e | ns] eqn:Hr; [discriminate |].
    intros [= <-]. cbn [some_throwing].
    destruct (messageHasVision_normalized m n Hm) as [Heq [b Hb]].
    destruct (IH ns eq_refl) as [IH1 [b' IH2]].
    rewrite Heq, Hb. destruct b.
    + split; [reflexivity | now exists true].
    + split; [exact IH1 | now exists b'].
Qed.

(** Normalising keeps the vision flag: on normalised messages
    [hasVisionRequest] answers what it answers on the messages of the
    caller, and it does not throw. *)
Theorem hasVisionRequest_normalized (messages normalized : value) :
  normalizeMessagesForVision messages = inr normalized ->
  hasVisionRequest normalized = hasVisionRequest messages
  /\ exists b, hasVisionRequest messages = inr b.
Proof.
  unfold normalizeMessagesForVision.
  destruct messages as [| | | | | | items |];
    try (intros [= <-]; split; [reflexivity | now exists false]).
  destruct (map_throwing normalizeMessage items) as [e | items'] eqn:Hm;
    [discriminate |].
  intros [= <-]. unfold hasVisionRequest.
  now apply some_throwing_normalized.
Qed.

(** ** Catalog payloads *)

Lemma filter_truthy_names (names : list string) :
  Forall (fun n => n <> "") names ->
  filter truthy (map Str names) = map Str names.
Proof.
  induction 1 as [| n names Hn _ IH]; cbn [map filter]; [reflexivity |].
  now rewrite (proj2 (truthy_Str n) Hn), IH.
Qed.

Lemma extract_names (names : list string) :
  Forall (fun n => n <> "") names ->
  flat_map extract (map Str names) = map Str names.
Proof.
  induction 1 as [| n names Hn _ IH]; cbn [map flat_map]; [reflexivity |].
  unfold extract at 1. rewrite (proj2 (truthy_Str n) Hn). cbn [negb is_string app].
  now rewrite IH.
Qed.

Lemma extract_entries (k : string) (names : list string) :
  k = "id" \/ k = "model" \/ k = "name" ->
  Forall (fun n => n <> "") names ->
  flat_map extract (map (fun n => Obj [(k, Str n)]) names) = map Str names.
Proof.
  intros Hk. induction 1 as [| n names Hn _ IH]; cbn [map flat_map]; [reflexivity |].
  rewrite IH. pose proof (proj2 (truthy_Str n) Hn) as Ht.
  destruct Hk as [-> | [-> | ->]]; unfold extract;
    cbn [truthy negb is_string opt_prop lookup String.eqb Ascii.eqb Bool.eqb];
    cbn [truthy] in Ht; rewrite Ht; reflexivity.
Qed.

(** The shapes of a catalog answer.  For model names that are not empty,
    [extractModelIds] gives the names, in order, when the payload is the
    array of the names, or an array of objects that name the model under
    [id], [model] or [name], and when such an array is under the key
    [data] or the key [models] of an object.  In an entry [id] goes before
    [model] and [model] before [name]; null, undefined and a payload that
    is no object give no name. *)
Theorem extractModelIds_shapes (names : list string) :
  Forall (fun n => n <> "") names ->
  extractModelIds (Arr (map Str names)) = map Str names
  /\ extractModelIds (Obj [("data", Arr (map Str names))]) = map Str names
  /\ extractModelIds (Obj [("models", Arr (map Str names))]) = map Str names
  /\ (forall k,
        k = "id" \/ k = "model" \/ k = "name" ->
        let entries := Arr (map (fun n => Obj [(k, Str n)]) names) in
        extractModelIds entries = map Str names
        /\ extractModelIds (Obj [("data", entries)]) = map Str names
        /\ extractModelIds (Obj [("models", entries)]) = map Str names)
  /\ (forall a b c,
        a <> "" -> b <> "" ->
        extract (Obj [("name", Str c); ("model", Str b); ("id", Str a)]) = [Str a]
        /\ extract (Obj [("name", Str c); ("model", Str b)]) = [Str b])
  /\ extractModelIds Null = []
  /\ extractModelIds Undefined = []
  /\ (forall s, extractModelIds (Str s) = [])
  /\ (forall n, extractModelIds (Num n) = []).
Proof.
  intro Hn.
  pose proof (filter_truthy_names names Hn) as Hf.
  pose proof (extract_names names Hn) as He.
  split; [| split; [| split; [| split; [| split]]]].
  - unfold extractModelIds. now rewrite He.
  - unfold extractModelIds. cbn [opt_prop lookup String.eqb Ascii.eqb Bool.eqb].
    now rewrite He.
  - unfold extractModelIds. cbn [opt_prop lookup String.eqb Ascii.eqb Bool.eqb].
    now rewrite He.
  - intros k Hk entries. subst entries.
    pose proof (extract_entries k names Hk Hn) as Hk'.
    unfold extractModelIds. cbn [opt_prop lookup String.eqb Ascii.eqb Bool.eqb].
    rewrite Hk'. now repeat split.
  - intros a b c Ha Hb.
    pose proof (proj2 (truthy_Str a) Ha) as Hta.
    pose proof (proj2 (truthy_Str b) Hb) as Htb.
    cbn [truthy] in Hta, Htb. unfold extract.
    cbn [truthy negb is_string opt_prop lookup String.eqb Ascii.eqb Bool.eqb].
    rewrite Hta, Htb. now split.
  - repeat split.
Qed.

(** ** The resolved model is one of the catalog *)

Lemma or_else_truthy (a b : value) : truthy a = true -> or_else a b = a.
Proof. intro H. unfold or_else. now rewrite H. Qed.

Lemma pickFallbackModelFrom_In (ranking : list string) (available : list value) :
  is_catalog available -> In (pickFallbackModelFrom ranking available) available.
Proof.
  intros [Hne Hall]. unfold pickFallbackModelFrom.
  destruct (pickRanked ranking available) as [c |] eqn:E.
  - now apply pickRanked_In in E as [_ Hin].
  - destruct available as [| x rest]; [contradiction |].
    inversion Hall; subst. cbn [first]. rewrite or_else_truthy by assumption.
    now left.
Qed.

Lemma resolveModelIn_In (ranking : list string) (available : list value)
      (requested : string) :
  is_catalog available ->
  In (resolveModelIn ranking available requested) available
  /\ (In (Str requested) available ->
      resolveModelIn ranking available requested = Str requested).
Proof.
  intros Hcat. pose proof Hcat as [Hne Hall].
  assert (Hreq : In (Str requested) available ->
                 resolveModelIn ranking available requested = Str requested).
  { intro Hin. unfold resolveModelIn.
    destruct available as [| x rest]; [contradiction |].
    rewrite (proj2 (includes_str_In _ _) Hin).
    rewrite Forall_forall in Hall. now rewrite (Hall _ Hin). }
  split; [| exact Hreq].
  destruct (includes_str available requested) eqn:Hinc.
  - apply includes_str_In in Hinc. now rewrite (Hreq Hinc).
  - unfold resolveModelIn. destruct available as [| x rest]; [contradiction |].
    cbn [length Nat.eqb]. rewrite Hinc, andb_false_r.
    pose proof (pickFallbackModelFrom_In ranking (x :: rest) Hcat) as Hin.
    rewrite or_else_truthy; [exact Hin |].
    now apply pickFallbackModelFrom_truthy.
Qed.

(** In every world the add-on can reach, the model [resolveModel] answers
    is one of the catalog [getAvailableModels] gives there, the requested
    one when the catalog lists it; [pickFallbackModel] too picks from the
    catalog.  No request goes out with a model the catalog does not
    list. *)
Theorem resolveModel_in_catalog (requested : string) (w : World) :
  reachable w ->
  exists models m w',
    getAvailableModels w = (Returned models, w')
    /\ resolveModel requested w = (Returned m, w')
    /\ In m models
    /\ (In (Str requested) models -> m = Str requested)
    /\ In (pickFallbackModel models) models.
Proof.
  intro Hreach. pose proof (reachable_cache_ok w Hreach) as Hok.
  destruct (getAvailableModels_catalog w Hok) as (models & w' & Hg & Hcat & _).
  exists models, (resolveModelIn FALLBACK_MODELS models requested), w'.
  destruct (resolveModelIn_In FALLBACK_MODELS models requested Hcat) as [Hin Hreq].
  split; [exact Hg |].
  split; [unfold resolveModel, bind; now rewrite Hg |].
  split; [exact Hin |]. split; [exact Hreq |].
  now apply pickFallbackModelFrom_In.
Qed.

(** C5.  In every world the add-on can reach, [resolveModel] works on the
    catalog [getAvailableModels] gives there, which is never empty, with
    the ranked list claude-sonnet-4.5, gpt-5, gpt-5-mini, gpt-4.1,
    gemini-2.5-pro.  On that catalog and for every ranking, the answer is
    the requested model when the catalog lists it; otherwise the first
    entry of the ranking that the catalog lists; otherwise the first entry
    of the catalog. *)
Theorem C5_resolveModel (requested : string) (w : World) :
  reachable w ->
  exists models w',
    getAvailableModels w = (Returned models, w')
    /\ models <> []
    /\ (forall ranking : list string,
          let m := resolveModelIn ranking models requested in
          (In (Str requested) models -> m = Str requested)
          /\ (~ In (Str requested) models ->
              forall pre c post,
                ranking = (pre ++ c :: post)%list ->
                In (Str c) models ->
                (forall p, In p pre -> ~ In (Str p) models) ->
                m = Str c)
          /\ (~ In (Str requested) models ->
              (forall c, In c ranking -> ~ In (Str c) models) ->
              forall x rest, models = x :: rest -> m = x))
    /\ resolveModel requested w
       = (Returned
            (resolveModelIn
               ["claude-sonnet-4.5"; "gpt-5"; "gpt-5-mini"; "gpt-4.1"; "gemini-2.5-pro"]
               models requested),
          w').
Proof.
  intro Hreach. pose proof (reachable_cache_ok w Hreach) as Hok.
  destruct (getAvailableModels_catalog w Hok) as (models & w' & Hg & [Hne Hall] & _).
  exists models, w'. split; [exact Hg |]. split; [exact Hne |]. split.
  - intros ranking m.
    destruct (resolveModelIn_cases ranking models requested Hall)
      as (H1 & H2 & H3 & _).
    split; [exact H1 |]. split; [exact H2 | exact H3].
  - unfold resolveModel, bind. now rewrite Hg.
Qed.

(** ** The model of the retry *)

Lemma strict_eq_Str_true (v : value) (s : string) :
  strict_eq v (Str s) = true <-> v = Str s.
Proof.
  destruct v; cbn; split; intro H; try discriminate.
  - apply String.eqb_eq in H. now subst.
  - injection H as ->. apply String.eqb_refl.
Qed.

Lemma firstOther_ranked (current : string) :
  firstOther FALLBACK_MODELS (Str current)
  = Str (if (current =? "claude-sonnet-4.5")%string then "gpt-5"
         else "claude-sonnet-4.5").
Proof.
  unfold FALLBACK_MODELS. cbn [firstOther strict_eq].
  rewrite (String.eqb_sym "claude-sonnet-4.5" current).
  destruct (String.eqb_spec current "claude-sonnet-4.5") as [-> | Hne];
    reflexivity.
Qed.

Lemma findFallbackModelIn_choice (available : list value) (current : string) :
  is_catalog available ->
  let pick := pickFallbackModel available in
  let fb := findFallbackModelIn FALLBACK_MODELS available (Str current) in
  (pick <> Str current -> fb = pick /\ In fb available)
  /\ (pick = Str current ->
      fb = Str (if (current =? "claude-sonnet-4.5")%string then "gpt-5"
                else "claude-sonnet-4.5"))
  /\ fb <> Str current.
Proof.
  intros Hcat pick fb. pose proof Hcat as [Hne Hall].
  assert (Hlen : negb (length available =? 0)%nat = true).
  { destruct available; [contradiction | reflexivity]. }
  assert (Ht : truthy pick = true)
    by (now apply pickFallbackModelFrom_truthy).
  assert (Hfb : fb = if negb (strict_eq pick (Str current)) then pick
                     else firstOther FALLBACK_MODELS (Str current)).
  { unfold fb, findFallbackModelIn. fold (pickFallbackModel available). fold pick.
    now rewrite Hlen, Ht. }
  split; [| split].
  - intro Hdiff. destruct (strict_eq pick (Str current)) eqn:E.
    + apply strict_eq_Str_true in E. contradiction.
    + cbn [negb] in Hfb. rewrite Hfb. split; [reflexivity |].
      now apply pickFallbackModelFrom_In.
  - intro Hsame.
    rewrite (proj2 (strict_eq_Str_true pick current) Hsame) in Hfb.
    cbn [negb] in Hfb. now rewrite Hfb, firstOther_ranked.
  - destruct (findFallbackModelIn_other available (Str current)) as [_ Hs].
    fold fb in Hs. intro Heq. rewrite Heq in Hs. cbn in Hs.
    now rewrite String.eqb_refl in Hs.
Qed.

(** The model [findFallbackModel] proposes for a retry, in every world
    the add-on can reach.  It is what [pickFallbackModel] picks from the
    catalog, which is one of the catalog, unless that is the model just
    tried; then it is the head of the ranked list, or gpt-5 when the head
    was the model tried, whether or not the catalog lists it and whatever
    else the catalog lists.  It is never the model just tried. *)
Theorem findFallbackModel_choice (current : string) (w : World) :
  reachable w ->
  exists models fb w',
    getAvailableModels w = (Returned models, w')
    /\ findFallbackModel (Str current) w = (Returned fb, w')
    /\ (pickFallbackModel models <> Str current ->
        fb = pickFallbackModel models /\ In fb models)
    /\ (pickFallbackModel models = Str current ->
        fb = Str (if (current =? "claude-sonnet-4.5")%string then "gpt-5"
                  else "claude-sonnet-4.5"))
    /\ fb <> Str current.
Proof.
  intro Hreach. pose proof (reachable_cache_ok w Hreach) as Hok.
  destruct (getAvailableModels_catalog w Hok) as (models & w' & Hg & Hcat & _).
  exists models, (findFallbackModelIn FALLBACK_MODELS models (Str current)), w'.
  split; [exact Hg |].
  split; [unfold findFallbackModel, bind; now rewrite Hg |].
  exact (findFallbackModelIn_choice models current Hcat).
Qed.

End WithHost.

Import Scenarios.

(** A question with a picture becomes a message of two parts, and stays
    so. *)
Lemma normalizeMessagesForVision_idempotent_witness :
  normalizeMessagesForVision (host := RefHost.host) pictureParts = inr pictureParts.
Proof.
  exact (normalizeMessagesForVision_idempotent (host := RefHost.host)
           pictureQuestion pictureParts eq_refl).
Defined.

Lemma hasVisionRequest_normalized_witness :
  hasVisionRequest (host := RefHost.host) pictureParts
  = hasVisionRequest (host := RefHost.host) pictureQuestion.
Proof.
  exact (proj1 (hasVisionRequest_normalized (host := RefHost.host)
                  pictureQuestion pictureParts eq_refl)).
Defined.

Lemma extractModelIds_shapes_witness :
  extractModelIds (Obj [("data", Arr [Obj [("id", Str "gpt-5")];
                                      Obj [("id", Str "gpt-4.1")]])])
  = [Str "gpt-5"; Str "gpt-4.1"].
Proof.
  exact (proj1 (proj2 (proj1 (proj2 (proj2 (proj2
           (extractModelIds_shapes ["gpt-5"; "gpt-4.1"]
              ltac:(repeat constructor; discriminate)))))
           "id" (or_introl eq_refl)))).
Defined.

(** A fresh add-on that is not connected resolves against the fallback
    list. *)
Lemma resolveModel_in_catalog_witness :
  exists models m w',
    getAvailableModels (host := RefHost.host) (freshWorld t0 []) = (Returned models, w')
    /\ resolveModel (host := RefHost.host) "gpt-9-fake" (freshWorld t0 [])
       = (Returned m, w')
    /\ In m models
    /\ (In (Str "gpt-9-fake") models -> m = Str "gpt-9-fake")
    /\ In (pickFallbackModel models) models.
Proof.
  exact (resolveModel_in_catalog (host := RefHost.host) "gpt-9-fake"
           (freshWorld t0 []) (reachable_start [] true t0 [])).
Defined.

(** The example of the specification: against the catalog a, b, c the
    model gpt-9-fake resolves to b under the ranking b, a; under the
    ranking of the add-on, none of which the catalog lists, it resolves to
    a, the first of the catalog. *)
Lemma C5_witness :
  exists w',
    getAvailableModels (host := RefHost.host) abcCatalogWorld
    = (Returned [Str "a"; Str "b"; Str "c"], w')
    /\ resolveModelIn ["b"; "a"] [Str "a"; Str "b"; Str "c"] "gpt-9-fake" = Str "b"
    /\ resolveModel (host := RefHost.host) "gpt-9-fake" abcCatalogWorld
       = (Returned (Str "a"), w').
Proof.
  destruct (C5_resolveModel (host := RefHost.host) "gpt-9-fake" abcCatalogWorld
              (reachable_perform GetAvailableModels _
                 (reachable_start [sessionLogin 10; accessLogin] true t0
                    [answer 30 200 (RefHost.dq "{'data':['a','b','c']}")])))
    as (models & w' & Hg & _ & Hcases & Hres).
  assert (Hm : models = [Str "a"; Str "b"; Str "c"]).
  { assert (Hc : fst (getAvailableModels (host := RefHost.host) abcCatalogWorld)
                 = Returned [Str "a"; Str "b"; Str "c"])
      by (vm_compute; reflexivity).
    rewrite Hg in Hc. cbn [fst] in Hc. now injection Hc. }
  subst models. exists w'. split; [exact Hg |].
  assert (Hnot : ~ In (Str "gpt-9-fake") [Str "a"; Str "b"; Str "c"]).
  { cbn [In]. intros [H | [H | [H | []]]]; discriminate. }
  split.
  - refine (proj1 (proj2 (Hcases ["b"; "a"])) Hnot [] "b" ["a"] eq_refl _ _).
    + cbn [In]. tauto.
    + cbn [In]. tauto.
  - rewrite Hres. reflexivity.
Defined.

(** With the catalog [x, y] and x refused, the retry goes to the head of
    the ranked list, which the catalog does not list, and not to y. *)
Lemma findFallbackModel_choice_witness :
  exists models fb w',
    getAvailableModels (host := RefHost.host) unrankedCatalogWorld
    = (Returned models, w')
    /\ findFallbackModel (host := RefHost.host) (Str "x") unrankedCatalogWorld
       = (Returned fb, w')
    /\ (pickFallbackModel models <> Str "x" ->
        fb = pickFallbackModel models /\ In fb models)
    /\ (pickFallbackModel models = Str "x" -> fb = Str "claude-sonnet-4.5")
    /\ fb <> Str "x".
Proof.
  exact (findFallbackModel_choice (host := RefHost.host) "x" unrankedCatalogWorld
           (reachable_perform GetAvailableModels _
              (reachable_start [sessionLogin 10; accessLogin] true t0
                 [answer 30 200 (RefHost.dq "{'data':['x','y']}")]))).
Defined.

(** The same, computed. *)
Lemma findFallbackModel_outside_catalog :
  cachedModels unrankedCatalogWorld = Some [Str "x"; Str "y"]
  /\ result (findFallbackModel (host := RefHost.host) (Str "x")) unrankedCatalogWorld
     = Returned (Str "claude-sonnet-4.5").
Proof. split; vm_compute; reflexivity. Qed.

End MessageFacts.

(* ================================================================== *)
(** * Facts: the catalog cache and the order of the endpoints *)
(* ================================================================== *)

Module CacheFacts.

Import TokenStorage GitHubDeviceFlow CopilotClient.
Import JSFacts Views Traces Examples Scenarios.
Import TokenStorageFacts SessionFacts ResolutionFacts CatalogFacts.

Section WithHost.
Context {host : Host}.

Lemma fetchModelsFrom_names (token_ : value) (models : list value) (url_ : string)
      (w : World) (x : Exchange) (rest : list Exchange) (ids : list value) :
  network w = x :: rest -> names_models x ids ->
  fetchModelsFrom token_ models url_ w
  = (Returned (Break ids), answered (catalogRequest token_ url_) w).
Proof.
  intros Hn (r & data & Ho & Hok & Hbody & Hlooks & Hparse & Hids & Hne).
  unfold fetchModelsFrom, try_catch, bind. fold (catalogRequest token_ url_).
  rewrite (fetch_response _ w x rest r Hn Ho). rewrite Hok. cbn [negb].
  unfold text. rewrite Hbody. cbn [ret].
  apply orb_true_iff in Hlooks.
  assert (Hl : negb (startsWith (trim (concat_chunks (body r))) "{")
               && negb (startsWith (trim (concat_chunks (body r))) "[") = false).
  { destruct Hlooks as [-> | ->]; [reflexivity | apply andb_false_r]. }
  rewrite Hl, Hparse. cbn [lift ret]. rewrite Hids.
  destruct ids as [| i ids]; [contradiction | reflexivity].
Qed.

Lemma catalog_of_names (ids : list value) : ids <> [] -> catalog_of ids = ids.
Proof. intro H. unfold catalog_of. destruct ids; [contradiction | reflexivity]. Qed.

(** The endpoints are asked in order and the first that names models is
    the catalog.  With a session token and nothing cached: when the first
    endpoint names models, they are returned and cached and the second
    endpoint is not asked; when the first gives nothing and the second
    names models, those are returned and cached. *)
Theorem first_endpoint_with_models_wins (w w1 : World) (tok : value) :
  cache_miss w ->
  getSessionToken w = (Returned tok, w1) ->
  (forall x rest ids,
      network w1 = x :: rest -> names_models x ids ->
      let w2 := answered (catalogRequest tok modelsEndpoint) w1 in
      getAvailableModels w = (Returned ids, set_cache (Some ids) (clock w) w2)
      /\ requests w2 = (requests w1 ++ [catalogRequest tok modelsEndpoint])%list)
  /\ (forall x y rest ids,
        network w1 = x :: y :: rest -> useless x -> names_models y ids ->
        let w2 := answered (catalogRequest tok chatModelsEndpoint)
                           (answered (catalogRequest tok modelsEndpoint) w1) in
        getAvailableModels w = (Returned ids, set_cache (Some ids) (clock w) w2)
        /\ requests w2
           = (requests w1 ++ [catalogRequest tok modelsEndpoint;
                              catalogRequest tok chatModelsEndpoint])%list).
Proof.
  intros Hmiss Hs.
  destruct (getAvailableModels_miss w Hmiss) as (f & w2' & Hg & _ & _ & _ & Hret).
  specialize (Hret tok w1 Hs). split.
  - intros x rest ids Hn Hgood w2.
    assert (Hf : fetchModels tok MODELS_URLS [] w1 = (Returned ids, w2)).
    { unfold MODELS_URLS. cbn [fetchModels]. unfold bind.
      now rewrite (fetchModelsFrom_names tok [] _ w1 x rest ids Hn Hgood). }
    rewrite Hf in Hret. injection Hret as <- <-.
    destruct Hgood as (_ & _ & _ & _ & _ & _ & _ & _ & Hne).
    rewrite (catalog_of_names ids Hne) in Hg.
    split; [exact Hg | apply answered_requests].
  - intros x y rest ids Hn Hx Hgood w2.
    assert (Hf : fetchModels tok MODELS_URLS [] w1 = (Returned ids, w2)).
    { unfold MODELS_URLS. cbn [fetchModels]. unfold bind at 1.
      rewrite fetchModelsFrom_useless by (rewrite Hn; repeat constructor; exact Hx).
      unfold bind.
      rewrite (fetchModelsFrom_names tok [] _ _ y rest ids); [reflexivity | | exact Hgood].
      rewrite network_answered, Hn. reflexivity. }
    rewrite Hf in Hret. injection Hret as <- <-.
    destruct Hgood as (_ & _ & _ & _ & _ & _ & _ & _ & Hne).
    rewrite (catalog_of_names ids Hne) in Hg.
    split; [exact Hg |].
    unfold w2. rewrite !answered_requests, <- app_assoc. reflexivity.
Qed.

(** The catalog is cached for five minutes from the start of the call
    that built it.  [getAvailableModels] leaves its answer in the cache;
    a miss stamps it with the time read at the start of the call.  While
    the clock is less than five minutes past the stamp, whatever happens
    to the logins and the network, the next call answers the same list,
    changes nothing and sends nothing; from five minutes on the cache is
    rebuilt and stamped anew. *)
Theorem catalog_cached_for_five_minutes (w : World) :
  exists models w1,
    getAvailableModels w = (Returned models, w1)
    /\ cachedModels w1 = Some models
    /\ (cache_miss w -> cachedModelsAt w1 = clock w)
    /\ (forall l av t net,
          t - cachedModelsAt w1 < MODELS_CACHE_TTL ->
          getAvailableModels (environment l av t net w1)
          = (Returned models, environment l av t net w1))
    /\ (forall l av t net,
          MODELS_CACHE_TTL <= t - cachedModelsAt w1 ->
          cachedModelsAt (after getAvailableModels (environment l av t net w1)) = t).
Proof.
  assert (Hnext : forall models w1,
            cachedModels w1 = Some models ->
            (forall l av t net,
                t - cachedModelsAt w1 < MODELS_CACHE_TTL ->
                getAvailableModels (environment l av t net w1)
                = (Returned models, environment l av t net w1))
            /\ (forall l av t net,
                  MODELS_CACHE_TTL <= t - cachedModelsAt w1 ->
                  cachedModelsAt (after getAvailableModels (environment l av t net w1))
                  = t)).
  { intros models w1 Hc. split; intros l av t net Ht.
    - apply getAvailableModels_hit; [exact Hc | exact Ht].
    - destruct (getAvailableModels_miss (environment l av t net w1))
        as (f & w2 & Hg & _).
      + right. exact Ht.
      + unfold after. now rewrite Hg. }
  destruct (hit_or_miss w) as [[models [Hc Hf]] | Hmiss].
  - exists models, w. split; [now apply getAvailableModels_hit |].
    split; [exact Hc |]. split.
    + intros [Hnone | Hold]; [congruence | lia].
    + now apply Hnext.
  - destruct (getAvailableModels_miss w Hmiss) as (f & w2 & Hg & _).
    exists (catalog_of f), (set_cache (Some (catalog_of f)) (clock w) w2).
    split; [exact Hg |]. split; [reflexivity |]. split; [reflexivity |].
    now apply Hnext.
Qed.

End WithHost.

(** The provider of [retryWorld] lists two models at the first endpoint. *)
Lemma first_endpoint_with_models_wins_witness :
  let w := connectedWorld
             [answer 30 200 (RefHost.dq "{'data':[{'id':'gpt-5'},{'id':'gpt-4.1'}]}")] in
  result (getAvailableModels (host := RefHost.host)) w
  = Returned [Str "gpt-5"; Str "gpt-4.1"].
Proof.
  intro w. unfold result.
  rewrite (proj1 (proj1 (first_endpoint_with_models_wins (host := RefHost.host)
                           w w (Str "session-old")
                           ltac:(left; reflexivity)
                           ltac:(vm_compute; reflexivity))
                        (answer 30 200
                           (RefHost.dq "{'data':[{'id':'gpt-5'},{'id':'gpt-4.1'}]}"))
                        [] [Str "gpt-5"; Str "gpt-4.1"] eq_refl
                        ltac:(eexists; eexists; split; [reflexivity |];
                              split; [reflexivity |]; split; [reflexivity |];
                              split; [vm_compute; reflexivity |];
                              split; [vm_compute; reflexivity |];
                              split; [vm_compute; reflexivity | discriminate]))).
  reflexivity.
Defined.

End CacheFacts.

(* ================================================================== *)
(** * Facts: what the stream decoder hands to the caller *)
(* ================================================================== *)

Module DecoderFacts.

Import CopilotClient JSFacts Views Traces Examples Scenarios StreamingFacts.

Lemma running_app (acc : string) (a b : list value) :
  running acc (a ++ b) = (running acc a ++ running (acc ++ joined a) b)%list.
Proof.
  revert acc. induction a as [| c a IH]; intro acc; cbn [app running joined].
  - now rewrite string_app_empty_r.
  - rewrite IH. now rewrite string_app_assoc.
Qed.

Lemma joined_app (a b : list value) :
  joined (a ++ b) = (joined a ++ joined b)%string.
Proof.
  induction a as [| c a IH]; cbn [app joined]; [reflexivity |].
  now rewrite IH, string_app_assoc.
Qed.

Lemma concat_chunks_app (a b : list string) :
  concat_chunks (a ++ b) = (concat_chunks a ++ concat_chunks b)%string.
Proof.
  induction a as [| c a IH]; cbn [app concat_chunks]; [reflexivity |].
  now rewrite IH, string_app_assoc.
Qed.

Lemma split_lines_no_newline (cur s : string) :
  no_newline s = true -> split_lines_from cur s = [(cur ++ s)%string].
Proof.
  revert cur. induction s as [| c r IH]; intros cur H; cbn [split_lines_from].
  - now rewrite string_app_empty_r.
  - cbn [no_newline] in H. apply andb_true_iff in H as [Hc Hr].
    destruct (Ascii.eqb c newline); [discriminate |].
    rewrite IH by assumption. now rewrite string_app_assoc.
Qed.

Section WithHost.
Context {host : Host}.

(** One line adds no delta or one, which is truthy. *)
Lemma decodeLine_running (d : Decoder) (line : string) :
  exists deltas,
    Forall (fun c => truthy c = true) deltas
    /\ snd (decodeLine d line) = running (fullContent d) deltas
    /\ fullContent (fst (decodeLine d line)) = (fullContent d ++ joined deltas)%string.
Proof.
  unfold decodeLine.
  assert (Hnone : exists deltas : list value,
             Forall (fun c => truthy c = true) deltas
             /\ @nil (value * string) = running (fullContent d) deltas
             /\ fullContent d = (fullContent d ++ joined deltas)%string).
  { exists []. cbn. now rewrite string_app_empty_r. }
  destruct (startsWith line "data: "); [| exact Hnone].
  destruct (_ =? "[DONE]")%string; [exact Hnone |].
  destruct (_ =? "")%string; [exact Hnone |].
  destruct (JSON_parse (payload_of line)) as [e | parsed]; [exact Hnone |].
  destruct (prop parsed "error") as [e | err]; [exact Hnone |].
  destruct (truthy err); [exact Hnone |].
  match goal with |- context [if truthy ?c then _ else _] =>
    destruct (truthy c) eqn:Hc; [exists [c] | exact Hnone] end.
  cbn. rewrite string_app_empty_r. repeat split. now repeat constructor.
Qed.

Lemma decodeLines_running (lines : list string) (d : Decoder) :
  exists deltas,
    Forall (fun c => truthy c = true) deltas
    /\ snd (decodeLines d lines) = running (fullContent d) deltas
    /\ fullContent (fst (decodeLines d lines)) = (fullContent d ++ joined deltas)%string.
Proof.
  revert d. induction lines as [| line rest IH]; intro d.
  - exists []. cbn. now rewrite string_app_empty_r.
  - rewrite decodeLines_cons. cbn [fst snd].
    destruct (decodeLine_running d line) as (a & Ha & Hcalls & Hfull).
    destruct (IH (fst (decodeLine d line))) as (b & Hb & Hcalls' & Hfull').
    exists (a ++ b)%list. split; [now apply Forall_app |].
    rewrite Hcalls, Hcalls', Hfull', Hfull, running_app, joined_app.
    now rewrite string_app_assoc.
Qed.

(** The callback sees the content grow.  The stream has a list of truthy
    deltas: [onChunk] is called once for each, in order, with the delta
    and the content up to and including it, and the content returned is
    all of them end to end.  Without a callback the world is left as it
    is, and the result is the same. *)
Theorem onChunk_sees_running_content (r : Response) (w : World) :
  exists deltas,
    Forall (fun c => truthy c = true) deltas
    /\ chunkCalls (after (handleStreamingResponse r true) w)
       = (chunkCalls w ++ running "" deltas)%list
    /\ after (handleStreamingResponse r false) w = w
    /\ result (handleStreamingResponse r true) w
       = result (handleStreamingResponse r false) w
    /\ forall given v,
         result (handleStreamingResponse r given) w = Returned v ->
         v = streamed (joined deltas) (xModel r).
Proof.
  destruct (decodeLines_running
              (removelast (split_lines_from "" (concat_chunks (body r))))
              (mkDecoder "" "" Null)) as (deltas & Ht & Hcalls & Hfull).
  fold (decoded r) in Hcalls, Hfull. cbn [fullContent] in Hcalls, Hfull.
  exists deltas. split; [exact Ht |].
  unfold after, result. rewrite !handleStreamingResponse_decoded. cbv zeta.
  rewrite Hcalls, Hfull. cbn [String.append].
  split; [| split; [| split]].
  - destruct (bodyError r); [reflexivity |].
    destruct (truthy _ && _); reflexivity.
  - destruct (bodyError r); [reflexivity |].
    destruct (truthy _ && _); reflexivity.
  - destruct (bodyError r); [reflexivity |].
    destruct (truthy _ && _); reflexivity.
  - intros given v. rewrite handleStreamingResponse_decoded. cbv zeta.
    rewrite Hfull. cbn [String.append].
    destruct (bodyError r); [discriminate |].
    destruct (truthy _ && _); [discriminate |].
    now intros [= <-].
Qed.

(** A last line that no line feed ends is not decoded: text without a
    line feed put after the body changes neither the result nor the
    calls of the callback.  A body that is one frame with no line feed
    gives the empty content. *)
Theorem unterminated_last_line_dropped (st : Z) (stt : string) (xm : option string)
        (chunks : list string) (be : option exn) (tail_ : string)
        (given : bool) (w : World) :
  no_newline tail_ = true ->
  handleStreamingResponse (mkResponse st stt xm (chunks ++ [tail_]) be) given w
  = handleStreamingResponse (mkResponse st stt xm chunks be) given w
  /\ handleStreamingResponse (mkResponse st stt xm [tail_] None) given w
     = (Returned (streamed "" xm), w).
Proof.
  intro Htail.
  assert (Hlines : forall text_,
            removelast (split_lines_from "" (text_ ++ tail_))
            = removelast (split_lines_from "" text_)).
  { intro text_. rewrite split_lines_from_app.
    rewrite (split_lines_no_newline _ tail_ Htail).
    rewrite removelast_app by discriminate. cbn [removelast]. apply app_nil_r. }
  split.
  - rewrite !handleStreamingResponse_decoded. unfold decoded.
    cbn [body bodyError xModel].
    rewrite concat_chunks_app. cbn [concat_chunks]. rewrite string_app_empty_r.
    now rewrite Hlines.
  - rewrite handleStreamingResponse_decoded. unfold decoded.
    cbn [body bodyError xModel concat_chunks]. rewrite string_app_empty_r.
    specialize (Hlines ""). cbn [String.append] in Hlines. rewrite Hlines.
    cbn. now rewrite emit_nil.
Qed.

End WithHost.

(** A frame that carries Hello and is not ended by a line feed is lost. *)
Lemma unterminated_last_line_dropped_witness :
  handleStreamingResponse (host := RefHost.host)
    (mkResponse 200 "OK" None [("data: " ++ delta_json "Hello")%string] None)
    true (freshWorld t0 [])
  = (Returned (Obj [("content", Str ""); ("model", Str "unknown")]), freshWorld t0 []).
Proof.
  exact (proj2 (unterminated_last_line_dropped (host := RefHost.host)
                  200 "OK" None [] None ("data: " ++ delta_json "Hello")%string
                  true (freshWorld t0 []) ltac:(vm_compute; reflexivity))).
Defined.

(** The stream of the examples in one chunk and in three. *)
Lemma handleStreamingResponse_chunking_witness :
  handleStreamingResponse (host := RefHost.host)
    (mkResponse 200 "OK" None [hello_stream] None) true (freshWorld t0 [])
  = handleStreamingResponse (host := RefHost.host)
      (mkResponse 200 "OK" None hello_chunks None) true (freshWorld t0 []).
Proof.
  exact (handleStreamingResponse_chunking (host := RefHost.host)
           (mkResponse 200 "OK" None [hello_stream] None)
           (mkResponse 200 "OK" None hello_chunks None)
           true (freshWorld t0 [])
           ltac:(vm_compute; reflexivity) eq_refl eq_refl).
Defined.

End DecoderFacts.

(* ================================================================== *)
(** * Facts: a chat that is answered, and one that cannot start *)
(* ================================================================== *)

Module ChatRunFacts.

Import TokenStorage GitHubDeviceFlow CopilotClient BatchProcessor.
Import JSFacts Views Traces Examples Scenarios.
Import TokenStorageFacts SessionFacts ResolutionFacts StreamingFacts CatalogFacts.
Import ChatFacts InvariantFacts MessageFacts.

Section WithHost.
Context {host : Host}.

Lemma getSessionToken_not_connected (w : World) :
  needs_refresh w -> no_access_token w ->
  getSessionToken w
  = (Thrown (Error "Not authenticated. Please connect to GitHub Copilot."), w).
Proof.
  intros Hneed Hno. rewrite (getSessionToken_needs_refresh w Hneed).
  now apply refreshSession_not_authenticated.
Qed.

(** Not connected, nothing starts.  With no usable session token and no
    access token, [chat] and [processItem] throw the not-authenticated
    error before anything else: no request is sent, the model cache is
    not filled, the world is as it was. *)
Theorem chat_not_connected (model_ : string) (messages : value) (stream given : bool)
        (temp tokens : value) (title abstract prompt : value) (defaultModel : string)
        (w : World) :
  needs_refresh w -> no_access_token w ->
  chat model_ messages stream given temp tokens w
  = (Thrown (Error "Not authenticated. Please connect to GitHub Copilot."), w)
  /\ processItem title abstract prompt defaultModel temp tokens w
     = (Thrown (Error "Not authenticated. Please connect to GitHub Copilot."), w).
Proof.
  intros Hneed Hno.
  pose proof (getSessionToken_not_connected w Hneed Hno) as Hs.
  assert (Hchat : forall m ms st g,
            chat m ms st g temp tokens w
            = (Thrown (Error "Not authenticated. Please connect to GitHub Copilot."), w)).
  { intros m ms st g. unfold chat. unfold bind at 1. now rewrite Hs. }
  split; [apply Hchat |].
  unfold processItem. unfold bind at 1. now rewrite Hchat.
Qed.

(** Reading a response sends nothing. *)
Lemma requests_handleStreamingResponse (r : Response) (given : bool) (w : World) :
  requests (after (handleStreamingResponse r given) w) = requests w.
Proof.
  unfold after. rewrite handleStreamingResponse_decoded. cbv zeta.
  assert (He : forall c, requests (emit given c w) = requests w)
    by (intro c; unfold emit; now destruct given).
  destruct (bodyError r); simpl; [apply He |].
  destruct (truthy _ && _); simpl; apply He.
Qed.

Lemma answerOrRetry_accepted (hd : list (string * string)) (m1 : value) (at1 : Z)
      (nm : value)
      (stream : bool) (temp tokens : value) (r1 : Response) (w : World) :
  ok r1 = true ->
  answerOrRetry hd m1 at1 nm stream temp tokens r1 w = (Returned r1, w).
Proof. intro Hok. unfold answerOrRetry. now rewrite Hok. Qed.

Lemma chat_first_accepted (model_ : string) (messages : value) (stream given : bool)
      (temp tokens : value) (w : World)
      (tok : value) (w1 : World) (m1 : value) (w2 : World)
      (nm : value) (hv : bool) (x : Exchange) (rest : list Exchange)
      (r1 : Response) :
  getSessionToken w = (Returned tok, w1) ->
  resolveModel model_ w1 = (Returned m1, w2) ->
  normalizeMessagesForVision messages = inr nm ->
  hasVisionRequest nm = inr hv ->
  network w2 = x :: rest -> outcome x = inr r1 -> ok r1 = true ->
  let first_ := chatRequest (buildHeaders stream hv tok) m1 nm stream temp tokens in
  chat model_ messages stream given temp tokens w
  = (if stream then handleStreamingResponse r1 given else json r1)
      (answered first_ w2)
  /\ chatCalls (answered first_ w2) = (chatCalls w ++ [first_])%list.
Proof.
  intros Hs Hr Hn Hv Hnet Hout Hok first_. split.
  - rewrite (chat_after_first model_ messages stream given temp tokens w
               tok w1 m1 w2 nm hv x rest r1 Hs Hr Hn Hv Hnet Hout).
    cbv zeta. fold first_. unfold bind at 1.
    rewrite (answerOrRetry_accepted _ m1 _ nm stream temp tokens r1 _ Hok).
    now destruct stream.
  - rewrite chatCalls_answered.
    pose proof (quiet_getSessionToken w) as (_ & _ & Hq). unfold after in Hq.
    rewrite Hs in Hq. cbn [snd] in Hq.
    rewrite (resolveModel_quiet model_ w1 m1 w2 Hr), Hq. reflexivity.
Qed.

(** A chat whose first answer is a 2xx.  One request goes to the chat
    endpoint and there is no retry: a POST whose body is the JSON of the
    resolved model, the normalised messages, [stream] and the temperature
    and token limit of the call, whose headers carry the session token as
    bearer, an [Accept] that follows [stream], and the vision header
    exactly when the messages have a picture.  The result is the decoded
    stream, or the JSON of the body. *)
Theorem chat_accepted (model_ : string) (messages : value) (stream given : bool)
        (temp tokens : value) (w : World)
        (tok : value) (w1 : World) (m1 : value) (w2 : World)
        (nm : value) (hv : bool) (x : Exchange) (rest : list Exchange)
        (r1 : Response) :
  getSessionToken w = (Returned tok, w1) ->
  resolveModel model_ w1 = (Returned m1, w2) ->
  normalizeMessagesForVision messages = inr nm ->
  hasVisionRequest nm = inr hv ->
  network w2 = x :: rest -> outcome x = inr r1 -> ok r1 = true ->
  let run := chat model_ messages stream given temp tokens in
  let sent :=
    mkRequest "https://api.githubcopilot.com/chat/completions" "POST"
      ([("Authorization", ("Bearer " ++ ToString tok)%string);
        ("Content-Type", "application/json");
        ("Editor-Version", "vscode/1.96.0");
        ("Copilot-Integration-Id", "vscode-chat");
        ("Accept", if stream then "text/event-stream" else "application/json")]
       ++ (if hv then [("Copilot-Vision-Request", "true")] else []))%list
      (Some (JSON_stringify
               (Obj [("model", m1); ("messages", nm); ("stream", Bool stream);
                     ("temperature", temp); ("max_tokens", tokens)]))) in
  let calls := fun v : World =>
    filter (fun q => (url q =? "https://api.githubcopilot.com/chat/completions")%string)
           (requests v) in
  run w = (if stream then handleStreamingResponse r1 given else json r1)
            (answered sent w2)
  /\ calls (after run w) = (calls w ++ [sent])%list
  /\ requests (after run w) = (requests w2 ++ [sent])%list.
Proof.
  intros Hs Hr Hn Hv Hnet Hout Hok run sent calls.
  destruct (chat_first_accepted model_ messages stream given temp tokens w
              tok w1 m1 w2 nm hv x rest r1 Hs Hr Hn Hv Hnet Hout Hok)
    as [Hrun Hcalls].
  set (first_ := chatRequest (buildHeaders stream hv tok) m1 nm stream temp tokens)
    in *.
  fold run in Hrun.
  assert (Hafter : requests (after run w) = requests (answered first_ w2)).
  { unfold after. rewrite Hrun. destruct stream.
    - fold (after (handleStreamingResponse r1 given) (answered first_ w2)).
      apply requests_handleStreamingResponse.
    - fold (after (json r1) (answered first_ w2)). now rewrite after_json. }
  split; [exact Hrun |]. split.
  - change (chatCalls (after run w) = (chatCalls w ++ [first_])%list).
    rewrite <- Hcalls. unfold chatCalls. now rewrite Hafter.
  - rewrite Hafter. exact (answered_requests first_ w2).
Qed.

(** ** The retry *)

(** [same_model] decides [one_model] on a truthy first value. *)
Lemma same_model_one (x y : Z) (a b : value) :
  truthy a = true ->
  same_model (x =? y) a b = true <-> one_model (x = y) a b.
Proof.
  intro Ht. unfold same_model, one_model.
  destruct (is_reference a && is_reference b) eqn:E.
  - apply Z.eqb_eq.
  - split.
    + destruct a, b; cbn; intro H; try discriminate; try reflexivity.
      * f_equal. now apply Bool.eqb_prop.
      * f_equal. now apply Z.eqb_eq.
      * f_equal. now apply String.eqb_eq.
    + intros <-. destruct a as [| | c | n | | s0 | |]; cbn in Ht, E |- *;
        try discriminate; try reflexivity.
      * now destruct c.
      * apply Z.eqb_refl.
      * apply String.eqb_refl.
Qed.

(** The loop of [findFallbackModel] over the ranked list. *)
Lemma firstOther_head (currentModel : value) :
  (currentModel <> Str "claude-sonnet-4.5" ->
   firstOther FALLBACK_MODELS currentModel = Str "claude-sonnet-4.5")
  /\ (currentModel = Str "claude-sonnet-4.5" ->
      firstOther FALLBACK_MODELS currentModel = Str "gpt-5").
Proof.
  unfold FALLBACK_MODELS. cbn [firstOther]. split.
  - intro Hne.
    destruct (strict_eq (Str "claude-sonnet-4.5") currentModel) eqn:E;
      [| reflexivity].
    apply strict_eq_Str_l in E. congruence.
  - intros ->. reflexivity.
Qed.

(** The model [chat] retries with, on a catalog. *)
Lemma findFallbackModelAmong_choice (x y : Z) (available : list value)
      (currentModel : value) :
  is_catalog available ->
  let pick := pickFallbackModel available in
  let fb := findFallbackModelAmong (x =? y) FALLBACK_MODELS available currentModel in
  (~ one_model (x = y) pick currentModel -> fb = pick /\ In fb available)
  /\ (one_model (x = y) pick currentModel ->
      fb = firstOther FALLBACK_MODELS currentModel)
  /\ ~ one_model (x = y) fb currentModel.
Proof.
  intros Hcat pick fb. pose proof Hcat as [Hne Hall].
  assert (Hlen : negb (length available =? 0)%nat = true).
  { destruct available; [contradiction | reflexivity]. }
  assert (Ht : truthy pick = true)
    by (now apply pickFallbackModelFrom_truthy).
  assert (Hfb : fb = if negb (same_model (x =? y) pick currentModel) then pick
                     else firstOther FALLBACK_MODELS currentModel).
  { unfold fb, findFallbackModelAmong. fold (pickFallbackModel available). fold pick.
    now rewrite Hlen, Ht. }
  pose proof (same_model_one x y pick currentModel Ht) as Hone.
  split; [| split].
  - intro Hdiff. destruct (same_model (x =? y) pick currentModel) eqn:E.
    + exfalso. apply Hdiff. now apply Hone.
    + cbn [negb] in Hfb. rewrite Hfb. split; [reflexivity |].
      now apply pickFallbackModelFrom_In.
  - intro Hsame. apply Hone in Hsame. rewrite Hsame in Hfb. exact Hfb.
  - destruct (findFallbackModelAmong_other (x =? y) available currentModel)
      as [Htf Hsf]. fold fb in Htf, Hsf.
    intro Hsame. apply (same_model_one x y fb currentModel Htf) in Hsame.
    congruence.
Qed.

(** C2 (as amended).  A chat in a world the add-on can reach, whose first
    answer is a rejection read to its end.  The request is the POST of the
    resolved model and the normalised messages to the chat endpoint.  The
    rejection is retried when its status is 400, 404 or 422 and its body,
    in lower case, holds model, invalid or unsupported.  When it is not,
    401 among them, the error of the answer is thrown and the chat
    endpoint has been called once.  When it is, the chat endpoint is
    called once more and no further, with the same headers and messages
    and the fallback model: what [pickFallbackModel] picks from the
    catalog unless that is the model tried, then the head of the ranked
    list (gpt-5 when the head was tried).  It is never the model tried:
    it is another value, or another object, an entry of a catalog fetched
    since.  A second rejection is thrown as it is. *)
Theorem C2_chat_retry (model_ : string) (messages : value) (stream given : bool)
        (temp tokens : value) (w : World)
        (tok : value) (w1 : World) (m1 : value) (w2 : World)
        (nm : value) (hv : bool) (x : Exchange) (rest : list Exchange)
        (r1 : Response) :
  reachable w ->
  getSessionToken w = (Returned tok, w1) ->
  resolveModel model_ w1 = (Returned m1, w2) ->
  normalizeMessagesForVision messages = inr nm ->
  hasVisionRequest nm = inr hv ->
  network w2 = x :: rest -> outcome x = inr r1 ->
  ok r1 = false -> bodyError r1 = None ->
  let run := chat model_ messages stream given temp tokens in
  let t := concat_chunks (body r1) in
  let retried :=
    (status r1 = 400 \/ status r1 = 404 \/ status r1 = 422)
    /\ (includes (toLowerCase t) "model" = true
        \/ includes (toLowerCase t) "invalid" = true
        \/ includes (toLowerCase t) "unsupported" = true) in
  let sent := fun m : value =>
    mkRequest "https://api.githubcopilot.com/chat/completions" "POST"
      ([("Authorization", ("Bearer " ++ ToString tok)%string);
        ("Content-Type", "application/json");
        ("Editor-Version", "vscode/1.96.0");
        ("Copilot-Integration-Id", "vscode-chat");
        ("Accept", if stream then "text/event-stream" else "application/json")]
       ++ (if hv then [("Copilot-Vision-Request", "true")] else []))%list
      (Some (JSON_stringify
               (Obj [("model", m); ("messages", nm); ("stream", Bool stream);
                     ("temperature", temp); ("max_tokens", tokens)]))) in
  let calls := fun v : World =>
    filter (fun q => (url q =? "https://api.githubcopilot.com/chat/completions")%string)
           (requests v) in
  (~ retried ->
   run w = (Thrown (Error (formatApiError (status r1) t)), answered (sent m1) w2)
   /\ calls (after run w) = (calls w ++ [sent m1])%list)
  /\ (status r1 = 401 ->
      run w
      = (Thrown (Error "Copilot API error (401): Authentication failed. Please reconnect to GitHub Copilot."),
         answered (sent m1) w2))
  /\ (retried ->
      exists models m2 w4,
        getAvailableModels (answered (sent m1) w2) = (Returned models, w4)
        /\ (let same := one_model (cachedModelsAt w4 = cachedModelsAt w2) in
            (~ same (pickFallbackModel models) m1 ->
             m2 = pickFallbackModel models /\ In m2 models)
            /\ (same (pickFallbackModel models) m1 ->
                (m1 <> Str "claude-sonnet-4.5" -> m2 = Str "claude-sonnet-4.5")
                /\ (m1 = Str "claude-sonnet-4.5" -> m2 = Str "gpt-5"))
            /\ ~ same m2 m1)
        /\ (m2 <> m1
            \/ (is_reference m2 = true /\ is_reference m1 = true
                /\ cachedModelsAt w4 <> cachedModelsAt w2))
        /\ truthy m2 = true
        /\ calls (after run w) = (calls w ++ [sent m1; sent m2])%list
        /\ (forall x2 rest2 r2,
              network w4 = x2 :: rest2 -> outcome x2 = inr r2 ->
              ok r2 = false -> bodyError r2 = None ->
              result run w
              = Thrown (Error (formatApiError (status r2) (concat_chunks (body r2)))))
        /\ (forall x2 rest2 r2,
              network w4 = x2 :: rest2 -> outcome x2 = inr r2 ->
              ok r2 = true ->
              run w
              = (if stream then handleStreamingResponse r2 given else json r2)
                  (answered (sent m2) w4))).
Proof.
  intros Hreach Hs Hr Hn Hv Hnet Hout Hok Hbody run t retried sent calls.
  destruct (chat_first_rejected model_ messages stream given temp tokens w
              tok w1 m1 w2 nm hv x rest r1 Hs Hr Hn Hv Hnet Hout Hok Hbody)
    as (Hrefused & H401 & Hretry).
  fold run t in Hrefused, H401, Hretry.
  set (first_ := chatRequest (buildHeaders stream hv tok) m1 nm stream
                             temp tokens) in *.
  assert (Hcache : cache_ok (answered first_ w2)).
  { pose proof (preserves_getSessionToken w (reachable_cache_ok w Hreach)) as H1.
    unfold after in H1. rewrite Hs in H1. cbn [snd] in H1.
    pose proof (preserves_resolveModel model_ w1 H1) as H2.
    unfold after in H2. rewrite Hr in H2. cbn [snd] in H2.
    exact (preserves_fetch first_ w2 H2). }
  split; [| split].
  - intro Hnot.
    assert (Hno : shouldRetryWithFallback (status r1) t = false).
    { destruct (shouldRetryWithFallback (status r1) t) eqn:E; [| reflexivity].
      exfalso. apply Hnot. now apply shouldRetryWithFallback_spec. }
    exact (Hrefused Hno).
  - exact H401.
  - intro Hyes.
    destruct (Hretry (proj2 (shouldRetryWithFallback_spec (status r1) t) Hyes))
      as (models & w4 & Hg & Hrest).
    cbv zeta in Hrest. destruct Hrest as (Ht & Hne & Hcalls & Hrej & Hacc).
    destruct (getAvailableModels_catalog _ Hcache) as (models' & w4' & Hg' & Hcat & _).
    rewrite Hg in Hg'. injection Hg' as <- <-.
    destruct (findFallbackModelAmong_choice (cachedModelsAt w4) (cachedModelsAt w2)
                models m1 Hcat) as (Hpick & Hhead & Hother).
    destruct (firstOther_head m1) as [Hh1 Hh2].
    exists models,
      (findFallbackModelAmong (cachedModelsAt w4 =? cachedModelsAt w2)
                              FALLBACK_MODELS models m1), w4.
    split; [exact Hg |]. split.
    { cbv zeta. split; [exact Hpick |]. split; [| exact Hother].
      intro Hsame. rewrite (Hhead Hsame). split; [exact Hh1 | exact Hh2]. }
    split.
    { destruct (same_model_false _ _ _ Ht Hne) as [H | (Ha & Hb & Hc)];
        [now left | right].
      split; [exact Ha |]. split; [exact Hb |]. now apply Z.eqb_neq. }
    split; [exact Ht |].
    split; [exact Hcalls |]. split; [exact Hrej | exact Hacc].
Qed.

(** ** processItem *)

Lemma itemMessages_normalized (title abstract prompt : value) :
  normalizeMessagesForVision (itemMessages title abstract prompt)
  = inr (itemMessages title abstract prompt)
  /\ hasVisionRequest (itemMessages title abstract prompt) = inr false.
Proof.
  unfold itemMessages, normalizeMessagesForVision, hasVisionRequest.
  cbn [map_throwing some_throwing].
  unfold normalizeMessage, messageHasVision.
  cbn [prop opt_prop lookup String.eqb Ascii.eqb Bool.eqb isArray].
  assert (Hp : truthy (Str (fullPrompt title abstract prompt)) = true).
  { unfold fullPrompt. reflexivity. }
  unfold or_else at 1 2. rewrite Hp. now split.
Qed.

(** [processItem] with a connected add-on and a 2xx answer whose JSON is
    not null.  One request goes to the chat endpoint, not streamed and
    without the vision header: the system prompt, then the title, the
    abstract and the prompt as the user's message, an item with no
    abstract getting the placeholder.  The model asked for is the
    preference, and grok-code-fast-1 when there is none.  The result is
    the [content] of the answer, else the content of the message of its
    first choice, else the empty string. *)
Theorem processItem_answer (title abstract prompt : value) (defaultModel : string)
        (temp tokens : value) (w : World)
        (tok : value) (w1 : World) (m1 : value) (w2 : World)
        (x : Exchange) (rest : list Exchange) (r1 : Response) (data : value) :
  getSessionToken w = (Returned tok, w1) ->
  resolveModel (if (defaultModel =? "")%string then "grok-code-fast-1"
                else defaultModel) w1
  = (Returned m1, w2) ->
  network w2 = x :: rest -> outcome x = inr r1 ->
  ok r1 = true -> bodyError r1 = None ->
  JSON_parse (concat_chunks (body r1)) = inr data ->
  data <> Null -> data <> Undefined ->
  let blank := String "010"%char (String "010"%char EmptyString) in
  let asked :=
    ("Paper: " ++ ToString (if truthy title then title else Str "") ++ blank
     ++ "Abstract: "
     ++ (if truthy abstract then ToString abstract else "(No abstract available)")
     ++ blank ++ ToString prompt)%string in
  let request :=
    mkRequest "https://api.githubcopilot.com/chat/completions" "POST"
      [("Authorization", ("Bearer " ++ ToString tok)%string);
       ("Content-Type", "application/json");
       ("Editor-Version", "vscode/1.96.0");
       ("Copilot-Integration-Id", "vscode-chat");
       ("Accept", "application/json")]
      (Some (JSON_stringify
               (Obj [("model", m1);
                     ("messages",
                      Arr [Obj [("role", Str "system");
                                ("content",
                                 Str "You are an academic research assistant. Provide concise, accurate responses about scientific papers.")];
                           Obj [("role", Str "user"); ("content", Str asked)]]);
                     ("stream", Bool false);
                     ("temperature", temp); ("max_tokens", tokens)]))) in
  processItem title abstract prompt defaultModel temp tokens w
  = (Returned
       (if truthy (opt_prop data "content") then opt_prop data "content"
        else
          let first_ :=
            opt_prop (opt_prop (opt_first (opt_prop data "choices")) "message")
                     "content" in
          if truthy first_ then first_ else Str ""),
     answered request w2)
  /\ requests (answered request w2) = (requests w2 ++ [request])%list
  /\ filter (fun q => (url q =? "https://api.githubcopilot.com/chat/completions")%string)
            (requests (answered request w2))
     = (filter (fun q => (url q =? "https://api.githubcopilot.com/chat/completions")%string)
               (requests w)
        ++ [request])%list.
Proof.
  intros Hs Hr Hnet Hout Hok Hbody Hparse Hnull Hundef blank asked request.
  destruct (itemMessages_normalized title abstract prompt) as [Hn Hv].
  destruct (chat_first_accepted _ (itemMessages title abstract prompt)
              false false temp tokens w tok w1 m1 w2
              (itemMessages title abstract prompt) false x rest r1
              Hs Hr Hn Hv Hnet Hout Hok) as [Hrun Hcalls].
  assert (Hasked : fullPrompt title abstract prompt = asked).
  { unfold fullPrompt, asked, or_else, blank_line, newline.
    destruct (truthy title), (truthy abstract) eqn:Ha; cbn [truthy String.eqb negb];
      rewrite ?Ha; reflexivity. }
  assert (Hreq : chatRequest (buildHeaders false false tok) m1
                             (itemMessages title abstract prompt) false temp tokens
                 = request).
  { unfold request, chatRequest, chatBody, itemMessages, buildHeaders.
    now rewrite Hasked. }
  rewrite Hreq in Hrun, Hcalls.
  split; [| split; [apply answered_requests | exact Hcalls]].
  unfold processItem. unfold bind at 1.
  change DEFAULT_MODEL with "grok-code-fast-1". rewrite Hrun.
  unfold json, bind, text. rewrite Hbody. cbn [ret]. rewrite Hparse.
  cbn [lift ret].
  assert (Hp : prop data "content" = inr (opt_prop data "content")).
  { destruct data; try reflexivity; contradiction. }
  rewrite Hp. cbn [lift ret]. unfold or_else.
  destruct (truthy (opt_prop data "content")) eqn:E; rewrite ?E; reflexivity.
Qed.

End WithHost.

(** A run on the reference host: gpt-5 is refused with a 404 that names
    the model; the chat endpoint is called a second and last time, with
    another model. *)
Lemma C2_witness :
  let w := retryWorld hello_stream in
  let run := chat (host := RefHost.host) "gpt-5" oneQuestion true true
                  (Num 0) (Num 2000) in
  let sent := fun m : value =>
    mkRequest "https://api.githubcopilot.com/chat/completions" "POST"
      [("Authorization", "Bearer session-old");
       ("Content-Type", "application/json");
       ("Editor-Version", "vscode/1.96.0");
       ("Copilot-Integration-Id", "vscode-chat");
       ("Accept", "text/event-stream")]
      (Some (RefHost.JSON_stringify
               (Obj [("model", m); ("messages", oneQuestion); ("stream", Bool true);
                     ("temperature", Num 0); ("max_tokens", Num 2000)]))) in
  exists m2,
    m2 <> Str "gpt-5"
    /\ filter (fun q => (url q =? "https://api.githubcopilot.com/chat/completions")%string)
              (requests (after run w))
       = [sent (Str "gpt-5"); sent m2].
Proof.
  intros w run sent.
  destruct (proj2 (proj2
              (C2_chat_retry (host := RefHost.host) "gpt-5" oneQuestion true true
                 (Num 0) (Num 2000) w
                 (Str "session-old") (after (getSessionToken (host := RefHost.host)) w)
                 (Str "gpt-5")
                 (after (resolveModel (host := RefHost.host) "gpt-5") w)
                 oneQuestion false
                 (answer 40 404
                    (RefHost.dq "{'error':{'message':'model not found'}}"))
                 [answer 50 200 hello_stream]
                 (mkResponse 404 "" None
                    [RefHost.dq "{'error':{'message':'model not found'}}"]
                    None)
                 (reachable_start [sessionLogin 10; accessLogin] true t0 _)
                 ltac:(vm_compute; reflexivity) ltac:(vm_compute; reflexivity)
                 ltac:(vm_compute; reflexivity) ltac:(vm_compute; reflexivity)
                 ltac:(vm_compute; reflexivity) ltac:(vm_compute; reflexivity)
                 ltac:(vm_compute; reflexivity) ltac:(vm_compute; reflexivity)))
              ltac:(split; [right; left; reflexivity | left; vm_compute; reflexivity]))
    as (models & m2 & w4 & _ & _ & Hne & _ & Hcalls & _).
  exists m2. split; [| exact Hcalls].
  destruct Hne as [Hne | (_ & Href & _)]; [exact Hne | discriminate].
Defined.

(** C2, the claim as stated, fails: a 422 whose body is about a parameter
    and names no model is retried, because its text holds the word
    unsupported.  The chat endpoint is called twice, the second time with
    the head of the ranked list, and the answer to the retry is the
    result. *)
Lemma C2_counterexample :
  let run := chat (host := RefHost.host) "gpt-5" oneQuestion true true
                  (Num 0) (Num 2000) in
  includes (toLowerCase "Unsupported parameter: temperature") "model" = false
  /\ result run unsupportedParameterWorld
     = Returned (Obj [("content", Str "Hello"); ("model", Str "unknown")])
  /\ map modelSent (chatCalls (after run unsupportedParameterWorld))
     = [Str "gpt-5"; Str "claude-sonnet-4.5"].
Proof. intro run. repeat split; vm_compute; reflexivity. Qed.

(** A catalog whose one identifier is an object: the model tried is that
    object, the pick from the catalog at the retry is the same object, and
    the retry goes to the head of the ranked list. *)
Lemma chat_retry_object_model :
  let run := chat (host := RefHost.host) "gpt-5" oneQuestion true true
                  (Num 0) (Num 2000) in
  map modelSent (chatCalls (after run objectModelWorld))
  = [Obj [("family", Str "gpt"); ("version", Num 5)]; Str "claude-sonnet-4.5"].
Proof. vm_compute. reflexivity. Qed.

(** A fresh add-on that was never connected. *)
Lemma chat_not_connected_witness :
  chat (host := RefHost.host) "gpt-5" oneQuestion true true (Num 0) (Num 2000)
       (freshWorld t0 [])
  = (Thrown (Error "Not authenticated. Please connect to GitHub Copilot."),
     freshWorld t0 []).
Proof.
  exact (proj1 (chat_not_connected (host := RefHost.host) "gpt-5" oneQuestion
                  true true (Num 0) (Num 2000) Null Null Null ""
                  (freshWorld t0 [])
                  ltac:(left; reflexivity) ltac:(left; reflexivity))).
Defined.

(** A question with a picture, answered at once: the one request to the
    chat endpoint has the picture as a part of the message and the vision
    header. *)
Lemma chat_accepted_witness :
  let w := connectedWorld
             [answer 30 200 (RefHost.dq "{'data':[{'id':'gpt-5'}]}");
              answer 50 200 hello_stream] in
  let run := chat (host := RefHost.host) "gpt-5" pictureQuestion true true
                  (Num 0) (Num 2000) in
  filter (fun q => (url q =? "https://api.githubcopilot.com/chat/completions")%string)
         (requests (after run w))
  = [mkRequest "https://api.githubcopilot.com/chat/completions" "POST"
       [("Authorization", "Bearer session-old");
        ("Content-Type", "application/json");
        ("Editor-Version", "vscode/1.96.0");
        ("Copilot-Integration-Id", "vscode-chat");
        ("Accept", "text/event-stream");
        ("Copilot-Vision-Request", "true")]
       (Some (RefHost.JSON_stringify
                (Obj [("model", Str "gpt-5"); ("messages", pictureParts);
                      ("stream", Bool true);
                      ("temperature", Num 0); ("max_tokens", Num 2000)])))].
Proof.
  intros w run.
  destruct (chat_accepted (host := RefHost.host) "gpt-5" pictureQuestion true true
              (Num 0) (Num 2000) w
              (Str "session-old") w (Str "gpt-5")
              (after (resolveModel (host := RefHost.host) "gpt-5") w)
              pictureParts true
              (answer 50 200 hello_stream) []
              (mkResponse 200 "" None [hello_stream] None)
              ltac:(vm_compute; reflexivity) ltac:(vm_compute; reflexivity)
              ltac:(vm_compute; reflexivity) ltac:(vm_compute; reflexivity)
              ltac:(vm_compute; reflexivity) ltac:(vm_compute; reflexivity)
              ltac:(vm_compute; reflexivity))
    as (_ & Hcalls & _).
  exact Hcalls.
Defined.

(** An item without an abstract, summarised by the model of the
    preferences: the request sent and the summary returned. *)
Lemma processItem_answer_witness :
  let w := connectedWorld
             [answer 30 200 (RefHost.dq "{'data':[{'id':'gpt-5'}]}");
              answer 50 200 (completion_json "A short summary.")] in
  let run := processItem (host := RefHost.host) (Str "On Proofs") Undefined
               (Str "Provide a brief summary of this paper (2-3 sentences).")
               "gpt-5" (Num 0) (Num 2000) in
  let blank := String "010"%char (String "010"%char EmptyString) in
  result run w = Returned (Str "A short summary.")
  /\ filter (fun q => (url q =? "https://api.githubcopilot.com/chat/completions")%string)
            (requests (after run w))
     = [mkRequest "https://api.githubcopilot.com/chat/completions" "POST"
          [("Authorization", "Bearer session-old");
           ("Content-Type", "application/json");
           ("Editor-Version", "vscode/1.96.0");
           ("Copilot-Integration-Id", "vscode-chat");
           ("Accept", "application/json")]
          (Some (RefHost.JSON_stringify
                   (Obj [("model", Str "gpt-5");
                         ("messages",
                          Arr [Obj [("role", Str "system");
                                    ("content",
                                     Str "You are an academic research assistant. Provide concise, accurate responses about scientific papers.")];
                               Obj [("role", Str "user");
                                    ("content",
                                     Str ("Paper: On Proofs" ++ blank
                                          ++ "Abstract: (No abstract available)" ++ blank
                                          ++ "Provide a brief summary of this paper (2-3 sentences)."))]]);
                         ("stream", Bool false);
                         ("temperature", Num 0); ("max_tokens", Num 2000)])))].
Proof.
  intros w run blank.
  destruct (processItem_answer (host := RefHost.host) (Str "On Proofs") Undefined
              (Str "Provide a brief summary of this paper (2-3 sentences).")
              "gpt-5" (Num 0) (Num 2000) w
              (Str "session-old") w (Str "gpt-5")
              (after (resolveModel (host := RefHost.host) "gpt-5") w)
              (answer 50 200 (completion_json "A short summary.")) []
              (mkResponse 200 "" None [completion_json "A short summary."] None)
              (Obj [("choices",
                     Arr [Obj [("message",
                                Obj [("content", Str "A short summary.")])]])])
              ltac:(vm_compute; reflexivity) ltac:(vm_compute; reflexivity)
              ltac:(vm_compute; reflexivity) ltac:(vm_compute; reflexivity)
              ltac:(vm_compute; reflexivity) ltac:(vm_compute; reflexivity)
              ltac:(vm_compute; reflexivity)
              ltac:(discriminate) ltac:(discriminate))
    as (Hrun & _ & Hcalls).
  fold run in Hrun. unfold result, after. rewrite Hrun. cbn [fst snd].
  split; [reflexivity | exact Hcalls].
Defined.

End ChatRunFacts.
